(** * ThingsBoard bootstrapper: a shallow embedding of
      [ansible/roles/thingsboard/files/configure_thingsboard.py]

    The script reconciles devices, device credentials and the root rule
    chain of a remote ThingsBoard instance through its REST API.  The
    embedding keeps the script's shape:

    - decoded JSON is one untyped value type ([json]); Python's operations
      on it ([.get], [d[k]], [d[k] = v], iteration, [in], [==], truthiness,
      [.append]) are total functions into [result], raising the exception
      Python raises;
    - the outside world (network, clock, entropy) is an abstract
      [Environment]; every function that talks to it lives in the state
      and exception monad [M], which also records each request with its
      response and each line printed.

    A request is _sent_ (or _issued_) when the script hands it to
    [urlopen]: the log of a run holds these calls, in order.  What the
    HTTP library and the network make of a call is the [response]
    recorded with it: an answer, a failure, or an exception of the
    library, which may refuse a request before anything is on the wire. *)

From Stdlib Require Import ZArith String List Bool Lia.
From stdpp Require Import base list strings.

#[local] Set Warnings "-register-all".

Local Open Scope Z_scope.
Local Open Scope string_scope.
Local Open Scope list_scope.

(** ** JSON values as Python sees them after [json.loads] *)

(** Objects keep their keys in insertion order, like a Python [dict];
    numbers are the integers the platform uses for positions and
    timestamps. *)
Inductive json : Type :=
| JNull
| JBool (b : bool)
| JNum (n : Z)
| JStr (s : string)
| JArr (items : list json)
| JObj (fields : list (string * json)).

(** The paths the script requests; the comment gives the f-string. *)
Inductive endpoint : Type :=
| DevicesSearch (text : string)
    (* /api/tenant/devices?pageSize=50&page=0&textSearch={quote_plus(text)} *)
| Device                              (* /api/device *)
| DeviceCredentialsOf (dev_id : json) (* /api/device/{dev_id}/credentials *)
| DeviceCredentials                   (* /api/device/credentials *)
| RuleChainsSearch (text : string)
    (* /api/ruleChains?pageSize=50&page=0&textSearch={quote_plus(text)} *)
| RuleChainMetadataOf (chain_id : json) (* /api/ruleChain/{chain_id}/metadata *)
| RuleChainMetadata.                  (* /api/ruleChain/metadata *)

(** How a [RequestError] message was built. *)
Inductive message : Type :=
| HttpStatus (code : Z) (path : endpoint) (detail : string)
    (* f"HTTP {code} for {path}: {detail}" *)
| RequestFailed (path : endpoint) (reason : string)
    (* f"Request to {path} failed: {err}" *)
| Text (s : string).

Inductive exn : Type :=
| RequestError (m : message)
| KeyError (key : string)
| TypeError
| AttributeError
| ValueError
| LibraryError (cls : string).
    (* an exception of the HTTP library that [_http_request] does not
       catch, by its class: InvalidURL, RemoteDisconnected, TimeoutError *)

Inductive result (A : Type) : Type :=
| Ok (a : A)
| Raise (e : exn).
Arguments Ok {A} a.
Arguments Raise {A} e.

Definition rbind {A B} (r : result A) (k : A -> result B) : result B :=
  match r with
  | Ok a => k a
  | Raise e => Raise e
  end.

Declare Scope result_scope.
Delimit Scope result_scope with result.
Notation "x <- r ;; k" := (rbind r (fun x => k))
  (at level 100, r at next level, right associativity) : result_scope.

(** ** Python's operations on decoded JSON *)
Module Py.

(** [bool(v)] *)
Definition truthy (v : json) : bool :=
  match v with
  | JNull => false
  | JBool b => b
  | JNum n => negb (Z.eqb n 0)
  | JStr s => negb (String.eqb s "")
  | JArr items => match items with [] => false | _ => true end
  | JObj fields => match fields with [] => false | _ => true end
  end.

(** [a or b] *)
Definition or_else (a b : json) : json := if truthy a then a else b.

Fixpoint lookup_key (k : string) (fields : list (string * json)) : option json :=
  match fields with
  | [] => None
  | (k', v) :: rest => if String.eqb k k' then Some v else lookup_key k rest
  end.

(** [d.get(k, default)]; only a dict has the method. *)
Definition get (d : json) (k : string) (default : json) : result json :=
  match d with
  | JObj fields => Ok (match lookup_key k fields with Some v => v | None => default end)
  | _ => Raise AttributeError
  end.

(** [d[k]] for a string key. *)
Definition getitem (d : json) (k : string) : result json :=
  match d with
  | JObj fields =>
      match lookup_key k fields with Some v => Ok v | None => Raise (KeyError k) end
  | _ => Raise TypeError
  end.

(** Storing under a key of a dict: an existing key keeps its place, a
    new key goes last. *)
Fixpoint set_key (fields : list (string * json)) (k : string) (v : json)
  : list (string * json) :=
  match fields with
  | [] => [(k, v)]
  | (k', v') :: rest =>
      if String.eqb k k' then (k, v) :: rest else (k', v') :: set_key rest k v
  end.

(** [d[k] = v] for a string key. *)
Definition setitem (d : json) (k : string) (v : json) : result json :=
  match d with
  | JObj fields => Ok (JObj (set_key fields k v))
  | _ => Raise TypeError
  end.

Fixpoint chars (s : string) : list json :=
  match s with
  | EmptyString => []
  | String c rest => JStr (String c EmptyString) :: chars rest
  end.

(** The elements a [for] loop (or a generator expression) walks over. *)
Definition iter (v : json) : result (list json) :=
  match v with
  | JArr items => Ok items
  | JStr s => Ok (chars s)
  | JObj fields => Ok (map (fun kv => JStr (fst kv)) fields)
  | _ => Raise TypeError
  end.

(** [l.append(x)]; only a list has the method. *)
Definition append (l x : json) : result json :=
  match l with
  | JArr items => Ok (JArr (items ++ [x]))
  | _ => Raise AttributeError
  end.

(** [v == s] for a [str] on the right. *)
Definition eq_str (v : json) (s : string) : bool :=
  match v with
  | JStr s' => String.eqb s' s
  | _ => false
  end.

(** [v == n] for an [int] on the right ([True == 1] and [False == 0]). *)
Definition eq_int (v : json) (n : Z) : bool :=
  match v with
  | JNum m => Z.eqb m n
  | JBool b => Z.eqb (if b then 1 else 0) n
  | _ => false
  end.

(** [needle in hay] for two strings. *)
Fixpoint substring_of (needle hay : string) : bool :=
  String.prefix needle hay
  || match hay with
     | EmptyString => false
     | String _ rest => substring_of needle rest
     end.

(** [needle in v] for a [str] on the left. *)
Definition str_in (needle : string) (v : json) : result bool :=
  match v with
  | JStr s => Ok (substring_of needle s)
  | JArr items => Ok (existsb (fun x => eq_str x needle) items)
  | JObj fields => Ok (match lookup_key needle fields with Some _ => true | None => false end)
  | _ => Raise TypeError
  end.

(** [len(v)] *)
Definition len (v : json) : result Z :=
  match v with
  | JArr items => Ok (Z.of_nat (length items))
  | JStr s => Ok (Z.of_nat (String.length s))
  | JObj fields => Ok (Z.of_nat (length fields))
  | _ => Raise TypeError
  end.

End Py.

(** ** Requests, responses and the outside world *)

Inductive method : Type := GET | POST.

(** The [urllib.request.Request] the script builds: JSON content type
    always, an [X-Authorization] header only for a non-empty token. *)
Record request : Type := {
  req_path : endpoint;
  req_method : method;
  req_data : option json;
  req_authorization : option string
}.

(** What [urlopen] and reading the body can do.  [HTTPError] and
    [URLError] are the two exceptions [_http_request] catches.  Any
    other exception leaves [_http_request] as it is: [InvalidURL], with
    which the library refuses a path holding a blank or a control
    character before it sends anything, [RemoteDisconnected] or a
    timeout while the answer is read, a failure while the error body is
    decoded. *)
Inductive response : Type :=
| Success (body : option json)       (* 2xx; [None] is an empty body *)
| HTTPError (code : Z) (detail : string)
| URLError (reason : string)
| Undecodable                        (* 2xx with a body [json.loads] rejects *)
| Crashed (cls : string).            (* another exception, by its class *)

Class Environment (R : Type) : Type := {
  urlopen : request -> R -> response * R;
  uuid4 : R -> string * R;           (* str(uuid4()) *)
  time_ms : R -> Z * R               (* int(time.time() * 1000) *)
}.

(** A request together with what came back. *)
Definition exchange : Type := request * response.

Record World (R : Type) : Type := {
  env : R;
  log : list exchange;               (* every call of [urlopen], oldest first *)
  stdout : list string               (* every line printed, oldest first *)
}.
Arguments env {R} _.
Arguments log {R} _.
Arguments stdout {R} _.

(** ** The state and exception monad of the script *)

Definition M (R A : Type) : Type := World R -> result A * World R.

Definition ret {R A} (a : A) : M R A := fun w => (Ok a, w).

Definition raise {R A} (e : exn) : M R A := fun w => (Raise e, w).

Definition bind {R A B} (m : M R A) (k : A -> M R B) : M R B :=
  fun w =>
    match m w with
    | (Ok a, w') => k a w'
    | (Raise e, w') => (Raise e, w')
    end.

Definition lift {R A} (r : result A) : M R A := fun w => (r, w).

(** [try: m except RequestError: handler] *)
Definition try_except_RequestError {R A} (m handler : M R A) : M R A :=
  fun w =>
    match m w with
    | (Raise (RequestError _), w') => handler w'
    | other => other
    end.

Definition print {R} (line : string) : M R unit :=
  fun w => (Ok tt, {| env := env w; log := log w; stdout := stdout w ++ [line] |}).

(** A run from a fresh log. *)
Definition run {R A} (m : M R A) (r : R) : result A * World R :=
  m {| env := r; log := []; stdout := [] |}.

Declare Scope monad_scope.
Delimit Scope monad_scope with monad.
Notation "x <- m ;; k" := (bind m (fun x => k))
  (at level 100, m at next level, right associativity) : monad_scope.
Notation "m ;;; k" := (bind m (fun _ => k))
  (at level 100, right associativity) : monad_scope.

Section Script.

Context {R : Type} `{Environment R}.

(** Module-level configuration read from the process environment. *)
Variable KAFKA_BOOTSTRAP : string.
Variable KAFKA_TOPIC : string.

Local Open Scope monad_scope.

Definition bearer (token : option string) : option string :=
  match token with
  | Some t => if String.eqb t "" then None else Some ("Bearer " +:+ t)
  | None => None
  end.

Definition request_of (path : endpoint) (meth : method)
    (payload : option json) (token : option string) : request :=
  {| req_path := path; req_method := meth;
     req_data := payload; req_authorization := bearer token |}.

(** The [with]/[except] part of [_http_request]: the decoded body, or
    the exception raised. *)
Definition decoded (path : endpoint) (resp : response) : result json :=
  match resp with
  | Success None => Ok JNull
  | Success (Some body) => Ok body
  | HTTPError code detail => Raise (RequestError (HttpStatus code path detail))
  | URLError reason => Raise (RequestError (RequestFailed path reason))
  | Undecodable => Raise ValueError
  | Crashed cls => Raise (LibraryError cls)
  end.

Definition _http_request (path : endpoint) (meth : method)
    (payload : option json) (token : option string) : M R json :=
  fun w =>
    let req := request_of path meth payload token in
    let (resp, r') := urlopen req (env w) in
    (decoded path resp,
     {| env := r'; log := log w ++ [(req, resp)]; stdout := stdout w |}).

(** The loop shared by [find_device] and [find_rule_chain]:
    [for item in ...: if item.get("name") == name: return item] and
    [return None] after it. *)
Fixpoint first_named (name : string) (items : list json) : result json :=
  match items with
  | [] => Ok JNull
  | item :: rest =>
      (v <- Py.get item "name" JNull ;;
       if Py.eq_str v name then Ok item else first_named name rest)%result
  end.

(** Lines 83-87 and 123-127: [... or {}], then the loop over
    [page.get("data", [])]. *)
Definition named_item (name : string) (fetched : json) : result json :=
  (let page := Py.or_else fetched (JObj []) in
   data <- Py.get page "data" (JArr []) ;;
   items <- Py.iter data ;;
   first_named name items)%result.

Definition find_device (token name : string) : M R json :=
  fetched <- _http_request (DevicesSearch name) GET None (Some token) ;;
  lift (named_item name fetched).

Definition find_rule_chain (token name : string) : M R json :=
  fetched <- _http_request (RuleChainsSearch name) GET None (Some token) ;;
  lift (named_item name fetched).

Definition fresh_uuid : M R string :=
  fun w =>
    let (u, r') := uuid4 (env w) in
    (Ok u, {| env := r'; log := log w; stdout := stdout w |}).

Definition now_ms : M R Z :=
  fun w =>
    let (t, r') := time_ms (env w) in
    (Ok t, {| env := r'; log := log w; stdout := stdout w |}).

(** Lines 102-109: the credential upsert payload. *)
Definition cred_payload (access_token : string) (dev_id credentials : json)
  : result json :=
  let own := JObj [("entityType", JStr "DEVICE"); ("id", dev_id)] in
  let payload := JObj [("credentialsType", JStr "ACCESS_TOKEN");
                       ("credentialsId", JStr access_token);
                       ("deviceId", own)] in
  if Py.truthy credentials then
    (cid <- Py.get credentials "id" JNull ;;
     if Py.truthy cid then
       cid' <- Py.getitem credentials "id" ;;
       payload <- Py.setitem payload "id" cid' ;;
       owner <- Py.get credentials "deviceId" own ;;
       Py.setitem payload "deviceId" owner
     else Ok payload)%result
  else Ok payload.

Definition ensure_device (token name access_token : string) : M R json :=
  found <- find_device token name ;;
  device <- (if Py.truthy found then ret found
             else
               created <- _http_request Device POST
                            (Some (JObj [("name", JStr name); ("type", JStr "drone")]))
                            (Some token) ;;
               print ("[+] Created device " +:+ name) ;;;
               ret created) ;;
  device_ref <- lift (Py.getitem device "id") ;;
  dev_id <- lift (Py.getitem device_ref "id") ;;
  credentials <- _http_request (DeviceCredentialsOf dev_id) GET None (Some token) ;;
  payload <- lift (cred_payload access_token dev_id credentials) ;;
  _http_request DeviceCredentials POST (Some payload) (Some token) ;;;
  ret device.

Definition KAFKA_NODE_TYPE : string := "org.thingsboard.rule.engine.kafka.TbKafkaNode".
Definition MSG_SWITCH : string := "TbMsgTypeSwitchNode".
Definition POST_TELEMETRY : string := "Post telemetry".

(** [next((idx for idx, node in enumerate(nodes) if test(node)), None)],
    the walk over the elements from position [idx] on. *)
Fixpoint first_index (test : json -> result bool) (nodes : list json) (idx : Z)
  : result (option Z) :=
  match nodes with
  | [] => Ok None
  | node :: rest =>
      (b <- test node ;;
       if b then Ok (Some idx) else first_index test rest (idx + 1))%result
  end.

Definition next_index (test : json -> result bool) (nodes : json)
  : result (option Z) :=
  (items <- Py.iter nodes ;; first_index test items 0)%result.

(** [any(test(conn) for conn in connections)], over the elements. *)
Fixpoint any_of (test : json -> result bool) (items : list json) : result bool :=
  match items with
  | [] => Ok false
  | item :: rest =>
      (b <- test item ;; if b then Ok true else any_of test rest)%result
  end.

Definition any (test : json -> result bool) (connections : json) : result bool :=
  (items <- Py.iter connections ;; any_of test items)%result.

(** [node.get("type") == "org.thingsboard.rule.engine.kafka.TbKafkaNode"] *)
Definition is_kafka_node (node : json) : result bool :=
  (t <- Py.get node "type" JNull ;; Ok (Py.eq_str t KAFKA_NODE_TYPE))%result.

(** ["TbMsgTypeSwitchNode" in node.get("type", "")] *)
Definition is_msg_switch (node : json) : result bool :=
  (t <- Py.get node "type" (JStr "") ;; Py.str_in MSG_SWITCH t)%result.

(** [conn.get("fromIndex") == msg_switch_index and
     conn.get("toIndex") == kafka_index] *)
Definition links (msg_switch_index kafka_index : Z) (conn : json) : result bool :=
  (f <- Py.get conn "fromIndex" JNull ;;
   if Py.eq_int f msg_switch_index then
     t <- Py.get conn "toIndex" JNull ;; Ok (Py.eq_int t kafka_index)
   else Ok false)%result.

(** Lines 154-179. *)
Definition kafka_node (uuid : string) (created : Z) (chain_id : json) : json :=
  JObj [("id", JObj [("entityType", JStr "RULE_NODE"); ("id", JStr uuid)]);
        ("createdTime", JNum created);
        ("ruleChainId", JObj [("entityType", JStr "RULE_CHAIN"); ("id", chain_id)]);
        ("type", JStr KAFKA_NODE_TYPE);
        ("name", JStr "Kafka sink");
        ("debugSettings", JNull);
        ("singletonMode", JBool false);
        ("queueName", JNull);
        ("configurationVersion", JNum 0);
        ("configuration",
         JObj [("topic", JStr KAFKA_TOPIC);
               ("bootstrapServers", JStr KAFKA_BOOTSTRAP);
               ("sync", JBool false);
               ("timeout", JNum 3000);
               ("retries", JNum 1);
               ("acks", JStr "1");
               ("batchSize", JNum 16384);
               ("linger", JNum 1);
               ("maxRequestSize", JNum 1048576);
               ("key", JStr "${deviceName}");
               ("addMetadata", JBool false)]);
        ("externalId", JNull);
        ("additionalInfo", JObj [("layoutX", JNum 1000); ("layoutY", JNum 320)])].

(** Line 188. *)
Definition telemetry_edge (msg_switch_index kafka_index : Z) : json :=
  JObj [("fromIndex", JNum msg_switch_index);
        ("toIndex", JNum kafka_index);
        ("type", JStr POST_TELEMETRY)].

(** Lines 153-182: the sink node, appended when [kafka_index is None];
    the result is the node sequence and the sink's position. *)
Definition with_kafka_node (chain_id nodes : json) (kafka_index : option Z)
  : M R (json * Z) :=
  match kafka_index with
  | Some idx => ret (nodes, idx)
  | None =>
      uuid <- fresh_uuid ;;
      created <- now_ms ;;
      nodes' <- lift (Py.append nodes (kafka_node uuid created chain_id)) ;;
      n <- lift (Py.len nodes') ;;
      print "[+] Added Kafka sink node to Root Rule Chain" ;;;
      ret (nodes', n - 1)
  end.

(** Lines 184-189: the edge, appended when no connection links the two
    positions. *)
Definition with_telemetry_edge (connections : json)
    (msg_switch_index kafka_index : Z) : M R json :=
  linked <- lift (any (links msg_switch_index kafka_index) connections) ;;
  if linked then ret connections
  else
    connections' <- lift (Py.append connections
                            (telemetry_edge msg_switch_index kafka_index)) ;;
    print "[+] Linked Message Type Switch to Kafka sink for Post telemetry" ;;;
    ret connections'.

(** Lines 194-207: the write, first to the chain's own path. *)
Definition write_metadata (token : string) (chain_id metadata : json) : M R json :=
  try_except_RequestError
    (_http_request (RuleChainMetadataOf chain_id) POST (Some metadata) (Some token))
    (_http_request RuleChainMetadata POST (Some metadata) (Some token)).

(** Line 139: [metadata.get("nodes", [])]. *)
Definition nodes_of (metadata : json) : result json :=
  Py.get metadata "nodes" (JArr []).

(** Line 140: [metadata.get("connections", []) or []]. *)
Definition connections_of (metadata : json) : result json :=
  (listed <- Py.get metadata "connections" (JArr []) ;;
   Ok (Py.or_else listed (JArr [])))%result.

(** Lines 139-209: everything after the metadata was fetched. *)
Definition install_kafka_sink (token : string) (root_chain chain_id metadata : json)
  : M R json :=
  nodes <- lift (nodes_of metadata) ;;
  connections <- lift (connections_of metadata) ;;
  kafka_index <- lift (next_index is_kafka_node nodes) ;;
  msg_switch_index <- lift (next_index is_msg_switch nodes) ;;
  match msg_switch_index with
  | None =>
      raise (RequestError (Text "Message Type Switch node not found in root rule chain"))
  | Some msg_switch_index =>
      sink <- with_kafka_node chain_id nodes kafka_index ;;
      let nodes := fst sink in
      let kafka_index := snd sink in
      connections <- with_telemetry_edge connections msg_switch_index kafka_index ;;
      metadata <- lift (Py.setitem metadata "nodes" nodes) ;;
      metadata <- lift (Py.setitem metadata "connections" connections) ;;
      write_metadata token chain_id metadata ;;;
      print "[+] Root Rule Chain updated with Kafka forwarding" ;;;
      ret root_chain
  end.

Definition ensure_kafka_sink_in_root_chain (token : string) : M R json :=
  root_chain <- find_rule_chain token "Root Rule Chain" ;;
  if Py.truthy root_chain then
    chain_ref <- lift (Py.getitem root_chain "id") ;;
    chain_id <- lift (Py.getitem chain_ref "id") ;;
    fetched <- _http_request (RuleChainMetadataOf chain_id) GET None (Some token) ;;
    install_kafka_sink token root_chain chain_id (Py.or_else fetched (JObj []))
  else raise (RequestError (Text "Root Rule Chain not found")).

End Script.

(** ** Reading a run's log *)

Definition is_metadata_fetch (x : exchange) : bool :=
  match req_path (fst x), req_method (fst x) with
  | RuleChainMetadataOf _, GET => true
  | _, _ => false
  end.

(** The graph document a run worked on: the answer to its metadata
    fetch, after [or {}]. *)
Definition fetched_metadata (l : list exchange) : option json :=
  match List.find is_metadata_fetch l with
  | Some (_, Success body) =>
      Some (Py.or_else (match body with Some doc => doc | None => JNull end) (JObj []))
  | _ => None
  end.

Definition is_metadata_write (x : exchange) : bool :=
  match req_path (fst x), req_method (fst x) with
  | RuleChainMetadataOf _, POST => true
  | RuleChainMetadata, POST => true
  | _, _ => false
  end.

(** The write requests of a run, oldest first. *)
Definition metadata_writes (l : list exchange) : list exchange :=
  List.filter is_metadata_write l.

(** ** Search results *)

Definition is_object (v : json) : Prop := exists fields, v = JObj fields.

(** An entry whose name field is exactly [name]. *)
Definition named (name : string) (entry : json) : Prop :=
  exists fields, entry = JObj fields /\ Py.lookup_key "name" fields = Some (JStr name).

(** An entry with any other name field, or none. *)
Definition named_otherwise (name : string) (entry : json) : Prop :=
  exists fields, entry = JObj fields /\ Py.lookup_key "name" fields <> Some (JStr name).

(** [selects name entries v]: [v] is the first entry named exactly
    [name], or [None] when no entry is. *)
Inductive selects (name : string) : list json -> json -> Prop :=
| selects_first before entry after :
    Forall (named_otherwise name) before ->
    named name entry ->
    selects name (before ++ entry :: after) entry
| selects_none entries :
    Forall (named_otherwise name) entries ->
    selects name entries JNull.

(** ** Entities and credentials in a log *)

Definition is_create (x : exchange) : bool :=
  match req_path (fst x), req_method (fst x) with
  | Device, POST => true
  | _, _ => false
  end.

Definition is_upsert (x : exchange) : bool :=
  match req_path (fst x), req_method (fst x) with
  | DeviceCredentials, POST => true
  | _, _ => false
  end.

(** The entity-create requests and the credential upserts of a run. *)
Definition creates (l : list exchange) : list exchange := List.filter is_create l.
Definition upserts (l : list exchange) : list exchange := List.filter is_upsert l.

(** A key of the payload a request carries. *)
Definition payload_key (k : string) (x : exchange) : option json :=
  match req_data (fst x) with
  | Some (JObj fields) => Py.lookup_key k fields
  | _ => None
  end.

(** The decoded answer to a credential fetch. *)
Definition fetched_record (x : exchange) : option json :=
  match req_path (fst x), req_method (fst x), snd x with
  | DeviceCredentialsOf _, GET, Success (Some record) => Some record
  | DeviceCredentialsOf _, GET, Success None => Some JNull
  | _, _, _ => None
  end.

(** The id a credential record carries: the [id] of an object when that
    id is truthy. *)
Definition credential_id (credentials : json) : option json :=
  match credentials with
  | JObj fields =>
      match Py.lookup_key "id" fields with
      | Some cid => if Py.truthy cid then Some cid else None
      | None => None
      end
  | _ => None
  end.

(** The reference to the entity built at line 105. *)
Definition own_reference (dev_id : json) : json :=
  JObj [("entityType", JStr "DEVICE"); ("id", dev_id)].

(** The owning-entity reference of a record, or [default] when the
    record has none. *)
Definition owner_of (credentials default : json) : json :=
  match credentials with
  | JObj fields =>
      match Py.lookup_key "deviceId" fields with
      | Some owner => owner
      | None => default
      end
  | _ => default
  end.

(** ** What the reconciler makes of a graph document *)

(** The sink's position once lines 153-182 ran: where it was found, or
    the end of the node sequence where it was appended. *)
Definition sink_index (nodes : list json) (kafka_index : option Z) : Z :=
  match kafka_index with
  | Some idx => idx
  | None => Z.of_nat (length nodes)
  end.

(** The node lines 153-182 append, if any. *)
Definition appended_nodes (bootstrap topic uuid : string) (created : Z)
    (chain_id : json) (kafka_index : option Z) : list json :=
  match kafka_index with
  | Some _ => []
  | None => [kafka_node bootstrap topic uuid created chain_id]
  end.

(** The edge lines 184-189 append, if any. *)
Definition appended_edges (msg_switch_index kafka_index : Z) (linked : bool)
  : list json :=
  if linked then [] else [telemetry_edge msg_switch_index kafka_index].

(** What lines 139-189 read off a document: its keys, its two
    sequences, the positions of the dispatch node and of the sink node
    (if any), and whether some connection already links the two. *)
Record reading : Type := {
  read_fields : list (string * json);
  read_nodes : list json;
  read_conns : list json;
  read_switch : Z;
  read_kafka : option Z;
  read_linked : bool
}.

Definition read_sink (rd : reading) : Z :=
  sink_index (read_nodes rd) (read_kafka rd).

Definition reads (metadata : json) (rd : reading) : Prop :=
  metadata = JObj (read_fields rd)
  /\ nodes_of metadata = Ok (JArr (read_nodes rd))
  /\ connections_of metadata = Ok (JArr (read_conns rd))
  /\ first_index is_kafka_node (read_nodes rd) 0 = Ok (read_kafka rd)
  /\ first_index is_msg_switch (read_nodes rd) 0 = Ok (Some (read_switch rd))
  /\ any_of (links (read_switch rd) (read_sink rd)) (read_conns rd)
     = Ok (read_linked rd).

(** The document lines 191-192 leave in [metadata] after such a reading. *)
Definition rewritten (bootstrap topic uuid : string) (created : Z)
    (chain_id : json) (rd : reading) : json :=
  JObj (Py.set_key
          (Py.set_key (read_fields rd) "nodes"
             (JArr (read_nodes rd
                    ++ appended_nodes bootstrap topic uuid created chain_id
                         (read_kafka rd))))
          "connections"
          (JArr (read_conns rd
                 ++ appended_edges (read_switch rd) (read_sink rd) (read_linked rd)))).

(** A node as the data model has it: an object whose type, when it has
    one, is a string. *)
Definition is_node (node : json) : Prop :=
  exists fields,
    node = JObj fields
    /\ (Py.lookup_key "type" fields = None
        \/ exists t, Py.lookup_key "type" fields = Some (JStr t)).

(** A node whose type contains the dispatch substring. *)
Definition dispatch_node (node : json) : Prop :=
  exists fields t,
    node = JObj fields
    /\ Py.lookup_key "type" fields = Some (JStr t)
    /\ Py.substring_of MSG_SWITCH t = true.

(** A node whose type equals the sink node type. *)
Definition sink_node (node : json) : Prop :=
  exists fields,
    node = JObj fields
    /\ Py.lookup_key "type" fields = Some (JStr KAFKA_NODE_TYPE).

(** An edge from position [d] to position [s], under any label. *)
Definition connects (d s : Z) (edge : json) : Prop :=
  exists fields from to,
    edge = JObj fields
    /\ Py.lookup_key "fromIndex" fields = Some from
    /\ Py.lookup_key "toIndex" fields = Some to
    /\ Py.eq_int from d = true
    /\ Py.eq_int to s = true.

(** An edge from [d] to [s] carrying the label [label]. *)
Definition connects_as (d s : Z) (label : string) (edge : json) : Prop :=
  exists fields,
    edge = JObj fields
    /\ connects d s edge
    /\ Py.lookup_key "type" fields = Some (JStr label).

(** [first_at P l i]: position [i] holds the first element of [l]
    satisfying [P]. *)
Definition first_at (P : json -> Prop) (l : list json) (i : Z) : Prop :=
  exists before x after,
    l = before ++ x :: after
    /\ Forall (fun y => ~ P y) before
    /\ P x
    /\ i = Z.of_nat (length before).

(** [test] runs without raising on [x] and decides [P] there. *)
Definition decides (test : json -> result bool) (P : json -> Prop) (x : json) : Prop :=
  exists b, test x = Ok b /\ (b = true <-> P x).

(** How many elements pass a check of the reconciler. *)
Definition count_where (test : json -> result bool) (l : list json) : nat :=
  length (List.filter (fun x => match test x with Ok true => true | _ => false end) l).

(** Where the sink is once lines 153-182 ran: at its first occurrence,
    or at the end of the sequence when there was none. *)
Definition sink_position (nodes : list json) (s : Z) : Prop :=
  first_at sink_node nodes s
  \/ (Forall (fun n => ~ sink_node n) nodes /\ s = Z.of_nat (length nodes)).

(** The requests lines 194-207 send for a document, and the outcome:
    the chain's own path first; the legacy path after it exactly when
    the first attempt raised a [RequestError]. *)
Definition own_write (token : string) (chain_id doc : json) : request :=
  request_of (RuleChainMetadataOf chain_id) POST (Some doc) (Some token).

Definition legacy_write (token : string) (doc : json) : request :=
  request_of RuleChainMetadata POST (Some doc) (Some token).

Inductive write_outcome (token : string) (chain_id doc : json)
  : list exchange -> option exn -> Prop :=
| own_path_accepted resp v :
    decoded (RuleChainMetadataOf chain_id) resp = Ok v ->
    write_outcome token chain_id doc [(own_write token chain_id doc, resp)] None
| own_path_crashed resp e :
    decoded (RuleChainMetadataOf chain_id) resp = Raise e ->
    (forall m, e <> RequestError m) ->
    write_outcome token chain_id doc [(own_write token chain_id doc, resp)] (Some e)
| legacy_path_accepted resp m resp' v :
    decoded (RuleChainMetadataOf chain_id) resp = Raise (RequestError m) ->
    decoded RuleChainMetadata resp' = Ok v ->
    write_outcome token chain_id doc
      [(own_write token chain_id doc, resp); (legacy_write token doc, resp')] None
| both_paths_failed resp m resp' e :
    decoded (RuleChainMetadataOf chain_id) resp = Raise (RequestError m) ->
    decoded RuleChainMetadata resp' = Raise e ->
    write_outcome token chain_id doc
      [(own_write token chain_id doc, resp); (legacy_write token doc, resp')] (Some e).

(** ** An in-memory platform to run the script against

    It stores entities, credential records and one graph document, answers
    text searches with every entry whose name contains the text, and
    replaces the document wholesale on either write path.  It serves the
    concrete runs below; the general theorems hold for every
    [Environment]. *)
Module Double.

Record platform : Type := {
  devices : list json;
  credentials : list json;
  rule_chains : list json;
  chain_metadata : json;
  own_path_down : bool;    (* the chain's own metadata path rejects writes *)
  clock : Z
}.

Definition name_contains (text : string) (entity : json) : bool :=
  match Py.get entity "name" JNull with
  | Ok (JStr s) => Py.substring_of text s
  | _ => false
  end.

Definition page_of (entries : list json) : json := JObj [("data", JArr entries)].

Definition owner_is (dev_id : string) (record : json) : bool :=
  match Py.get record "deviceId" JNull with
  | Ok owner => match Py.get owner "id" JNull with
                | Ok v => Py.eq_str v dev_id
                | Raise _ => false
                end
  | Raise _ => false
  end.

Definition has_id (id : string) (record : json) : bool :=
  match Py.get record "id" JNull with
  | Ok v => Py.eq_str v id
  | Raise _ => false
  end.

Definition with_devices (p : platform) (l : list json) : platform :=
  {| devices := l; credentials := credentials p; rule_chains := rule_chains p;
     chain_metadata := chain_metadata p; own_path_down := own_path_down p;
     clock := clock p |}.

Definition with_credentials (p : platform) (l : list json) : platform :=
  {| devices := devices p; credentials := l; rule_chains := rule_chains p;
     chain_metadata := chain_metadata p; own_path_down := own_path_down p;
     clock := clock p |}.

Definition with_metadata (p : platform) (doc : json) : platform :=
  {| devices := devices p; credentials := credentials p; rule_chains := rule_chains p;
     chain_metadata := doc; own_path_down := own_path_down p;
     clock := clock p |}.

Definition create_device (payload : json) (p : platform) : response * platform :=
  match Py.get payload "name" JNull with
  | Ok (JStr name) =>
      let device :=
        JObj [("id", JObj [("entityType", JStr "DEVICE"); ("id", JStr ("dev-" +:+ name))]);
              ("name", JStr name);
              ("type", match Py.get payload "type" JNull with Ok t => t | Raise _ => JNull end)] in
      (Success (Some device), with_devices p (devices p ++ [device]))
  | _ => (HTTPError 400 "device name expected", p)
  end.

Definition upsert_credentials (payload : json) (p : platform) : response * platform :=
  match Py.get payload "id" JNull with
  | Ok (JStr id) =>
      if existsb (has_id id) (credentials p) then
        (Success (Some payload),
         with_credentials p
           (map (fun r => if has_id id r then payload else r) (credentials p)))
      else (HTTPError 404 "no such credentials", p)
  | Ok JNull =>
      match Py.get payload "deviceId" JNull with
      | Ok owner =>
          match Py.get owner "id" JNull with
          | Ok (JStr dev_id) =>
              match Py.setitem payload "id" (JStr ("cred-" +:+ dev_id)) with
              | Ok record => (Success (Some record),
                              with_credentials p (credentials p ++ [record]))
              | Raise _ => (HTTPError 400 "credentials expected", p)
              end
          | _ => (HTTPError 400 "device id expected", p)
          end
      | Raise _ => (HTTPError 400 "credentials expected", p)
      end
  | _ => (HTTPError 400 "credentials id expected", p)
  end.

Definition serve (req : request) (p : platform) : response * platform :=
  match req_path req, req_method req, req_data req with
  | DevicesSearch text, GET, _ =>
      (Success (Some (page_of (List.filter (name_contains text) (devices p)))), p)
  | Device, POST, Some payload => create_device payload p
  | DeviceCredentialsOf (JStr dev_id), GET, _ =>
      (Success (List.find (owner_is dev_id) (credentials p)), p)
  | DeviceCredentials, POST, Some payload => upsert_credentials payload p
  | RuleChainsSearch text, GET, _ =>
      (Success (Some (page_of (List.filter (name_contains text) (rule_chains p)))), p)
  | RuleChainMetadataOf _, GET, _ => (Success (Some (chain_metadata p)), p)
  | RuleChainMetadataOf _, POST, Some doc =>
      if own_path_down p then (HTTPError 404 "Not Found", p)
      else (Success (Some doc), with_metadata p doc)
  | RuleChainMetadata, POST, Some doc => (Success (Some doc), with_metadata p doc)
  | _, _, _ => (HTTPError 405 "Method Not Allowed", p)
  end.

#[export] Instance platform_environment : Environment platform := {
  urlopen := serve;
  uuid4 := fun p => ("3f2b8c1e-5d4a-4e6f-9a7b-0c1d2e3f4a5b", p);
  time_ms := fun p => (clock p, p)
}.

Definition root_chain : json :=
  JObj [("id", JObj [("entityType", JStr "RULE_CHAIN"); ("id", JStr "chain-1")]);
        ("name", JStr "Root Rule Chain")].

Definition node (type name : string) : json :=
  JObj [("type", JStr type); ("name", JStr name)].

Definition edge (from to : Z) (label : string) : json :=
  JObj [("fromIndex", JNum from); ("toIndex", JNum to); ("type", JStr label)].

Definition graph (nodes edges : list json) : json :=
  JObj [("firstNodeIndex", JNum 0); ("nodes", JArr nodes); ("connections", JArr edges)].

Definition switch_node : json :=
  node "org.thingsboard.rule.engine.filter.TbMsgTypeSwitchNode" "Message Type Switch".

Definition save_node : json :=
  node "org.thingsboard.rule.engine.telemetry.TbMsgTimeseriesNode" "Save Timeseries".

(** A platform holding only the root rule chain with the given graph. *)
Definition holding (doc : json) : platform :=
  {| devices := []; credentials := []; rule_chains := [root_chain];
     chain_metadata := doc; own_path_down := false; clock := 1700000000000 |}.

(** A second rule chain whose name only starts like the root's. *)
Definition other_chain : json :=
  JObj [("id", JObj [("entityType", JStr "RULE_CHAIN"); ("id", JStr "chain-2")]);
        ("name", JStr "Root Rule Chain v2")].

Definition sink : json :=
  node "org.thingsboard.rule.engine.kafka.TbKafkaNode" "Kafka sink".

(** The graphs the script is run on below. *)
Definition plain_graph : json :=
  graph [switch_node; save_node] [edge 0 1 "Post telemetry"].

Definition settled_graph : json :=
  graph [switch_node; save_node; sink]
    [edge 0 1 "Post telemetry"; edge 0 2 "Post telemetry"].

Definition relabelled_graph : json :=
  graph [switch_node; sink] [edge 0 1 "Post attributes"].

Definition switchless_graph : json := graph [save_node] [].

Definition two_chains : platform :=
  {| devices := []; credentials := []; rule_chains := [other_chain; root_chain];
     chain_metadata := plain_graph; own_path_down := false; clock := 1700000000000 |}.

(** One run of each reconciler with the same settings. *)
Definition reconcile_graph (p : platform) : result json * World platform :=
  run (ensure_kafka_sink_in_root_chain "kafka:9092" "tb-telemetry" "token") p.

Definition reconcile_entity (p : platform) : result json * World platform :=
  run (ensure_device "token" "drone-1" "drone-1-token") p.

(** The first write request in a log, if any. *)
Definition first_write (l : list exchange) : exchange :=
  hd ({| req_path := RuleChainMetadata; req_method := GET;
         req_data := None; req_authorization := None |}, Undecodable)
     (metadata_writes l).

Definition first_upsert (l : list exchange) : exchange :=
  hd ({| req_path := DeviceCredentials; req_method := GET;
         req_data := None; req_authorization := None |}, Undecodable)
     (upserts l).

End Double.

(** ** Disciplines a computation keeps on the requests it sends *)

(** An exchange that was answered with a decodable success. *)
Definition answered (x : exchange) : Prop :=
  exists v, decoded (req_path (fst x)) (snd x) = Ok v.

(** An exchange whose answer made [_http_request] raise [e]. *)
Definition failed_with (x : exchange) (e : exn) : Prop :=
  decoded (req_path (fst x)) (snd x) = Raise e.

(** Whatever [m] adds to the log satisfies [Q]. *)
Definition sends_only {R A} (Q : exchange -> Prop) (m : M R A) : Prop :=
  forall w res w',
    m w = (res, w') -> exists new, log w' = log w ++ new /\ Forall Q new.

(** [m] sends nothing more once a request has failed, and raises what
    that request raised. *)
Definition stops_at_failure {R A} (m : M R A) : Prop :=
  forall w res w',
    m w = (res, w') ->
    exists new,
      log w' = log w ++ new
      /\ (Forall answered new
          \/ exists before x e,
               new = before ++ [x]
               /\ Forall answered before
               /\ failed_with x e
               /\ res = Raise e).

(** The request carries the header [_http_request] builds for [token]. *)
Definition authorized (token : string) (x : exchange) : Prop :=
  req_authorization (fst x) = bearer (Some token).

(** Lines 74-76 of [login]: the token of the decoded answer. *)
Definition login_token (answer : json) : result json :=
  if negb (Py.truthy answer) then
    Raise (RequestError (Text "Failed to retrieve ThingsBoard token"))
  else
    (present <- Py.str_in "token" answer ;;
     if present then Py.getitem answer "token"
     else Raise (RequestError (Text "Failed to retrieve ThingsBoard token")))%result.

(** An answer with nothing to search. *)
Definition nothing_listed (resp : response) : Prop :=
  resp = Success None
  \/ (exists page, resp = Success (Some page) /\ Py.truthy page = false)
  \/ (exists fields,
        resp = Success (Some (JObj fields))
        /\ (Py.lookup_key "data" fields = None
            \/ Py.lookup_key "data" fields = Some (JArr []))).

(** The progress markers of [ensure_kafka_sink_in_root_chain], in the
    order it prints them: one for the node appended, one for the edge
    appended, one for the write accepted. *)
Definition progress_markers (node_added edge_added written : bool) : list string :=
  (if node_added then ["[+] Added Kafka sink node to Root Rule Chain"] else [])
  ++ (if edge_added
      then ["[+] Linked Message Type Switch to Kafka sink for Post telemetry"]
      else [])
  ++ (if written then ["[+] Root Rule Chain updated with Kafka forwarding"] else []).

(** [m] adds at most [n] exchanges to the log. *)
Definition sends_at_most {R A} (n : nat) (m : M R A) : Prop :=
  forall w res w',
    m w = (res, w') -> exists new, log w' = log w ++ new /\ (length new <= n)%nat.

(** ** More platforms to run the script against *)
Module Cases.

Import Double.

(** A platform on which nothing was provisioned. *)
Definition unprovisioned : platform :=
  {| devices := []; credentials := []; rule_chains := [];
     chain_metadata := JNull; own_path_down := false; clock := 1700000000000 |}.

(** A platform that lists the device without an id. *)
Definition nameless_id : json := JObj [("name", JStr "drone-1")].

Definition listing_idless_device : platform :=
  {| devices := [nameless_id]; credentials := []; rule_chains := [root_chain];
     chain_metadata := plain_graph; own_path_down := false; clock := 1700000000000 |}.

(** The device the platform creates for ["drone-1"]. *)
Definition drone : json :=
  JObj [("id", JObj [("entityType", JStr "DEVICE"); ("id", JStr "dev-drone-1")]);
        ("name", JStr "drone-1"); ("type", JStr "drone")].

(** A graph with a [null] among its nodes. *)
Definition torn_graph : json := graph [save_node; JNull; switch_node] [].

(** A platform whose own metadata path rejects every write. *)
Definition legacy_only : platform :=
  {| devices := []; credentials := []; rule_chains := [root_chain];
     chain_metadata := plain_graph; own_path_down := true; clock := 1700000000000 |}.

End Cases.

(** ** A platform behind an HTTP library that validates paths

    [http.client] refuses a request whose path holds a blank or a
    control character: [urlopen] raises [InvalidURL] and nothing goes
    on the wire.  The search paths are quoted by [quote_plus]; the two
    paths built from an id are not. *)
Module Guarded.

Import Double.

Definition refused_char (c : Ascii.ascii) : bool :=
  Nat.leb (Ascii.nat_of_ascii c) 32 || Nat.eqb (Ascii.nat_of_ascii c) 127.

Fixpoint holds_refused_char (s : string) : bool :=
  match s with
  | EmptyString => false
  | String c rest => refused_char c || holds_refused_char rest
  end.

Definition refused (path : endpoint) : bool :=
  match path with
  | DeviceCredentialsOf (JStr id) => holds_refused_char id
  | RuleChainMetadataOf (JStr id) => holds_refused_char id
  | _ => false
  end.

Record guarded : Type := { behind : platform }.

Definition serve_guarded (req : request) (g : guarded) : response * guarded :=
  if refused (req_path req) then (Crashed "InvalidURL", g)
  else let (resp, p) := serve req (behind g) in (resp, {| behind := p |}).

#[export] Instance guarded_environment : Environment guarded := {
  urlopen := serve_guarded;
  uuid4 := fun g => ("3f2b8c1e-5d4a-4e6f-9a7b-0c1d2e3f4a5b", g);
  time_ms := fun g => (clock (behind g), g)
}.

(** An entity and a rule chain whose ids hold a blank. *)
Definition blank_id_device : json :=
  JObj [("id", JObj [("entityType", JStr "DEVICE"); ("id", JStr "dev 1")]);
        ("name", JStr "drone-1")].

Definition blank_id_chain : json :=
  JObj [("id", JObj [("entityType", JStr "RULE_CHAIN"); ("id", JStr "chain 1")]);
        ("name", JStr "Root Rule Chain")].

Definition listing_blank_ids : guarded :=
  {| behind :=
       {| devices := [blank_id_device]; credentials := [];
          rule_chains := [blank_id_chain]; chain_metadata := plain_graph;
          own_path_down := false; clock := 1700000000000 |} |}.

(** Nothing provisioned: the entity it creates for ["drone 1"] gets the
    id ["dev-drone 1"]. *)
Definition bare : guarded := {| behind := Cases.unprovisioned |}.

End Guarded.

(** ** The platform as the reconcilers' collaborator

    The script never sees the platform's state, only its answers.  What
    two runs in a row leave behind depends on what the platform keeps
    between them, so the statements about two runs are made for a
    platform with an observable store that honours the contract of its
    interface: it keeps what it accepted and answers from what it
    keeps. *)

Definition search_for (token name : string) : request :=
  request_of (DevicesSearch name) GET None (Some token).

Definition create_for (token name : string) : request :=
  request_of Device POST
    (Some (JObj [("name", JStr name); ("type", JStr "drone")])) (Some token).

Definition fetch_for (token : string) (dev_id : json) : request :=
  request_of (DeviceCredentialsOf dev_id) GET None (Some token).

Definition upsert_for (token : string) (payload : json) : request :=
  request_of DeviceCredentials POST (Some payload) (Some token).

(** [device["id"]["id"]] *)
Definition entity_id (device : json) : result json :=
  (ref <- Py.getitem device "id" ;; Py.getitem ref "id")%result.

(** An entry whose name field is exactly [name], as a test. *)
Definition has_name (name : string) (entry : json) : bool :=
  match entry with
  | JObj fields =>
      match Py.lookup_key "name" fields with
      | Some v => Py.eq_str v name
      | None => false
      end
  | _ => false
  end.

(** The token a credential record or an upsert payload carries. *)
Definition token_of (record : json) : option json :=
  match record with
  | JObj fields => Py.lookup_key "credentialsId" fields
  | _ => None
  end.

(** The id field of an upsert payload. *)
Definition payload_id (payload : json) : option json :=
  match payload with
  | JObj fields => Py.lookup_key "id" fields
  | _ => None
  end.

(** A payload whose owning-entity reference names the entity [dev_id]. *)
Definition refers_to (dev_id payload : json) : Prop :=
  exists fields ref,
    payload = JObj fields
    /\ Py.lookup_key "deviceId" fields = Some ref
    /\ Py.getitem ref "id" = Ok dev_id.

(** What can be observed of a platform's store: the entities it keeps,
    oldest first; the credential record it keeps for an entity id, at
    most one as in the data model; how many credential records it keeps
    in all; and which of its states are consistent. *)
Record Platform (R : Type) : Type := {
  entities : R -> list json;
  credential_for : R -> json -> option json;
  records_held : R -> nat;
  consistent : R -> Prop
}.
Arguments entities {R} _ _.
Arguments credential_for {R} _ _ _.
Arguments records_held {R} _ _.
Arguments consistent {R} _ _.

Section Contract.

Context {R : Type} `{Environment R}.

Definition answer_to (req : request) (r : R) : response := fst (urlopen req r).

Definition state_after (req : request) (r : R) : R := snd (urlopen req r).

Variable P : Platform R.

(** Nothing the platform keeps differs between the two states. *)
Definition same_store (r r' : R) : Prop :=
  entities P r' = entities P r
  /\ (forall d, credential_for P r' d = credential_for P r d)
  /\ records_held P r' = records_held P r.

(** The contract of the four entity endpoints.

    - A search changes nothing; its page lists, in the order they are
      kept, the kept entities that match the text in the platform's own
      sense, and an entity named exactly like the text always matches
      and is on the page.
    - An accepted create keeps the answered entity, named as asked,
      after the others; it may give the new entity its credential
      record, and touches no other record.
    - A credential fetch changes nothing and answers with the record
      kept for the entity, or with nothing.
    - A kept record carries an id and belongs to its entity.
    - An accepted upsert that carries the id of the entity's record
      replaces that record: same id, the payload's token.
    - An accepted upsert without id for an entity without record makes
      the entity's record, with the payload's token.
    Neither upsert touches an entity or another entity's record. *)
Record faithful : Prop := {
  search_reads : forall r token name,
    consistent P r ->
    consistent P (state_after (search_for token name) r)
    /\ same_store r (state_after (search_for token name) r);
  search_lists : forall r token name page,
    consistent P r ->
    decoded (DevicesSearch name) (answer_to (search_for token name) r) = Ok page ->
    exists fields keep,
      page = JObj fields
      /\ Py.lookup_key "data" fields = Some (JArr (List.filter keep (entities P r)))
      /\ (forall e, named name e -> keep e = true);
  create_keeps : forall r token name created,
    consistent P r ->
    decoded Device (answer_to (create_for token name) r) = Ok created ->
    consistent P (state_after (create_for token name) r)
    /\ entities P (state_after (create_for token name) r) = entities P r ++ [created]
    /\ named name created
    /\ (forall d,
          entity_id created <> Ok d ->
          credential_for P (state_after (create_for token name) r) d
          = credential_for P r d)
    /\ (records_held P (state_after (create_for token name) r) = records_held P r
        \/ (records_held P (state_after (create_for token name) r)
            = S (records_held P r)
            /\ forall d,
                 entity_id created = Ok d ->
                 credential_for P (state_after (create_for token name) r) d <> None));
  fetch_reads : forall r token d,
    consistent P r ->
    consistent P (state_after (fetch_for token d) r)
    /\ same_store r (state_after (fetch_for token d) r);
  fetch_returns : forall r token d answer,
    consistent P r ->
    decoded (DeviceCredentialsOf d) (answer_to (fetch_for token d) r) = Ok answer ->
    answer = match credential_for P r d with
             | Some record => record
             | None => JNull
             end;
  record_shape : forall r d record,
    consistent P r ->
    credential_for P r d = Some record ->
    (exists cid, credential_id record = Some cid)
    /\ Py.getitem (owner_of record (own_reference d)) "id" = Ok d;
  update_replaces : forall r token payload d record cid v,
    consistent P r ->
    credential_for P r d = Some record ->
    credential_id record = Some cid ->
    payload_id payload = Some cid ->
    refers_to d payload ->
    decoded DeviceCredentials (answer_to (upsert_for token payload) r) = Ok v ->
    consistent P (state_after (upsert_for token payload) r)
    /\ entities P (state_after (upsert_for token payload) r) = entities P r
    /\ records_held P (state_after (upsert_for token payload) r) = records_held P r
    /\ (forall d',
          d' <> d ->
          credential_for P (state_after (upsert_for token payload) r) d'
          = credential_for P r d')
    /\ exists record',
         credential_for P (state_after (upsert_for token payload) r) d = Some record'
         /\ credential_id record' = Some cid
         /\ token_of record' = token_of payload;
  insert_adds : forall r token payload d v,
    consistent P r ->
    credential_for P r d = None ->
    payload_id payload = None ->
    refers_to d payload ->
    decoded DeviceCredentials (answer_to (upsert_for token payload) r) = Ok v ->
    consistent P (state_after (upsert_for token payload) r)
    /\ entities P (state_after (upsert_for token payload) r) = entities P r
    /\ records_held P (state_after (upsert_for token payload) r)
       = S (records_held P r)
    /\ (forall d',
          d' <> d ->
          credential_for P (state_after (upsert_for token payload) r) d'
          = credential_for P r d')
    /\ exists record',
         credential_for P (state_after (upsert_for token payload) r) d = Some record'
         /\ token_of record' = token_of payload
}.

End Contract.

(** ** The in-memory platform as a store

    What the platform of [Double] keeps: its entities, and for an
    entity id the first credential record that names it as owner.  Its
    consistent states are those whose records carry the id the platform
    gives a record and name their owner. *)
Module Kept.

Import Double.

Definition well_formed_record (record : json) : Prop :=
  exists fields ref_fields s,
    record = JObj fields
    /\ Py.lookup_key "id" fields = Some (JStr ("cred-" +:+ s))
    /\ Py.lookup_key "deviceId" fields = Some (JObj ref_fields)
    /\ Py.lookup_key "id" ref_fields = Some (JStr s).

Definition record_of (p : platform) (dev_id : json) : option json :=
  match dev_id with
  | JStr s => List.find (owner_is s) (credentials p)
  | _ => None
  end.

Definition store : Platform platform := {|
  entities := devices;
  credential_for := record_of;
  records_held := fun p => length (credentials p);
  consistent := fun p => Forall well_formed_record (credentials p)
|}.

End Kept.

(** ** A platform that honours [pageSize=50&page=0]

    The same platform, except that a search answers with the first
    fifty matches only, as the two search paths of the script ask, and
    that every entity it makes gets an id of its own. *)
Module Paged.

Import Double.

Record paged : Type := { stock : platform }.

Definition first_page (entries : list json) : list json := firstn 50 entries.

Definition two_digits (i : nat) : string :=
  String (Ascii.ascii_of_nat (48 + Nat.div i 10))
    (String (Ascii.ascii_of_nat (48 + Nat.modulo i 10)) EmptyString).

(** The [i]-th entity the platform made. *)
Definition numbered (i : nat) (name : string) (type : json) : json :=
  JObj [("id", JObj [("entityType", JStr "DEVICE");
                     ("id", JStr ("dev-" +:+ two_digits i))]);
        ("name", JStr name);
        ("type", type)].

Definition create_numbered (payload : json) (g : paged) : response * paged :=
  match Py.get payload "name" JNull with
  | Ok (JStr name) =>
      let device :=
        numbered (length (devices (stock g))) name
          (match Py.get payload "type" JNull with Ok t => t | Raise _ => JNull end) in
      (Success (Some device),
       {| stock := with_devices (stock g) (devices (stock g) ++ [device]) |})
  | _ => (HTTPError 400 "device name expected", g)
  end.

Definition serve_paged (req : request) (g : paged) : response * paged :=
  match req_path req, req_method req, req_data req with
  | DevicesSearch text, GET, _ =>
      (Success (Some (page_of (first_page
                                 (List.filter (name_contains text)
                                    (devices (stock g)))))), g)
  | RuleChainsSearch text, GET, _ =>
      (Success (Some (page_of (first_page
                                 (List.filter (name_contains text)
                                    (rule_chains (stock g)))))), g)
  | Device, POST, Some payload => create_numbered payload g
  | _, _, _ => let (resp, p) := serve req (stock g) in (resp, {| stock := p |})
  end.

#[export] Instance paged_environment : Environment paged := {
  urlopen := serve_paged;
  uuid4 := fun g => ("3f2b8c1e-5d4a-4e6f-9a7b-0c1d2e3f4a5b", g);
  time_ms := fun g => (clock (stock g), g)
}.

(** Fifty entities, ["drone-100"] to ["drone-149"], and no ["drone-1"]. *)
Definition crowded : paged :=
  {| stock :=
       {| devices := map (fun i => numbered i ("drone-1" +:+ two_digits i) (JStr "drone"))
                       (seq 0 50);
          credentials := [];
          rule_chains := [root_chain]; chain_metadata := plain_graph;
          own_path_down := false; clock := 1700000000000 |} |}.

End Paged.

(** ** Tactics for concrete graphs *)

Ltac all_objects :=
  repeat (constructor; [eexists; reflexivity |]); constructor.

Ltac all_nodes :=
  repeat (constructor;
          [eexists; split; [reflexivity | right; eexists; reflexivity] |]);
  constructor.

Ltac not_dispatch :=
  let E := fresh in
  let Ht := fresh in
  let Hs := fresh in
  intros (? & ? & E & Ht & Hs); inversion E; subst;
  cbn in Ht; inversion Ht; subst; vm_compute in Hs; discriminate Hs.

Ltac not_sink :=
  let E := fresh in
  let Ht := fresh in
  intros (? & E & Ht); inversion E; subst; cbn in Ht; discriminate Ht.

Ltac not_connected :=
  let E := fresh in
  let Hf := fresh in
  let Ht := fresh in
  let Hd := fresh in
  let Hs := fresh in
  intros (? & ? & ? & E & Hf & Ht & Hd & Hs); inversion E; subst;
  cbn in Hf, Ht; inversion Hf; inversion Ht; subst;
  vm_compute in Hd, Hs; discriminate.

(** * Proofs *)

(** ** Stepping through the monad *)
Section Stepping.

Context {R : Type} `{Environment R}.

Lemma bind_inv {A B} (m : M R A) (k : A -> M R B) w res w' :
  bind m k w = (res, w') ->
  (exists a w1, m w = (Ok a, w1) /\ k a w1 = (res, w'))
  \/ (exists e, m w = (Raise e, w') /\ res = Raise e).
Proof.
  unfold bind. destruct (m w) as [[a | e] w1]; intros E.
  - left. eauto.
  - right. inversion E; subst. eauto.
Qed.

Lemma lift_inv {A} (r : result A) (w : World R) res w' :
  lift r w = (res, w') -> res = r /\ w' = w.
Proof. unfold lift. intros E. inversion E. auto. Qed.

Lemma ret_inv {A} (a : A) (w : World R) res w' :
  ret a w = (res, w') -> res = Ok a /\ w' = w.
Proof. unfold ret. intros E. inversion E. auto. Qed.

Lemma raise_inv {A} (e : exn) (w : World R) (res : result A) w' :
  raise e w = (res, w') -> res = Raise e /\ w' = w.
Proof. unfold raise. intros E. inversion E. auto. Qed.

Lemma print_inv line (w : World R) res w' :
  print line w = (res, w') -> res = Ok tt /\ log w' = log w /\ env w' = env w.
Proof. unfold print. intros E. inversion E. auto. Qed.

Lemma http_inv path meth payload token (w : World R) res w' :
  _http_request path meth payload token w = (res, w') ->
  exists resp,
    fst (urlopen (request_of path meth payload token) (env w)) = resp
    /\ res = decoded path resp
    /\ log w' = log w ++ [(request_of path meth payload token, resp)]
    /\ env w' = snd (urlopen (request_of path meth payload token) (env w)).
Proof.
  unfold _http_request.
  destruct (urlopen _ (env w)) as [resp r'] eqn:E. intros E'.
  inversion E'; subst. exists resp. auto.
Qed.

Lemma fresh_uuid_inv (w : World R) res w' :
  fresh_uuid w = (res, w') -> (exists u, res = Ok u) /\ log w' = log w.
Proof.
  unfold fresh_uuid. destruct (uuid4 (env w)) as [u r']. intros E.
  inversion E; subst. eauto.
Qed.

Lemma now_ms_inv (w : World R) res w' :
  now_ms w = (res, w') -> (exists t, res = Ok t) /\ log w' = log w.
Proof.
  unfold now_ms. destruct (time_ms (env w)) as [t r']. intros E.
  inversion E; subst. eauto.
Qed.

End Stepping.

(** ** Exact-match lookups *)
Section Lookups.

Context {R : Type} `{Environment R}.

Lemma eq_str_true v s : Py.eq_str v s = true <-> v = JStr s.
Proof.
  destruct v; simpl; try (split; [discriminate | intros E; discriminate]).
  rewrite String.eqb_eq. split; [intros -> | intros E; inversion E]; reflexivity.
Qed.

Lemma get_name_otherwise name entry :
  named_otherwise name entry ->
  exists v, Py.get entry "name" JNull = Ok v /\ Py.eq_str v name = false.
Proof.
  intros (fields & -> & Hne). simpl.
  eexists. split; [reflexivity |].
  destruct (Py.eq_str _ name) eqn:E; [| reflexivity].
  apply eq_str_true in E.
  destruct (Py.lookup_key "name" fields) as [v |]; [| discriminate].
  subst v. contradiction Hne. reflexivity.
Qed.

Lemma first_named_skips name before rest :
  Forall (named_otherwise name) before ->
  first_named name (before ++ rest) = first_named name rest.
Proof.
  induction 1 as [| entry before Hentry _ IH]; [reflexivity |].
  simpl. destruct (get_name_otherwise _ _ Hentry) as (v & -> & Hv).
  simpl. rewrite Hv. exact IH.
Qed.

Lemma first_named_selects name entries v :
  selects name entries v -> first_named name entries = Ok v.
Proof.
  intros [before entry after Hbefore (fields & -> & Hname) | all Hall].
  - rewrite first_named_skips by assumption.
    simpl. rewrite Hname. simpl. rewrite String.eqb_refl. reflexivity.
  - rewrite <- (app_nil_r all). rewrite first_named_skips by assumption.
    reflexivity.
Qed.

Lemma named_item_selects name fields entries v :
  Py.lookup_key "data" fields = Some (JArr entries) ->
  selects name entries v ->
  named_item name (JObj fields) = Ok v.
Proof.
  intros Hdata Hsel. unfold named_item, Py.or_else.
  destruct fields as [| kv fields]; [discriminate |].
  cbn [Py.truthy Py.get]. rewrite Hdata. simpl.
  apply first_named_selects. assumption.
Qed.

(** C5. Given a search-result page, [find_device] and [find_rule_chain]
    return the first entry whose name is exactly the lookup name, and
    [None] when no entry has exactly that name. *)
Theorem find_selects_first_exact_match
    (r : R) (token name : string) (fields : list (string * json))
    (entries : list json) (v : json) :
  Py.lookup_key "data" fields = Some (JArr entries) ->
  selects name entries v ->
  (fst (urlopen (request_of (DevicesSearch name) GET None (Some token)) r)
     = Success (Some (JObj fields)) ->
   fst (run (find_device token name) r) = Ok v)
  /\ (fst (urlopen (request_of (RuleChainsSearch name) GET None (Some token)) r)
        = Success (Some (JObj fields)) ->
      fst (run (find_rule_chain token name) r) = Ok v).
Proof.
  intros Hdata Hsel.
  pose proof (named_item_selects name fields entries v Hdata Hsel) as Hitem.
  split; intros Hresp.
  - unfold run, find_device, bind, _http_request. simpl env.
    destruct (urlopen _ r) as [resp r']. simpl in Hresp. subst resp.
    simpl. unfold lift. rewrite Hitem. reflexivity.
  - unfold run, find_rule_chain, bind, _http_request. simpl env.
    destruct (urlopen _ r) as [resp r']. simpl in Hresp. subst resp.
    simpl. unfold lift. rewrite Hitem. reflexivity.
Qed.

End Lookups.

(** ** The graph reconciler, step by step *)
Section Graph.

Context {R : Type} `{Environment R}.
Variables KAFKA_BOOTSTRAP KAFKA_TOPIC : string.

Local Abbreviation install_sink :=
  (install_kafka_sink KAFKA_BOOTSTRAP KAFKA_TOPIC).
Local Abbreviation ensure_sink :=
  (ensure_kafka_sink_in_root_chain KAFKA_BOOTSTRAP KAFKA_TOPIC).
Local Abbreviation new_nodes := (appended_nodes KAFKA_BOOTSTRAP KAFKA_TOPIC).

Local Open Scope monad_scope.

(** The tail of [ensure_kafka_sink_in_root_chain] once the document to
    write is known. *)
Local Abbreviation finish token root_chain chain_id doc :=
  (write_metadata token chain_id doc ;;;
   print "[+] Root Rule Chain updated with Kafka forwarding" ;;;
   ret root_chain).

(** The document lines 191-192 leave in [metadata]. *)
Local Abbreviation doc_with fields nodes conns extra_nodes extra_edges :=
  (JObj (Py.set_key (Py.set_key fields "nodes" (JArr (nodes ++ extra_nodes)))
           "connections" (JArr (conns ++ extra_edges)))).

Lemma install_proceeds token root_chain chain_id fields nodes conns d ki linked
    (w : World R) :
  nodes_of (JObj fields) = Ok (JArr nodes) ->
  connections_of (JObj fields) = Ok (JArr conns) ->
  first_index is_kafka_node nodes 0 = Ok ki ->
  first_index is_msg_switch nodes 0 = Ok (Some d) ->
  any_of (links d (sink_index nodes ki)) conns = Ok linked ->
  exists w1 uuid created,
    log w1 = log w
    /\ install_sink token root_chain chain_id (JObj fields) w
       = finish token root_chain chain_id
           (doc_with fields nodes conns
              (new_nodes uuid created chain_id ki)
              (appended_edges d (sink_index nodes ki) linked)) w1.
Proof.
  intros Hnodes Hconns Hkafka Hswitch Hany.
  unfold install_kafka_sink.
  unfold bind at 1. unfold lift at 1. rewrite Hnodes.
  unfold bind at 1. unfold lift at 1. rewrite Hconns.
  unfold bind at 1. unfold lift at 1. unfold next_index.
  cbn [Py.iter rbind]. rewrite Hkafka.
  unfold bind at 1. unfold lift at 1. rewrite Hswitch.
  destruct ki as [k |]; cbn [sink_index] in Hany.
  - (* the sink is there *)
    unfold bind at 1. cbn [with_kafka_node ret fst snd].
    unfold bind at 1. unfold with_telemetry_edge.
    unfold bind at 1. unfold lift at 1. unfold any.
    cbn [Py.iter rbind]. rewrite Hany.
    destruct linked.
    + cbn [ret]. exists w, "", 0. split; [reflexivity |].
      cbn [appended_nodes appended_edges sink_index].
      rewrite !app_nil_r. reflexivity.
    + unfold bind at 1. unfold lift at 1. cbn [Py.append].
      unfold bind at 1. unfold print at 1. cbn [ret].
      eexists _, "", 0. split; [| cbn [appended_nodes appended_edges sink_index];
                                   rewrite app_nil_r; reflexivity].
      reflexivity.
  - (* the sink is appended *)
    unfold bind at 1. unfold with_kafka_node.
    unfold bind at 1. unfold fresh_uuid at 1.
    destruct (uuid4 (env w)) as [uuid r1].
    unfold bind at 1. unfold now_ms at 1. cbn [env].
    destruct (time_ms r1) as [created r2].
    unfold bind at 1. unfold lift at 1. cbn [Py.append].
    unfold bind at 1. unfold lift at 1. cbn [Py.len].
    unfold bind at 1. unfold print at 1. cbn [ret fst snd].
    replace (Z.of_nat (length (nodes ++ [kafka_node KAFKA_BOOTSTRAP KAFKA_TOPIC uuid created chain_id])) - 1)
      with (Z.of_nat (length nodes))
      by (rewrite length_app; simpl; lia).
    unfold bind at 1. unfold with_telemetry_edge.
    unfold bind at 1. unfold lift at 1. unfold any.
    cbn [Py.iter rbind]. rewrite Hany.
    destruct linked.
    + cbn [ret]. eexists _, uuid, created. split; [| cbn [appended_nodes appended_edges sink_index];
                                   rewrite app_nil_r; reflexivity].
      reflexivity.
    + unfold bind at 1. unfold lift at 1. cbn [Py.append].
      unfold bind at 1. unfold print at 1. cbn [ret].
      eexists _, uuid, created. split; [| cbn [appended_nodes appended_edges sink_index]; reflexivity].
      reflexivity.
Qed.

Lemma chars_cons s : s <> "" -> exists c rest, Py.chars s = JStr c :: rest.
Proof. destruct s as [| c s]; [congruence |]. simpl. eauto. Qed.

(** A test that starts with [.get] rejects what iterating a string or a
    dict yields, so a walk that completes walked a list. *)
Lemma iter_of_objects (test : json -> result bool) v items :
  (forall s, test (JStr s) = Raise AttributeError) ->
  Py.iter v = Ok items ->
  (exists x rest, items = x :: rest) ->
  (forall x rest, items = x :: rest -> exists b, test x = Ok b) ->
  v = JArr items.
Proof.
  intros Htest Hiter (x & rest & ->) Hhead.
  destruct (Hhead x rest eq_refl) as [b Hb].
  destruct v; simpl in Hiter; try discriminate.
  - destruct s as [| c s]; simpl in Hiter; [discriminate |].
    inversion Hiter; subst. rewrite Htest in Hb. discriminate.
  - inversion Hiter; subst. reflexivity.
  - destruct fields as [| [k v] fields]; simpl in Hiter; [discriminate |].
    inversion Hiter; subst. rewrite Htest in Hb. discriminate.
Qed.

Lemma next_index_found_list test v d :
  (forall s, test (JStr s) = Raise AttributeError) ->
  next_index test v = Ok (Some d) ->
  exists nodes, v = JArr nodes /\ first_index test nodes 0 = Ok (Some d).
Proof.
  intros Htest. unfold next_index.
  destruct (Py.iter v) as [items | e] eqn:Hiter; [| discriminate].
  cbn [rbind]. intros Hfirst. exists items. split; [| assumption].
  apply (iter_of_objects test); try assumption.
  - destruct items; [discriminate | eauto].
  - intros x rest ->. simpl in Hfirst.
    destruct (test x); [eauto | discriminate].
Qed.

Lemma any_done_list test listed linked :
  (forall s, test (JStr s) = Raise AttributeError) ->
  any test (Py.or_else listed (JArr [])) = Ok linked ->
  exists conns,
    Py.or_else listed (JArr []) = JArr conns /\ any_of test conns = Ok linked.
Proof.
  intros Htest. unfold any, Py.or_else.
  destruct (Py.truthy listed) eqn:Htruthy.
  2:{ cbn [Py.iter rbind]. eauto. }
  destruct (Py.iter listed) as [items | e] eqn:Hiter; [| discriminate].
  cbn [rbind]. intros Hany.
  destruct items as [| x rest].
  - destruct listed; simpl in Hiter, Htruthy; try discriminate.
    + destruct s; [discriminate | simpl in Hiter; discriminate].
    + inversion Hiter; subst. discriminate.
    + destruct fields; [discriminate | simpl in Hiter; discriminate].
  - exists (x :: rest). split; [| assumption].
    apply (iter_of_objects test); try assumption; [eauto |].
    intros x' rest' E. inversion E; subst. simpl in Hany.
    destruct (test x'); [eauto | discriminate].
Qed.

Lemma is_kafka_node_str s : is_kafka_node (JStr s) = Raise AttributeError.
Proof. reflexivity. Qed.

Lemma is_msg_switch_str s : is_msg_switch (JStr s) = Raise AttributeError.
Proof. reflexivity. Qed.

Lemma links_str d k s : links d k (JStr s) = Raise AttributeError.
Proof. reflexivity. Qed.

(** Every way [install_kafka_sink] can go: it raises before any
    request, or it reaches the write with the document described by
    what it read. *)
Lemma install_inv token root_chain chain_id metadata (w : World R) res w' :
  install_sink token root_chain chain_id metadata w = (res, w') ->
  (log w' = log w /\ exists e, res = Raise e)
  \/ (exists fields nodes conns d ki linked w1 uuid created,
        metadata = JObj fields
        /\ nodes_of metadata = Ok (JArr nodes)
        /\ connections_of metadata = Ok (JArr conns)
        /\ first_index is_kafka_node nodes 0 = Ok ki
        /\ first_index is_msg_switch nodes 0 = Ok (Some d)
        /\ any_of (links d (sink_index nodes ki)) conns = Ok linked
        /\ log w1 = log w
        /\ finish token root_chain chain_id
             (doc_with fields nodes conns
                (new_nodes uuid created chain_id ki)
                (appended_edges d (sink_index nodes ki) linked)) w1
           = (res, w')).
Proof.
  intros Hrun.
  destruct metadata as [| | | | | fields];
    try (left; inversion Hrun; eauto; fail).
  pose proof Hrun as Hrun0.
  unfold install_kafka_sink in Hrun.
  unfold bind at 1 in Hrun. unfold lift at 1 in Hrun.
  destruct (nodes_of (JObj fields)) as [nodesj | e] eqn:Hnodes;
    [| left; inversion Hrun; eauto].
  unfold bind at 1 in Hrun. unfold lift at 1 in Hrun.
  destruct (connections_of (JObj fields)) as [connsj | e] eqn:Hconns;
    [| left; inversion Hrun; eauto].
  unfold bind at 1 in Hrun. unfold lift at 1 in Hrun.
  destruct (next_index is_kafka_node nodesj) as [ki | e] eqn:Hkafka;
    [| left; inversion Hrun; eauto].
  unfold bind at 1 in Hrun. unfold lift at 1 in Hrun.
  destruct (next_index is_msg_switch nodesj) as [[d |] | e] eqn:Hswitch;
    [| left; inversion Hrun; eauto | left; inversion Hrun; eauto].
  destruct (next_index_found_list _ _ _ is_msg_switch_str Hswitch)
    as (nodes & -> & Hswitch').
  unfold next_index in Hkafka. cbn [Py.iter rbind] in Hkafka.
  destruct (any (links d (sink_index nodes ki)) connsj) as [linked | e] eqn:Hany.
  - (* every check passed *)
    unfold connections_of in Hconns.
    destruct (Py.get (JObj fields) "connections" (JArr [])) as [listed | ?] eqn:Hlisted;
      [| discriminate].
    cbn [rbind] in Hconns. inversion Hconns; subst connsj.
    destruct (any_done_list _ _ _ (links_str _ _) Hany) as (conns & Hlist & Hany').
    assert (Hconns' : connections_of (JObj fields) = Ok (JArr conns)).
    { unfold connections_of. rewrite Hlisted. cbn [rbind]. rewrite Hlist. reflexivity. }
    destruct (install_proceeds token root_chain chain_id fields nodes conns d ki linked w
                Hnodes Hconns' Hkafka Hswitch' Hany')
      as (w1 & uuid & created & Hlog & Heq).
    right. exists fields, nodes, conns, d, ki, linked, w1, uuid, created.
    rewrite Heq in Hrun0.
    repeat split; try assumption; try reflexivity. congruence.
  - (* the walk over the connections raised *)
    left. clear Hrun0.
    destruct ki as [k |]; cbn [sink_index] in Hany.
    + unfold bind at 1 in Hrun. cbn [with_kafka_node ret fst snd] in Hrun.
      unfold bind at 1 in Hrun. unfold with_telemetry_edge in Hrun.
      unfold bind at 1 in Hrun. unfold lift at 1 in Hrun.
      rewrite Hany in Hrun. inversion Hrun; eauto.
    + unfold bind at 1 in Hrun. unfold with_kafka_node in Hrun.
      unfold bind at 1 in Hrun. unfold fresh_uuid at 1 in Hrun.
      destruct (uuid4 (env w)) as [uuid r1].
      unfold bind at 1 in Hrun. unfold now_ms at 1 in Hrun. cbn [env] in Hrun.
      destruct (time_ms r1) as [created r2].
      unfold bind at 1 in Hrun. unfold lift at 1 in Hrun. cbn [Py.append] in Hrun.
      unfold bind at 1 in Hrun. unfold lift at 1 in Hrun. cbn [Py.len] in Hrun.
      unfold bind at 1 in Hrun. unfold print at 1 in Hrun. cbn [ret fst snd] in Hrun.
      replace (Z.of_nat (length (nodes ++ [kafka_node KAFKA_BOOTSTRAP KAFKA_TOPIC uuid created chain_id])) - 1)
        with (Z.of_nat (length nodes)) in Hrun
        by (rewrite length_app; simpl; lia).
      unfold bind at 1 in Hrun. unfold with_telemetry_edge in Hrun.
      unfold bind at 1 in Hrun. unfold lift at 1 in Hrun.
      rewrite Hany in Hrun. inversion Hrun; eauto.
Qed.

Lemma finish_inv token (root_chain chain_id doc : json) (w : World R)
    (res : result json) w' :
  finish token root_chain chain_id doc w = (res, w') ->
  exists (new : list exchange) (failure : option exn),
    log w' = log w ++ new
    /\ write_outcome token chain_id doc new failure
    /\ res = match failure with None => Ok root_chain | Some e => Raise e end.
Proof.
  unfold bind at 1. unfold write_metadata, try_except_RequestError.
  unfold _http_request at 1. fold (own_write token chain_id doc).
  destruct (urlopen (own_write token chain_id doc) (env w)) as [resp r1].
  destruct (decoded (RuleChainMetadataOf chain_id) resp) as [v | e] eqn:Hresp.
  - (* accepted at once *)
    unfold bind, print, ret. cbn.
    intros E; inversion E; subst.
    eexists _, None. repeat split. econstructor; eassumption.
  - destruct e as [m | k | | | | cls];
      try (intros E; inversion E; subst;
           eexists _, (Some _); repeat split;
           eapply own_path_crashed; [eassumption | intros m; discriminate]).
    (* a RequestError: the legacy path *)
    unfold _http_request at 1. cbn [env log stdout].
    fold (legacy_write token doc).
    destruct (urlopen (legacy_write token doc) r1) as [resp' r2].
    destruct (decoded RuleChainMetadata resp') as [v | e] eqn:Hresp'.
    + unfold bind, print, ret. cbn.
      intros E; inversion E; subst.
      eexists _, None. rewrite <- app_assoc. repeat split.
      eapply legacy_path_accepted; eassumption.
    + intros E; inversion E; subst.
      eexists _, (Some e). rewrite <- app_assoc. repeat split.
      eapply both_paths_failed; eassumption.
Qed.

Lemma install_log token root_chain chain_id metadata (w : World R) res w' :
  install_sink token root_chain chain_id metadata w = (res, w') ->
  exists new,
    log w' = log w ++ new /\ Forall (fun x => is_metadata_write x = true) new.
Proof.
  intros Hrun. apply install_inv in Hrun
    as [(Hlog & _) | (fields & nodes & conns & d & ki & linked & w1 & uuid & created
                      & _ & _ & _ & _ & _ & _ & Hlog & Hfinish)].
  - exists []. rewrite app_nil_r. split; [assumption | constructor].
  - apply finish_inv in Hfinish as (new & failure & Hnew & Hout & _).
    exists new. rewrite <- Hlog. split; [assumption |].
    destruct Hout; repeat constructor.
Qed.

(** The two lookups that precede the reconciliation. *)
Lemma ensure_inv (r : R) token res w' :
  run (ensure_sink token) r = (res, w') ->
  (fetched_metadata (log w') = None
   /\ Forall (fun x => req_method (fst x) = GET) (log w')
   /\ exists e, res = Raise e)
  \/ (exists root_chain chain_id resp body w1,
        let search := (request_of (RuleChainsSearch "Root Rule Chain") GET None (Some token), resp) in
        let fetch := (request_of (RuleChainMetadataOf chain_id) GET None (Some token),
                      Success body) in
        log w1 = [search; fetch]
        /\ install_sink token root_chain chain_id
             (Py.or_else (match body with Some doc => doc | None => JNull end) (JObj []))
             w1
           = (res, w')).
Proof.
  unfold run, ensure_kafka_sink_in_root_chain.
  set (w := {| env := r; log := []; stdout := [] |}).
  intros Hrun.
  apply bind_inv in Hrun as [(root_chain & w0 & Hfind & Hrun) | (e & Hfind & ->)].
  2:{ left. unfold find_rule_chain in Hfind.
      apply bind_inv in Hfind as [(v & w0 & Hreq & Hlift) | (e' & Hreq & _)].
      - apply http_inv in Hreq as (resp & _ & _ & Hlog & _).
        apply lift_inv in Hlift as (_ & ->). rewrite Hlog.
        split; [reflexivity | split; [repeat constructor | eauto]].
      - apply http_inv in Hreq as (resp & _ & Hres & Hlog & _).
        rewrite Hlog.
        split; [reflexivity | split; [repeat constructor | eauto]]. }
  unfold find_rule_chain in Hfind.
  apply bind_inv in Hfind as [(v & w00 & Hreq & Hlift) | (e' & _ & E)];
    [| discriminate].
  apply http_inv in Hreq as (resp & _ & _ & Hlog0 & _).
  apply lift_inv in Hlift as (_ & ->). cbn [log w app] in Hlog0.
  destruct (Py.truthy root_chain).
  2:{ left. apply raise_inv in Hrun as (-> & ->). rewrite Hlog0.
      split; [reflexivity | split; [repeat constructor | eauto]]. }
  apply bind_inv in Hrun as [(chain_ref & w1 & Href & Hrun) | (e & Href & ->)].
  2:{ left. apply lift_inv in Href as (_ & ->). rewrite Hlog0.
      split; [reflexivity | split; [repeat constructor | eauto]]. }
  apply lift_inv in Href as (_ & ->).
  apply bind_inv in Hrun as [(chain_id & w1 & Hid & Hrun) | (e & Hid & ->)].
  2:{ left. apply lift_inv in Hid as (_ & ->). rewrite Hlog0.
      split; [reflexivity | split; [repeat constructor | eauto]]. }
  apply lift_inv in Hid as (_ & ->).
  apply bind_inv in Hrun as [(fetched & w1 & Hfetch & Hrun) | (e & Hfetch & ->)].
  - apply http_inv in Hfetch as (resp' & _ & Hres & Hlog & _).
    rewrite Hlog0 in Hlog. cbn [app] in Hlog.
    right. destruct resp' as [body | | | |]; try discriminate.
    exists root_chain, chain_id, resp, body, w1. cbn zeta.
    split; [exact Hlog |].
    replace (match body with Some doc => doc | None => JNull end) with fetched;
      [exact Hrun |].
    destruct body; cbn in Hres; inversion Hres; reflexivity.
  - apply http_inv in Hfetch as (resp' & _ & Hres & Hlog & _).
    rewrite Hlog0 in Hlog. cbn [app] in Hlog. rewrite Hlog.
    left. split; [| split; [repeat constructor | eauto]].
    destruct resp' as [[doc |] | | | |]; cbn in Hres; try discriminate; reflexivity.
Qed.

Local Abbreviation rewritten_as := (rewritten KAFKA_BOOTSTRAP KAFKA_TOPIC).

Lemma reads_functional metadata rd rd' :
  reads metadata rd -> reads metadata rd' -> rd = rd'.
Proof.
  destruct rd as [f n c d k l], rd' as [f' n' c' d' k' l'].
  unfold reads, read_sink. cbn.
  intros (-> & Hn & Hc & Hk & Hd & Hl) (E & Hn' & Hc' & Hk' & Hd' & Hl').
  inversion E; subst f'.
  rewrite Hn in Hn'. inversion Hn'; subst n'.
  rewrite Hc in Hc'. inversion Hc'; subst c'.
  rewrite Hk in Hk'. inversion Hk'; subst k'.
  rewrite Hd in Hd'. inversion Hd'; subst d'.
  rewrite Hl in Hl'. inversion Hl'; subst l'.
  reflexivity.
Qed.

Lemma fetched_after_prefix token chain_id resp body new :
  fetched_metadata
    ([(request_of (RuleChainsSearch "Root Rule Chain") GET None (Some token), resp);
      (request_of (RuleChainMetadataOf chain_id) GET None (Some token), Success body)]
     ++ new)
  = Some (Py.or_else (match body with Some doc => doc | None => JNull end) (JObj [])).
Proof. reflexivity. Qed.

Lemma writes_after_prefix token chain_id resp resp' new :
  Forall (fun x => is_metadata_write x = true) new ->
  metadata_writes
    ([(request_of (RuleChainsSearch "Root Rule Chain") GET None (Some token), resp);
      (request_of (RuleChainMetadataOf chain_id) GET None (Some token), resp')]
     ++ new)
  = new.
Proof.
  intros Hnew. unfold metadata_writes. cbn.
  induction Hnew as [| x new Hx _ IH]; [reflexivity |].
  cbn. rewrite Hx. f_equal. exact IH.
Qed.

Lemma writes_need_post (l : list exchange) :
  Forall (fun x => req_method (fst x) = GET) l -> metadata_writes l = [].
Proof.
  induction 1 as [| x l Hx _ IH]; [reflexivity |].
  unfold metadata_writes. cbn. unfold is_metadata_write at 1. rewrite Hx.
  destruct (req_path (fst x)); exact IH.
Qed.

(** Every run of [ensure_kafka_sink_in_root_chain]: it raises without
    having sent a write, or it read the fetched document and sent the
    rewritten one. *)
Lemma ensure_cases (r : R) token res w' :
  run (ensure_sink token) r = (res, w') ->
  (metadata_writes (log w') = []
   /\ Forall (fun x => req_method (fst x) = GET) (log w')
   /\ exists e, res = Raise e)
  \/ (exists root_chain chain_id metadata rd uuid created failure,
        fetched_metadata (log w') = Some metadata
        /\ reads metadata rd
        /\ write_outcome token chain_id (rewritten_as uuid created chain_id rd)
             (metadata_writes (log w')) failure
        /\ res = match failure with None => Ok root_chain | Some e => Raise e end).
Proof.
  intros Hrun.
  apply ensure_inv in Hrun
    as [(_ & Hget & Hres) | (root_chain & chain_id & resp & body & w1 & Hlog1 & Hrun)].
  { left. split; [apply writes_need_post; assumption | split; assumption]. }
  cbn zeta in Hlog1.
  apply install_inv in Hrun
    as [(Hlog & Hres) | (fields & nodes & conns & d & ki & linked & w2 & uuid & created
                         & Hmd & Hn & Hc & Hk & Hd & Hl & Hlog & Hfinish)].
  { left. rewrite Hlog, Hlog1.
    split; [reflexivity | split; [repeat constructor | assumption]]. }
  apply finish_inv in Hfinish as (new & failure & Hnew & Hout & Hres).
  right.
  exists root_chain, chain_id, (JObj fields),
    {| read_fields := fields; read_nodes := nodes; read_conns := conns;
       read_switch := d; read_kafka := ki; read_linked := linked |},
    uuid, created, failure.
  rewrite Hnew, Hlog, Hlog1.
  split; [rewrite fetched_after_prefix, Hmd; reflexivity |].
  split; [rewrite <- Hmd; unfold reads; cbn; rewrite <- Hmd; auto 10 |].
  split; [| assumption].
  rewrite writes_after_prefix; [exact Hout |].
  destruct Hout; repeat constructor.
Qed.

(** The run on a document that passes every check. *)
Lemma ensure_proceeds (r : R) token metadata rd :
  fetched_metadata (log (snd (run (ensure_sink token) r))) = Some metadata ->
  reads metadata rd ->
  exists root_chain chain_id uuid created failure,
    write_outcome token chain_id (rewritten_as uuid created chain_id rd)
      (metadata_writes (log (snd (run (ensure_sink token) r)))) failure
    /\ fst (run (ensure_sink token) r)
       = match failure with None => Ok root_chain | Some e => Raise e end.
Proof.
  destruct (run (ensure_sink token) r) as [res w'] eqn:Hrun. cbn [fst snd].
  intros Hfetched Hreads.
  apply ensure_inv in Hrun
    as [(Hnone & _) | (root_chain & chain_id & resp & body & w1 & Hlog1 & Hrun)].
  { rewrite Hnone in Hfetched. discriminate. }
  cbn zeta in Hlog1.
  destruct (install_log _ _ _ _ _ _ _ Hrun) as (new0 & Hlog0 & _).
  rewrite Hlog0, Hlog1, fetched_after_prefix in Hfetched.
  inversion Hfetched as [Hmd]. rewrite Hmd in Hrun.
  destruct Hreads as (Hobj & Hn & Hc & Hk & Hd & Hl).
  rewrite Hobj in Hrun, Hn, Hc.
  destruct (install_proceeds token root_chain chain_id _ _ _ _ _ _ w1 Hn Hc Hk Hd Hl)
    as (w2 & uuid & created & Hlog & Heq).
  rewrite Heq in Hrun.
  apply finish_inv in Hrun as (new & failure & Hnew & Hout & Hres).
  exists root_chain, chain_id, uuid, created, failure.
  split; [| assumption].
  rewrite Hnew, Hlog, Hlog1.
  rewrite writes_after_prefix; [exact Hout |].
  destruct Hout; repeat constructor.
Qed.

(** The whole log of such a run: the search, the fetch, the writes. *)
Lemma ensure_proceeds_log (r : R) token metadata rd :
  fetched_metadata (log (snd (run (ensure_sink token) r))) = Some metadata ->
  reads metadata rd ->
  exists root_chain chain_id s_resp body uuid created writes failure,
    log (snd (run (ensure_sink token) r))
    = (request_of (RuleChainsSearch "Root Rule Chain") GET None (Some token), s_resp)
        :: (request_of (RuleChainMetadataOf chain_id) GET None (Some token), Success body)
        :: writes
    /\ write_outcome token chain_id (rewritten_as uuid created chain_id rd) writes failure
    /\ fst (run (ensure_sink token) r)
       = match failure with None => Ok root_chain | Some e => Raise e end.
Proof.
  destruct (run (ensure_sink token) r) as [res w'] eqn:Hrun. cbn [fst snd].
  intros Hfetched Hreads.
  apply ensure_inv in Hrun
    as [(Hnone & _) | (root_chain & chain_id & resp & body & w1 & Hlog1 & Hrun)].
  { rewrite Hnone in Hfetched. discriminate. }
  cbn zeta in Hlog1.
  destruct (install_log _ _ _ _ _ _ _ Hrun) as (new0 & Hlog0 & _).
  rewrite Hlog0, Hlog1, fetched_after_prefix in Hfetched.
  inversion Hfetched as [Hmd]. rewrite Hmd in Hrun.
  destruct Hreads as (Hobj & Hn & Hc & Hk & Hd & Hl).
  rewrite Hobj in Hrun, Hn, Hc.
  destruct (install_proceeds token root_chain chain_id _ _ _ _ _ _ w1 Hn Hc Hk Hd Hl)
    as (w2 & uuid & created & Hlog & Heq).
  rewrite Heq in Hrun.
  apply finish_inv in Hrun as (new & failure & Hnew & Hout & Hres).
  exists root_chain, chain_id, resp, body, uuid, created, new, failure.
  split; [| split; assumption].
  rewrite Hnew, Hlog, Hlog1. reflexivity.
Qed.

End Graph.

(** ** The checks of the reconciler against the data model *)
Section Checks.

Lemma prefix_append a b :
  String.prefix a b = true <-> exists post, b = a +:+ post.
Proof.
  revert b. induction a as [| c a IH]; intros [| c' b]; cbn [String.prefix].
  - split; [intros _; exists ""; reflexivity | reflexivity].
  - split; [intros _; eexists; reflexivity | reflexivity].
  - split; [discriminate | intros (post & E); discriminate].
  - destruct (Ascii.ascii_dec c c') as [E | Hne].
    + subst c'. rewrite IH. split; intros (post & E); exists post.
      * rewrite E. reflexivity.
      * inversion E. reflexivity.
    + split; [discriminate |]. intros (post & E). inversion E. congruence.
Qed.

(** [Py.substring_of] is Python's [in] on two strings: the needle occurs
    somewhere in the haystack. *)
Lemma substring_of_occurs needle hay :
  Py.substring_of needle hay = true
  <-> exists pre post, hay = pre +:+ needle +:+ post.
Proof.
  induction hay as [| c hay IH]; cbn [Py.substring_of].
  - rewrite orb_false_r, prefix_append. split.
    + intros (post & E). exists "", post. exact E.
    + intros (pre & post & E). destruct pre; [eauto | discriminate].
  - rewrite orb_true_iff, prefix_append, IH. split.
    + intros [(post & E) | (pre & post & E)].
      * exists "", post. exact E.
      * exists (String c pre), post. cbn. rewrite E. reflexivity.
    + intros (pre & post & E). destruct pre as [| c' pre].
      * left. exists post. exact E.
      * right. cbn in E. inversion E. eauto.
Qed.

Lemma is_kafka_node_decides node :
  is_object node -> decides is_kafka_node sink_node node.
Proof.
  intros (fields & ->). unfold decides, is_kafka_node, sink_node. cbn.
  eexists. split; [reflexivity |].
  rewrite eq_str_true. split.
  - intros E. exists fields. split; [reflexivity |].
    destruct (Py.lookup_key "type" fields); [congruence | discriminate].
  - intros (fields' & E & Htype). inversion E; subst fields'.
    rewrite Htype. reflexivity.
Qed.

Lemma is_msg_switch_decides node :
  is_node node -> decides is_msg_switch dispatch_node node.
Proof.
  intros (fields & -> & [Hnone | (t & Hsome)]);
    unfold decides, is_msg_switch, dispatch_node; cbn.
  - rewrite Hnone. cbn. eexists. split; [reflexivity |].
    split; [discriminate |].
    intros (fields' & t & E & Htype & _). inversion E; subst fields'. congruence.
  - rewrite Hsome. cbn. eexists. split; [reflexivity |].
    split.
    + intros Hsub. exists fields, t. auto.
    + intros (fields' & t' & E & Htype & Hsub). inversion E; subst fields'.
      rewrite Hsome in Htype. inversion Htype; subst t'. exact Hsub.
Qed.

Lemma links_decides d s edge :
  is_object edge -> decides (links d s) (connects d s) edge.
Proof.
  intros (fields & ->). unfold decides, links, connects. cbn.
  destruct (Py.lookup_key "fromIndex" fields) as [from |] eqn:Hfrom.
  - destruct (Py.eq_int from d) eqn:Hd.
    + destruct (Py.lookup_key "toIndex" fields) as [to |] eqn:Hto.
      * eexists. split; [reflexivity |]. split.
        -- intros Hs. exists fields, from, to. auto.
        -- intros (fields' & from' & to' & E & Hf & Ht & _ & Hs).
           inversion E; subst fields'. rewrite Hto in Ht. inversion Ht; subst to'.
           exact Hs.
      * eexists. split; [reflexivity |]. split; [discriminate |].
        intros (fields' & from' & to' & E & _ & Ht & _).
        inversion E; subst fields'. congruence.
    + eexists. split; [reflexivity |]. split; [discriminate |].
      intros (fields' & from' & to' & E & Hf & _ & Hd' & _).
      inversion E; subst fields'. rewrite Hfrom in Hf. inversion Hf; subst from'.
      congruence.
  - eexists. split; [reflexivity |]. split; [discriminate |].
    intros (fields' & from' & to' & E & Hf & _).
    inversion E; subst fields'. congruence.
Qed.

Lemma first_index_decides test P nodes :
  Forall (decides test P) nodes ->
  forall idx,
    (exists i, first_index test nodes idx = Ok (Some (idx + i)) /\ first_at P nodes i)
    \/ (first_index test nodes idx = Ok None /\ Forall (fun n => ~ P n) nodes).
Proof.
  induction 1 as [| node nodes (b & Htest & Hb) _ IH]; intros idx.
  - right. split; [reflexivity | constructor].
  - cbn. rewrite Htest. cbn. destruct b.
    + left. exists 0. rewrite Z.add_0_r. split; [reflexivity |].
      exists [], node, nodes. repeat split; [constructor | apply Hb; reflexivity].
    + assert (Hnot : ~ P node) by (intros HP; apply Hb in HP; discriminate).
      destruct (IH (idx + 1)) as [(i & Hfirst & before & x & after & -> & Hbefore & Hx & ->) | (Hfirst & Hall)].
      * left. exists (Z.of_nat (length (node :: before))).
        split; [rewrite Hfirst; do 2 f_equal; cbn [length]; lia |].
        exists (node :: before), x, after.
        repeat split; [constructor; assumption | assumption].
      * right. split; [assumption | constructor; assumption].
Qed.

Lemma any_of_decides test P items :
  Forall (decides test P) items ->
  (any_of test items = Ok true /\ Exists P items)
  \/ (any_of test items = Ok false /\ Forall (fun x => ~ P x) items).
Proof.
  induction 1 as [| item items (b & Htest & Hb) _ IH].
  - right. split; [reflexivity | constructor].
  - cbn. rewrite Htest. cbn. destruct b.
    + left. split; [reflexivity |]. constructor. apply Hb. reflexivity.
    + assert (Hnot : ~ P item) by (intros HP; apply Hb in HP; discriminate).
      destruct IH as [(Hany & Hex) | (Hany & Hall)].
      * left. split; [assumption | apply Exists_cons_tl; assumption].
      * right. split; [assumption | constructor; assumption].
Qed.

Lemma first_at_unique P l i j : first_at P l i -> first_at P l j -> i = j.
Proof.
  intros (b1 & x1 & a1 & E1 & H1 & P1 & ->) (b2 & x2 & a2 & E2 & H2 & P2 & ->).
  f_equal. subst l. revert b2 H2 E2.
  induction H1 as [| y b1 Hy H1 IH]; intros b2 H2 E2.
  - destruct b2 as [| z b2]; [reflexivity |].
    cbn in E2. inversion E2; subst z. inversion H2; subst. contradiction.
  - destruct b2 as [| z b2].
    + cbn in E2. inversion E2; subst y. contradiction.
    + cbn in E2. inversion E2; subst z. inversion H2; subst.
      cbn. f_equal. apply IH; assumption.
Qed.

Lemma first_at_not_all P l i : first_at P l i -> Forall (fun x => ~ P x) l -> False.
Proof.
  intros (before & x & after & -> & _ & Hx & _) Hall.
  apply Forall_app in Hall as (_ & Hall). inversion Hall; subst. contradiction.
Qed.

Lemma sink_position_unique nodes s s' :
  sink_position nodes s -> sink_position nodes s' -> s = s'.
Proof.
  intros [H1 | (H1 & ->)] [H2 | (H2 & ->)].
  - eapply first_at_unique; eassumption.
  - destruct (first_at_not_all _ _ _ H1 H2).
  - destruct (first_at_not_all _ _ _ H2 H1).
  - reflexivity.
Qed.

Lemma is_node_object node : is_node node -> is_object node.
Proof. intros (fields & -> & _). exists fields. reflexivity. Qed.

Lemma lookup_set_key_eq fields k v :
  Py.lookup_key k (Py.set_key fields k v) = Some v.
Proof.
  induction fields as [| [k' v'] fields IH]; cbn.
  - rewrite String.eqb_refl. reflexivity.
  - destruct (String.eqb k k') eqn:E; cbn; rewrite ?String.eqb_refl, ?E; auto.
Qed.

Lemma lookup_set_key_ne fields k k' v :
  k <> k' -> Py.lookup_key k (Py.set_key fields k' v) = Py.lookup_key k fields.
Proof.
  intros Hne. induction fields as [| [k0 v0] fields IH]; cbn.
  - destruct (String.eqb k k') eqn:E; [apply String.eqb_eq in E; contradiction | reflexivity].
  - destruct (String.eqb k' k0) eqn:E; cbn.
    + apply String.eqb_eq in E. subst k0.
      destruct (String.eqb k k') eqn:E'; [apply String.eqb_eq in E'; contradiction | reflexivity].
    + rewrite IH. reflexivity.
Qed.

Lemma set_key_same fields k v :
  Py.lookup_key k fields = Some v -> Py.set_key fields k v = fields.
Proof.
  induction fields as [| [k' v'] fields IH]; cbn; [discriminate |].
  destruct (String.eqb k k') eqn:E.
  - apply String.eqb_eq in E. intros E'. inversion E'. subst. reflexivity.
  - intros Hl. rewrite IH by assumption. reflexivity.
Qed.

(** A document of the data model with a dispatch node passes every
    check of lines 139-189. *)
Lemma reads_typed metadata nodes conns d :
  nodes_of metadata = Ok (JArr nodes) ->
  connections_of metadata = Ok (JArr conns) ->
  Forall is_node nodes ->
  Forall is_object conns ->
  first_at dispatch_node nodes d ->
  exists rd,
    reads metadata rd
    /\ read_nodes rd = nodes
    /\ read_conns rd = conns
    /\ read_switch rd = d
    /\ sink_position nodes (read_sink rd)
    /\ (read_kafka rd = None <-> Forall (fun n => ~ sink_node n) nodes)
    /\ (read_linked rd = true <-> Exists (connects d (read_sink rd)) conns).
Proof.
  intros Hn Hc Hnodes Hconns Hd.
  assert (Hobj : exists fields, metadata = JObj fields).
  { destruct metadata; try discriminate. eauto. }
  destruct Hobj as (fields & ->).
  assert (Hk : Forall (decides is_kafka_node sink_node) nodes).
  { eapply Forall_impl; [exact Hnodes |].
    intros n Hnode. apply is_kafka_node_decides, is_node_object, Hnode. }
  assert (Hs : Forall (decides is_msg_switch dispatch_node) nodes).
  { eapply Forall_impl; [exact Hnodes |]. intros n. apply is_msg_switch_decides. }
  destruct (first_index_decides _ _ _ Hs 0) as [(i & Hswitch & Hat) | (_ & Hall)];
    [| destruct (first_at_not_all _ _ _ Hd Hall)].
  rewrite Z.add_0_l in Hswitch.
  rewrite (first_at_unique _ _ _ _ Hat Hd) in Hswitch. clear i Hat.
  assert (Hkafka : exists ki,
             first_index is_kafka_node nodes 0 = Ok ki
             /\ sink_position nodes (sink_index nodes ki)
             /\ (ki = None <-> Forall (fun n => ~ sink_node n) nodes)).
  { destruct (first_index_decides _ _ _ Hk 0) as [(k & Hkafka & Hat) | (Hkafka & Hall)].
    - rewrite Z.add_0_l in Hkafka. exists (Some k).
      split; [assumption | split; [left; assumption |]].
      split; [discriminate | intros Hall; destruct (first_at_not_all _ _ _ Hat Hall)].
    - exists None. split; [assumption | split; [right; auto |]].
      split; auto. }
  destruct Hkafka as (ki & Hkafka & Hpos & Hnone).
  assert (Hl : Forall (decides (links d (sink_index nodes ki)) (connects d (sink_index nodes ki))) conns).
  { eapply Forall_impl; [exact Hconns |]. intros c. apply links_decides. }
  assert (Hlinked : exists linked,
             any_of (links d (sink_index nodes ki)) conns = Ok linked
             /\ (linked = true <-> Exists (connects d (sink_index nodes ki)) conns)).
  { destruct (any_of_decides _ _ _ Hl) as [(Hany & Hex) | (Hany & Hall)].
    - exists true. split; [assumption |]. split; auto.
    - exists false. split; [assumption |]. split; [discriminate |].
      intros Hex. apply Exists_exists in Hex as (c & Hin & Hc').
      rewrite Forall_forall in Hall. destruct (Hall c Hin Hc'). }
  destruct Hlinked as (linked & Hany & Hlinked).
  exists {| read_fields := fields; read_nodes := nodes; read_conns := conns;
            read_switch := d; read_kafka := ki; read_linked := linked |}.
  unfold reads, read_sink. cbn. auto 12.
Qed.

End Checks.

(** ** Graph reconciliation: the claims *)
Section GraphClaims.

Context {R : Type} `{Environment R}.
Variables KAFKA_BOOTSTRAP KAFKA_TOPIC : string.

Local Abbreviation install_sink :=
  (install_kafka_sink KAFKA_BOOTSTRAP KAFKA_TOPIC).
Local Abbreviation ensure_sink :=
  (ensure_kafka_sink_in_root_chain KAFKA_BOOTSTRAP KAFKA_TOPIC).
Local Abbreviation rewritten_as := (rewritten KAFKA_BOOTSTRAP KAFKA_TOPIC).
Local Abbreviation new_nodes := (appended_nodes KAFKA_BOOTSTRAP KAFKA_TOPIC).

Lemma write_outcome_head token chain_id doc writes failure :
  write_outcome token chain_id doc writes failure ->
  exists resp rest, writes = (own_write token chain_id doc, resp) :: rest.
Proof. intros []; eauto. Qed.

Lemma write_outcome_payload token chain_id doc writes failure x :
  write_outcome token chain_id doc writes failure ->
  In x writes ->
  req_data (fst x) = Some doc.
Proof.
  intros [] Hin; cbn in Hin;
    repeat (destruct Hin as [<- | Hin]; [reflexivity |]); destruct Hin.
Qed.

Lemma nodes_of_rewritten uuid created chain_id rd :
  nodes_of (rewritten_as uuid created chain_id rd)
  = Ok (JArr (read_nodes rd ++ new_nodes uuid created chain_id (read_kafka rd))).
Proof.
  unfold nodes_of, rewritten. cbn [Py.get].
  rewrite lookup_set_key_ne by discriminate.
  rewrite lookup_set_key_eq. reflexivity.
Qed.

Lemma connections_of_rewritten uuid created chain_id rd :
  connections_of (rewritten_as uuid created chain_id rd)
  = Ok (JArr (read_conns rd
              ++ appended_edges (read_switch rd) (read_sink rd) (read_linked rd))).
Proof.
  unfold connections_of, rewritten. cbn [Py.get].
  rewrite lookup_set_key_eq. cbn [rbind]. unfold Py.or_else.
  destruct (read_conns rd ++ _); reflexivity.
Qed.

Lemma length_new_nodes uuid created chain_id ki :
  (length (new_nodes uuid created chain_id ki) <= 1)%nat.
Proof. destruct ki; cbn; lia. Qed.

Lemma length_appended_edges d s linked :
  (length (appended_edges d s linked) <= 1)%nat.
Proof. destruct linked; cbn; lia. Qed.

(** What any write request of a run carries. *)
Lemma written_document (r : R) token x :
  In x (metadata_writes (log (snd (run (ensure_sink token) r)))) ->
  exists metadata rd uuid created chain_id,
    fetched_metadata (log (snd (run (ensure_sink token) r))) = Some metadata
    /\ reads metadata rd
    /\ req_data (fst x) = Some (rewritten_as uuid created chain_id rd).
Proof.
  destruct (run (ensure_sink token) r) as [res w'] eqn:Hrun. cbn [snd].
  intros Hin.
  apply ensure_cases in Hrun
    as [(Hnone & _) | (root_chain & chain_id & metadata & rd & uuid & created & failure
                       & Hfetched & Hreads & Hout & _)].
  { rewrite Hnone in Hin. destruct Hin. }
  exists metadata, rd, uuid, created, chain_id.
  split; [assumption | split; [assumption |]].
  eapply write_outcome_payload; eassumption.
Qed.

(** C9. Whatever document a run writes back, it is the fetched one
    with its node sequence extended by at most one node at the end
    and its edge sequence by at most one edge at the end; every other
    key, node and edge is as fetched. *)
Theorem write_only_appends (r : R) (token : string) (x : exchange) :
  In x (metadata_writes (log (snd (run (ensure_sink token) r)))) ->
  exists fields nodes conns extra_nodes extra_edges,
    fetched_metadata (log (snd (run (ensure_sink token) r))) = Some (JObj fields)
    /\ nodes_of (JObj fields) = Ok (JArr nodes)
    /\ connections_of (JObj fields) = Ok (JArr conns)
    /\ req_data (fst x)
       = Some (JObj (Py.set_key
                       (Py.set_key fields "nodes" (JArr (nodes ++ extra_nodes)))
                       "connections" (JArr (conns ++ extra_edges))))
    /\ (length extra_nodes <= 1)%nat
    /\ (length extra_edges <= 1)%nat.
Proof.
  intros Hin.
  destruct (written_document r token x Hin)
    as (metadata & rd & uuid & created & chain_id & Hfetched & Hreads & Hdata).
  destruct Hreads as (Hobj & Hn & Hc & _).
  exists (read_fields rd), (read_nodes rd), (read_conns rd),
    (new_nodes uuid created chain_id (read_kafka rd)),
    (appended_edges (read_switch rd) (read_sink rd) (read_linked rd)).
  rewrite <- Hobj.
  repeat split; try assumption.
  - apply length_new_nodes.
  - apply length_appended_edges.
Qed.

(** C2. In whatever document a run writes back, every position of the
    fetched node sequence still holds the same node and every position
    of the fetched edge sequence still holds the same edge, so its
    [fromIndex] and [toIndex] are the values fetched and refer to the
    nodes they referred to. *)
Theorem existing_references_keep_their_meaning (r : R) (token : string)
    (x : exchange) :
  In x (metadata_writes (log (snd (run (ensure_sink token) r)))) ->
  exists metadata doc nodes conns nodes' conns',
    fetched_metadata (log (snd (run (ensure_sink token) r))) = Some metadata
    /\ nodes_of metadata = Ok (JArr nodes)
    /\ connections_of metadata = Ok (JArr conns)
    /\ req_data (fst x) = Some doc
    /\ nodes_of doc = Ok (JArr nodes')
    /\ connections_of doc = Ok (JArr conns')
    /\ (forall (i : nat) (edge : json),
          conns !! i = Some edge -> conns' !! i = Some edge)
    /\ (forall (j : nat) (node : json),
          nodes !! j = Some node -> nodes' !! j = Some node).
Proof.
  intros Hin.
  destruct (written_document r token x Hin)
    as (metadata & rd & uuid & created & chain_id & Hfetched & Hreads & Hdata).
  destruct Hreads as (Hobj & Hn & Hc & _).
  exists metadata, (rewritten_as uuid created chain_id rd),
    (read_nodes rd), (read_conns rd),
    (read_nodes rd ++ new_nodes uuid created chain_id (read_kafka rd)),
    (read_conns rd ++ appended_edges (read_switch rd) (read_sink rd) (read_linked rd)).
  split; [assumption |]. split; [assumption |]. split; [assumption |].
  split; [assumption |].
  split; [apply nodes_of_rewritten |].
  split; [apply connections_of_rewritten |].
  split; intros i v Hi; apply lookup_app_l_Some; assumption.
Qed.

(** C8. On a document of the data model that holds a dispatch node the
    run comes to its write, and the write is the third and, on the
    legacy path, fourth request of the run: it goes to the own path of
    the chain whose metadata was fetched.  When that request is
    accepted the legacy path is never called; when it fails with
    anything but a [RequestError] the failure propagates at once;
    exactly when it fails with a [RequestError] the same document is
    sent once to the legacy path, whose answer decides the run: accepted,
    the run succeeds; failed, that failure propagates. *)
Theorem write_falls_back_to_legacy_path (r : R) (token : string)
    (metadata : json) (nodes conns : list json) (d : Z) :
  fetched_metadata (log (snd (run (ensure_sink token) r))) = Some metadata ->
  nodes_of metadata = Ok (JArr nodes) ->
  connections_of metadata = Ok (JArr conns) ->
  Forall is_node nodes ->
  Forall is_object conns ->
  first_at dispatch_node nodes d ->
  exists chain_id doc s_resp body resp later,
    log (snd (run (ensure_sink token) r))
    = (request_of (RuleChainsSearch "Root Rule Chain") GET None (Some token), s_resp)
        :: (request_of (RuleChainMetadataOf chain_id) GET None (Some token), Success body)
        :: (own_write token chain_id doc, resp) :: later
    /\ (((exists v, decoded (RuleChainMetadataOf chain_id) resp = Ok v)
         /\ later = []
         /\ exists root_chain, fst (run (ensure_sink token) r) = Ok root_chain)
        \/ (exists e,
              decoded (RuleChainMetadataOf chain_id) resp = Raise e
              /\ (forall m, e <> RequestError m)
              /\ later = []
              /\ fst (run (ensure_sink token) r) = Raise e)
        \/ (exists m resp',
              decoded (RuleChainMetadataOf chain_id) resp = Raise (RequestError m)
              /\ later = [(legacy_write token doc, resp')]
              /\ ((exists v,
                     decoded RuleChainMetadata resp' = Ok v
                     /\ exists root_chain,
                          fst (run (ensure_sink token) r) = Ok root_chain)
                  \/ (exists e,
                        decoded RuleChainMetadata resp' = Raise e
                        /\ fst (run (ensure_sink token) r) = Raise e)))).
Proof.
  intros Hfetched Hn Hc Hnodes Hconns Hd.
  destruct (reads_typed metadata nodes conns d Hn Hc Hnodes Hconns Hd)
    as (rd & Hreads & _).
  destruct (ensure_proceeds_log KAFKA_BOOTSTRAP KAFKA_TOPIC r token metadata rd
              Hfetched Hreads)
    as (root_chain & chain_id & s_resp & body & uuid & created & writes & failure
        & Hlog & Hout & Hres).
  exists chain_id, (rewritten_as uuid created chain_id rd), s_resp, body.
  rewrite Hlog, Hres.
  destruct Hout as [resp v Hresp | resp e Hresp Hne
                   | resp m resp' v Hresp Hresp' | resp m resp' e Hresp Hresp'].
  - exists resp, []. split; [reflexivity |]. left. eauto.
  - exists resp, []. split; [reflexivity |]. right. left. exists e. auto.
  - exists resp, [(legacy_write token (rewritten_as uuid created chain_id rd), resp')].
    split; [reflexivity |]. right. right. exists m, resp'.
    split; [assumption | split; [reflexivity |]]. left. eauto.
  - exists resp, [(legacy_write token (rewritten_as uuid created chain_id rd), resp')].
    split; [reflexivity |]. right. right. exists m, resp'.
    split; [assumption | split; [reflexivity |]]. right. eauto.
Qed.

Lemma fetched_is_installed (r : R) token metadata :
  fetched_metadata (log (snd (run (ensure_sink token) r))) = Some metadata ->
  exists root_chain chain_id w1,
    Forall (fun x => req_method (fst x) = GET) (log w1)
    /\ install_sink token root_chain chain_id metadata w1 = run (ensure_sink token) r.
Proof.
  destruct (run (ensure_sink token) r) as [res w'] eqn:Hrun. cbn [snd].
  intros Hfetched.
  apply ensure_inv in Hrun
    as [(Hnone & _) | (root_chain & chain_id & resp & body & w1 & Hlog1 & Hrun)].
  { rewrite Hnone in Hfetched. discriminate. }
  cbn zeta in Hlog1.
  destruct (install_log _ _ _ _ _ _ _ _ _ Hrun) as (new0 & Hlog0 & _).
  rewrite Hlog0, Hlog1, fetched_after_prefix in Hfetched.
  inversion Hfetched as [Hmd]. rewrite Hmd in Hrun.
  exists root_chain, chain_id, w1. rewrite Hmd. split; [| assumption].
  rewrite Hlog1. repeat constructor.
Qed.

(** C7. When the fetched document's node sequence holds no node whose
    type contains the dispatch substring, the run raises the
    [RequestError] of line 151 and has sent nothing but its two [GET]
    requests. *)
Theorem missing_dispatch_node_is_fatal (r : R) (token : string)
    (metadata : json) (nodes : list json) :
  fetched_metadata (log (snd (run (ensure_sink token) r))) = Some metadata ->
  nodes_of metadata = Ok (JArr nodes) ->
  Forall is_node nodes ->
  Forall (fun n => ~ dispatch_node n) nodes ->
  fst (run (ensure_sink token) r)
    = Raise (RequestError (Text "Message Type Switch node not found in root rule chain"))
  /\ Forall (fun x => req_method (fst x) = GET) (log (snd (run (ensure_sink token) r)))
  /\ metadata_writes (log (snd (run (ensure_sink token) r))) = [].
Proof.
  intros Hfetched Hn Hnodes Hnone.
  destruct (fetched_is_installed r token metadata Hfetched)
    as (root_chain & chain_id & w1 & Hget & <-).
  assert (Hobj : exists fields, metadata = JObj fields).
  { destruct metadata; try discriminate. eauto. }
  destruct Hobj as (fields & ->).
  assert (Hk : exists ki, first_index is_kafka_node nodes 0 = Ok ki).
  { assert (Hd : Forall (decides is_kafka_node sink_node) nodes).
    { eapply Forall_impl; [exact Hnodes |].
      intros n Hnode. apply is_kafka_node_decides, is_node_object, Hnode. }
    destruct (first_index_decides _ _ _ Hd 0) as [(k & Hk & _) | (Hk & _)]; eauto. }
  destruct Hk as (ki & Hk).
  assert (Hs : first_index is_msg_switch nodes 0 = Ok None).
  { assert (Hd : Forall (decides is_msg_switch dispatch_node) nodes).
    { eapply Forall_impl; [exact Hnodes |]. intros n. apply is_msg_switch_decides. }
    destruct (first_index_decides _ _ _ Hd 0) as [(i & _ & Hat) | (Hs & _)];
      [destruct (first_at_not_all _ _ _ Hat Hnone) | assumption]. }
  assert (Heval : install_sink token root_chain chain_id (JObj fields) w1
                  = (Raise (RequestError
                              (Text "Message Type Switch node not found in root rule chain")),
                     w1)).
  { unfold install_kafka_sink.
    unfold bind at 1. unfold lift at 1. rewrite Hn.
    unfold bind at 1. unfold lift at 1. cbn [connections_of Py.get rbind].
    unfold bind at 1. unfold lift at 1. unfold next_index. cbn [Py.iter rbind].
    rewrite Hk.
    unfold bind at 1. unfold lift at 1. rewrite Hs. reflexivity. }
  rewrite Heval. cbn [fst snd].
  split; [reflexivity | split; [assumption | apply writes_need_post; assumption]].
Qed.

Lemma first_at_nonempty P l i : first_at P l i -> l <> [].
Proof. intros (before & x & after & -> & _). destruct before; discriminate. Qed.

Lemma unchanged_when_present uuid created chain_id rd k :
  reads (JObj (read_fields rd)) rd ->
  read_nodes rd <> [] ->
  read_conns rd <> [] ->
  read_kafka rd = Some k ->
  read_linked rd = true ->
  rewritten_as uuid created chain_id rd = JObj (read_fields rd).
Proof.
  intros (_ & Hn & Hc & _) Hnodes Hconns Hk Hl.
  unfold rewritten. rewrite Hk, Hl. cbn [appended_nodes appended_edges].
  rewrite !app_nil_r.
  unfold nodes_of in Hn. cbn [Py.get] in Hn.
  unfold connections_of in Hc. cbn [Py.get rbind] in Hc.
  assert (Hln : Py.lookup_key "nodes" (read_fields rd) = Some (JArr (read_nodes rd))).
  { destruct (Py.lookup_key "nodes" (read_fields rd)) as [v |].
    - congruence.
    - inversion Hn as [E]. symmetry in E. contradiction. }
  assert (Hlc : Py.lookup_key "connections" (read_fields rd)
                = Some (JArr (read_conns rd))).
  { unfold Py.or_else in Hc.
    destruct (Py.lookup_key "connections" (read_fields rd)) as [v |].
    - destruct (Py.truthy v); [congruence |].
      inversion Hc as [E]. symmetry in E. contradiction.
    - cbn in Hc. inversion Hc as [E]. symmetry in E. contradiction. }
  rewrite (set_key_same _ _ _ Hln). rewrite (set_key_same _ _ _ Hlc).
  reflexivity.
Qed.

(** C10, as the code has it.  For every fetched document of the data
    model that contains a dispatch node, the run sends the wholesale
    write to the chain's own path, also when the sink node and an edge
    from the dispatch position to it are already there and the
    document sent is the very document fetched. *)
Theorem write_is_never_skipped (r : R) (token : string) (metadata : json)
    (nodes conns : list json) (d : Z) :
  fetched_metadata (log (snd (run (ensure_sink token) r))) = Some metadata ->
  nodes_of metadata = Ok (JArr nodes) ->
  connections_of metadata = Ok (JArr conns) ->
  Forall is_node nodes ->
  Forall is_object conns ->
  first_at dispatch_node nodes d ->
  exists chain_id doc resp rest,
    metadata_writes (log (snd (run (ensure_sink token) r)))
      = (own_write token chain_id doc, resp) :: rest
    /\ (forall s,
          first_at sink_node nodes s ->
          Exists (connects d s) conns ->
          doc = metadata).
Proof.
  intros Hfetched Hn Hc Hnodes Hconns Hd.
  destruct (reads_typed metadata nodes conns d Hn Hc Hnodes Hconns Hd)
    as (rd & Hreads & En & Ec & Ed & Hpos & Hnone & Hlinked).
  destruct (ensure_proceeds KAFKA_BOOTSTRAP KAFKA_TOPIC r token metadata rd Hfetched Hreads)
    as (root_chain & chain_id & uuid & created & failure & Hout & _).
  destruct (write_outcome_head _ _ _ _ _ Hout) as (resp & rest & Hwrites).
  exists chain_id, (rewritten_as uuid created chain_id rd), resp, rest.
  split; [assumption |].
  intros s Hs Hex.
  assert (Es : read_sink rd = s).
  { eapply sink_position_unique; [eassumption | left; assumption]. }
  destruct (read_kafka rd) as [k |] eqn:Hk.
  2:{ destruct (first_at_not_all _ _ _ Hs). apply Hnone. reflexivity. }
  pose proof Hreads as (Hobj & _).
  rewrite Hobj in Hreads. rewrite Hobj.
  apply (unchanged_when_present uuid created chain_id rd k); try assumption.
  - rewrite En. eapply first_at_nonempty. eassumption.
  - rewrite Ec. intros ->. inversion Hex.
  - apply Hlinked. rewrite Es. assumption.
Qed.

(** Where the edge is appended.  For every fetched document of the
    data model with the dispatch node at position [d] and the sink node
    at position [s] (found, or just appended at the end): if no edge at
    all connects [d] to [s], the document written has the edge from [d]
    to [s] labelled ['Post telemetry'] appended to its edge sequence. *)
Theorem edge_appended_unless_positions_linked (r : R) (token : string)
    (metadata : json) (nodes conns : list json) (d s : Z) :
  fetched_metadata (log (snd (run (ensure_sink token) r))) = Some metadata ->
  nodes_of metadata = Ok (JArr nodes) ->
  connections_of metadata = Ok (JArr conns) ->
  Forall is_node nodes ->
  Forall is_object conns ->
  first_at dispatch_node nodes d ->
  sink_position nodes s ->
  Forall (fun edge => ~ connects d s edge) conns ->
  exists chain_id doc resp rest,
    metadata_writes (log (snd (run (ensure_sink token) r)))
      = (own_write token chain_id doc, resp) :: rest
    /\ connections_of doc = Ok (JArr (conns ++ [telemetry_edge d s])).
Proof.
  intros Hfetched Hn Hc Hnodes Hconns Hd Hs Hnot.
  destruct (reads_typed metadata nodes conns d Hn Hc Hnodes Hconns Hd)
    as (rd & Hreads & En & Ec & Ed & Hpos & Hnone & Hlinked).
  destruct (ensure_proceeds KAFKA_BOOTSTRAP KAFKA_TOPIC r token metadata rd Hfetched Hreads)
    as (root_chain & chain_id & uuid & created & failure & Hout & _).
  destruct (write_outcome_head _ _ _ _ _ Hout) as (resp & rest & Hwrites).
  exists chain_id, (rewritten_as uuid created chain_id rd), resp, rest.
  split; [assumption |].
  assert (Es : read_sink rd = s) by (eapply sink_position_unique; eassumption).
  assert (El : read_linked rd = false).
  { destruct (read_linked rd); [| reflexivity].
    destruct Hlinked as (Hex & _). specialize (Hex eq_refl).
    rewrite Es in Hex. apply Exists_exists in Hex as (edge & Hin & Hedge).
    rewrite Forall_forall in Hnot. destruct (Hnot edge Hin Hedge). }
  rewrite connections_of_rewritten, Ec, Ed, Es, El. reflexivity.
Qed.

Lemma first_at_app_l P l l' i : first_at P l i -> first_at P (l ++ l') i.
Proof.
  intros (before & x & after & -> & Hb & Hx & ->).
  exists before, x, (after ++ l'). rewrite <- app_assoc. auto.
Qed.

Lemma first_at_end P l x :
  Forall (fun y => ~ P y) l -> P x -> first_at P (l ++ [x]) (Z.of_nat (length l)).
Proof. intros Hl Hx. exists l, x, []. auto. Qed.

Lemma kafka_node_is_node uuid created chain_id :
  is_node (kafka_node KAFKA_BOOTSTRAP KAFKA_TOPIC uuid created chain_id).
Proof. eexists. split; [reflexivity |]. right. eexists. reflexivity. Qed.

Lemma kafka_node_is_sink uuid created chain_id :
  sink_node (kafka_node KAFKA_BOOTSTRAP KAFKA_TOPIC uuid created chain_id).
Proof. eexists. split; reflexivity. Qed.

Lemma telemetry_edge_connects d s : connects d s (telemetry_edge d s).
Proof.
  exists [("fromIndex", JNum d); ("toIndex", JNum s); ("type", JStr POST_TELEMETRY)],
    (JNum d), (JNum s).
  cbn. rewrite !Z.eqb_refl. auto.
Qed.

Lemma count_where_app test l l' :
  count_where test (l ++ l') = (count_where test l + count_where test l')%nat.
Proof. unfold count_where. rewrite List.filter_app, length_app. reflexivity. Qed.

Lemma count_where_none test P l :
  Forall (decides test P) l -> Forall (fun x => ~ P x) l -> count_where test l = 0%nat.
Proof.
  unfold count_where.
  induction 1 as [| x l (b & Htest & Hb) _ IH]; intros Hall; [reflexivity |].
  inversion Hall as [| ? ? Hx Hl]; subst. cbn. rewrite Htest.
  destruct b; [destruct Hx; apply Hb; reflexivity | auto].
Qed.

Lemma count_where_some test P l :
  Forall (decides test P) l -> Exists P l -> (1 <= count_where test l)%nat.
Proof.
  unfold count_where.
  induction 1 as [| x l (b & Htest & Hb) _ IH]; intros Hex; [inversion Hex |].
  cbn. rewrite Htest.
  destruct b; [cbn; lia |].
  inversion Hex as [? ? Hx | ? ? Hl]; subst.
  - apply Hb in Hx. discriminate.
  - auto.
Qed.

Lemma count_where_one test P x :
  decides test P x -> P x -> count_where test [x] = 1%nat.
Proof.
  intros (b & Htest & Hb) Hx. unfold count_where. cbn. rewrite Htest.
  destruct b; [reflexivity |]. apply Hb in Hx. discriminate.
Qed.

Lemma first_at_exists P l i : first_at P l i -> Exists P l.
Proof.
  intros (before & x & after & -> & _ & Hx & _).
  apply Exists_app. right. constructor. assumption.
Qed.

(** The document written after a reading of a typed document: its
    sequences, and the sink node and linking edge it is sure to hold. *)
Lemma rewritten_settled uuid created chain_id metadata rd nodes conns d :
  reads metadata rd ->
  read_nodes rd = nodes ->
  read_conns rd = conns ->
  read_switch rd = d ->
  Forall is_node nodes ->
  Forall is_object conns ->
  first_at dispatch_node nodes d ->
  sink_position nodes (read_sink rd) ->
  (read_kafka rd = None <-> Forall (fun n => ~ sink_node n) nodes) ->
  (read_linked rd = true <-> Exists (connects d (read_sink rd)) conns) ->
  let nodes1 := nodes ++ new_nodes uuid created chain_id (read_kafka rd) in
  let conns1 := conns ++ appended_edges d (read_sink rd) (read_linked rd) in
  nodes_of (rewritten_as uuid created chain_id rd) = Ok (JArr nodes1)
  /\ connections_of (rewritten_as uuid created chain_id rd) = Ok (JArr conns1)
  /\ Forall is_node nodes1
  /\ Forall is_object conns1
  /\ first_at dispatch_node nodes1 d
  /\ first_at sink_node nodes1 (read_sink rd)
  /\ Exists (connects d (read_sink rd)) conns1.
Proof.
  intros Hreads En Ec Ed Hnodes Hconns Hd Hpos Hnone Hlinked nodes1 conns1.
  split; [rewrite nodes_of_rewritten, En; reflexivity |].
  split; [rewrite connections_of_rewritten, Ec, Ed; reflexivity |].
  split.
  { apply Forall_app. split; [assumption |].
    destruct (read_kafka rd); cbn; repeat constructor. apply kafka_node_is_node. }
  split.
  { apply Forall_app. split; [assumption |].
    destruct (read_linked rd); cbn; repeat constructor. eexists. reflexivity. }
  split; [apply first_at_app_l; assumption |].
  split.
  { subst nodes1. unfold read_sink in *.
    destruct (read_kafka rd) as [k |] eqn:Hk; cbn [sink_index appended_nodes] in *.
    - rewrite app_nil_r. destruct Hpos as [Hat | (Hall & _)]; [assumption |].
      apply Hnone in Hall. discriminate.
    - rewrite En.
      apply first_at_end; [apply Hnone; reflexivity | apply kafka_node_is_sink]. }
  subst conns1. destruct (read_linked rd) eqn:Hl; cbn [appended_edges].
  - rewrite app_nil_r. apply Hlinked. reflexivity.
  - apply Exists_app. right. constructor. apply telemetry_edge_connects.
Qed.

(** Two runs in a row.  Take a fetched document of the data model
    with a dispatch node at [d], the document [doc1] a first run wrote
    for it, and a second run that fetches [doc1].  Then [doc1] holds a
    sink node, first at some position [s], and an edge from [d] to [s];
    it holds exactly one sink node when the fetched document held at
    most one, and exactly one edge from [d] to [s] when the fetched
    document held at most one; an edge the first run appended carries
    the routing label; a fetched document that already held the sink
    node and an edge from [d] to it was written back as it was; and the
    second run sends [doc1] back unchanged. *)
Theorem second_run_adds_nothing (r0 r1 : R) (token : string)
    (metadata : json) (nodes conns : list json) (d : Z)
    (x1 : exchange) (doc1 : json) :
  fetched_metadata (log (snd (run (ensure_sink token) r0))) = Some metadata ->
  nodes_of metadata = Ok (JArr nodes) ->
  connections_of metadata = Ok (JArr conns) ->
  Forall is_node nodes ->
  Forall is_object conns ->
  first_at dispatch_node nodes d ->
  In x1 (metadata_writes (log (snd (run (ensure_sink token) r0)))) ->
  req_data (fst x1) = Some doc1 ->
  fetched_metadata (log (snd (run (ensure_sink token) r1))) = Some doc1 ->
  exists nodes1 conns1 s,
    nodes_of doc1 = Ok (JArr nodes1)
    /\ connections_of doc1 = Ok (JArr conns1)
    /\ first_at dispatch_node nodes1 d
    /\ first_at sink_node nodes1 s
    /\ Exists (connects d s) conns1
    /\ ((count_where is_kafka_node nodes <= 1)%nat ->
        count_where is_kafka_node nodes1 = 1%nat)
    /\ ((count_where (links d s) conns <= 1)%nat ->
        count_where (links d s) conns1 = 1%nat)
    /\ (Forall (fun edge => ~ connects d s edge) conns ->
        conns1 = conns ++ [telemetry_edge d s])
    /\ (forall s0,
          first_at sink_node nodes s0 ->
          Exists (connects d s0) conns ->
          doc1 = metadata)
    /\ (exists chain_id resp rest,
          metadata_writes (log (snd (run (ensure_sink token) r1)))
          = (own_write token chain_id doc1, resp) :: rest)
    /\ (forall x2,
          In x2 (metadata_writes (log (snd (run (ensure_sink token) r1)))) ->
          req_data (fst x2) = Some doc1).
Proof.
  intros Hfetched Hn Hc Hnodes Hconns Hd Hin Hdata Hfetched2.
  destruct (reads_typed metadata nodes conns d Hn Hc Hnodes Hconns Hd)
    as (rd & Hreads & En & Ec & Ed & Hpos & Hnone & Hlinked).
  destruct (written_document r0 token x1 Hin)
    as (metadata' & rd' & uuid & created & chain_id & Hfetched' & Hreads' & Hdata').
  rewrite Hfetched in Hfetched'. inversion Hfetched'; subst metadata'.
  rewrite (reads_functional _ _ _ Hreads' Hreads) in Hdata'. clear rd' Hreads'.
  rewrite Hdata in Hdata'. inversion Hdata'; subst doc1. clear Hdata'.
  destruct (rewritten_settled uuid created chain_id metadata rd nodes conns d
              Hreads En Ec Ed Hnodes Hconns Hd Hpos Hnone Hlinked)
    as (Hn1 & Hc1 & Hnodes1 & Hconns1 & Hd1 & Hs1 & Hex1).
  set (s := read_sink rd) in *.
  set (nodes1 := nodes ++ new_nodes uuid created chain_id (read_kafka rd)) in *.
  set (conns1 := conns ++ appended_edges d s (read_linked rd)) in *.
  exists nodes1, conns1, s.
  split; [exact Hn1 |]. split; [exact Hc1 |]. split; [exact Hd1 |].
  split; [exact Hs1 |]. split; [exact Hex1 |].
  assert (Hdk : Forall (decides is_kafka_node sink_node) nodes).
  { eapply Forall_impl; [exact Hnodes |].
    intros n Hnode. apply is_kafka_node_decides, is_node_object, Hnode. }
  assert (Hdl : Forall (decides (links d s) (connects d s)) conns).
  { eapply Forall_impl; [exact Hconns |]. intros c. apply links_decides. }
  split.
  { intros Hle. subst nodes1. rewrite count_where_app.
    destruct (read_kafka rd) as [k |] eqn:Hk; cbn [appended_nodes].
    - assert (Hsome : (1 <= count_where is_kafka_node nodes)%nat).
      { eapply count_where_some; [exact Hdk |].
        destruct Hpos as [Hat | (Hall & _)];
          [eapply first_at_exists; eassumption | apply Hnone in Hall; discriminate]. }
      cbn. lia.
    - rewrite (count_where_none _ _ _ Hdk) by (apply Hnone; reflexivity).
      erewrite count_where_one;
        [reflexivity | apply is_kafka_node_decides; eexists; reflexivity
         | apply kafka_node_is_sink]. }
  split.
  { intros Hle. subst conns1. rewrite count_where_app.
    destruct (read_linked rd) eqn:Hl; cbn [appended_edges].
    - assert (Hsome : (1 <= count_where (links d s) conns)%nat).
      { eapply count_where_some; [exact Hdl | apply Hlinked; reflexivity]. }
      cbn. lia.
    - assert (Hall : Forall (fun c => ~ connects d s c) conns).
      { apply Forall_forall. intros c Hc' Hcon.
        assert (E : false = true)
          by (apply Hlinked, Exists_exists; eauto).
        discriminate. }
      rewrite (count_where_none _ _ _ Hdl Hall).
      erewrite count_where_one;
        [reflexivity | apply links_decides; eexists; reflexivity
         | apply telemetry_edge_connects]. }
  split.
  { intros Hall. subst conns1.
    destruct (read_linked rd) eqn:Hl; [| reflexivity].
    destruct Hlinked as (Hex & _). specialize (Hex eq_refl).
    apply Exists_exists in Hex as (c & Hc' & Hcon).
    rewrite Forall_forall in Hall. destruct (Hall c Hc' Hcon). }
  split.
  { intros s0 Hs0 Hex0.
    assert (Es : s = s0).
    { eapply sink_position_unique; [eassumption | left; assumption]. }
    destruct (read_kafka rd) as [k |] eqn:Hk.
    2:{ destruct (first_at_not_all _ _ _ Hs0). apply Hnone. reflexivity. }
    pose proof Hreads as (Hobj & _). rewrite Hobj in Hreads. rewrite Hobj.
    apply (unchanged_when_present uuid created chain_id rd k); try assumption.
    - rewrite En. eapply first_at_nonempty. eassumption.
    - rewrite Ec. intros ->. inversion Hex0.
    - apply Hlinked. fold s. rewrite Es. assumption. }
  (* the second run *)
  destruct (reads_typed _ nodes1 conns1 d Hn1 Hc1 Hnodes1 Hconns1 Hd1)
    as (rd1 & Hreads1 & En1 & Ec1 & Ed1 & Hpos1 & Hnone1 & Hlinked1).
  assert (Es1 : read_sink rd1 = s).
  { eapply sink_position_unique; [eassumption | left; assumption]. }
  destruct (ensure_proceeds KAFKA_BOOTSTRAP KAFKA_TOPIC r1 token _ rd1 Hfetched2 Hreads1)
    as (root_chain2 & chain_id2 & uuid2 & created2 & failure2 & Hout2 & _).
  assert (Esame : rewritten_as uuid2 created2 chain_id2 rd1
                  = rewritten_as uuid created chain_id rd).
  { destruct (read_kafka rd1) as [k1 |] eqn:Hk1.
    2:{ destruct (first_at_not_all _ _ _ Hs1). apply Hnone1. reflexivity. }
    pose proof Hreads1 as (Hobj1 & _). rewrite Hobj1 in Hreads1. rewrite Hobj1.
    apply (unchanged_when_present uuid2 created2 chain_id2 rd1 k1); try assumption.
    - rewrite En1. eapply first_at_nonempty. eassumption.
    - rewrite Ec1. intros E. rewrite E in Hex1. inversion Hex1.
    - apply Hlinked1. rewrite Es1. assumption. }
  rewrite Esame in Hout2.
  split.
  - destruct (write_outcome_head _ _ _ _ _ Hout2) as (resp & rest & Hwrites).
    eauto.
  - intros x2 Hin2. eapply write_outcome_payload; eassumption.
Qed.

End GraphClaims.

(** ** Entity reconciliation, step by step *)
Section Entities.

Context {R : Type} `{Environment R}.

Local Abbreviation search_request token name :=
  (request_of (DevicesSearch name) GET None (Some token)).
Local Abbreviation create_request token name :=
  (request_of Device POST
     (Some (JObj [("name", JStr name); ("type", JStr "drone")])) (Some token)).
Local Abbreviation fetch_request token dev_id :=
  (request_of (DeviceCredentialsOf dev_id) GET None (Some token)).
Local Abbreviation upsert_request token payload :=
  (request_of DeviceCredentials POST (Some payload) (Some token)).

Lemma cred_payload_shape secret dev_id credentials payload :
  cred_payload secret dev_id credentials = Ok payload ->
  exists fields,
    payload = JObj fields
    /\ Py.lookup_key "credentialsType" fields = Some (JStr "ACCESS_TOKEN")
    /\ Py.lookup_key "credentialsId" fields = Some (JStr secret)
    /\ match credential_id credentials with
       | Some cid =>
           Py.lookup_key "id" fields = Some cid
           /\ Py.lookup_key "deviceId" fields
              = Some (owner_of credentials (own_reference dev_id))
       | None =>
           Py.lookup_key "id" fields = None
           /\ Py.lookup_key "deviceId" fields = Some (own_reference dev_id)
       end.
Proof.
  unfold cred_payload.
  destruct (Py.truthy credentials) eqn:Htruthy.
  - destruct credentials as [| | | | | fields]; cbn [Py.get rbind]; try discriminate.
    unfold credential_id, owner_of.
    destruct (Py.lookup_key "id" fields) as [cid |] eqn:Hid.
    + destruct (Py.truthy cid) eqn:Hcid.
      * cbn [Py.getitem]. rewrite Hid. cbn [rbind Py.setitem Py.get].
        intros E. inversion E; subst payload.
        eexists. split; [reflexivity |].
        destruct (Py.lookup_key "deviceId" fields); cbn; auto.
      * intros E. inversion E; subst payload.
        eexists. split; [reflexivity |]. cbn. auto.
    + cbn [Py.truthy]. intros E. inversion E; subst payload.
      eexists. split; [reflexivity |]. cbn. auto.
  - intros E. inversion E; subst payload.
    eexists. split; [reflexivity |].
    assert (Hnone : credential_id credentials = None).
    { destruct credentials as [| | | | | [| kv fields]]; try reflexivity.
      discriminate. }
    rewrite Hnone. cbn. auto.
Qed.

(** Every run of [ensure_device]: the search, then at most one create
    (sent only when the search gave no truthy exact match), then the
    credential fetch and the upsert. *)
Lemma ensure_device_inv (r : R) token name secret res w' :
  run (ensure_device token name secret) r = (res, w') ->
  exists s_resp created tail,
    log w' = (search_request token name, s_resp) :: created ++ tail
    /\ (created = []
        \/ exists c_resp fetched v,
             created = [(create_request token name, c_resp)]
             /\ decoded (DevicesSearch name) s_resp = Ok fetched
             /\ named_item name fetched = Ok v
             /\ Py.truthy v = false)
    /\ ((tail = [] /\ exists e, res = Raise e)
        \/ (exists dev_id f_resp e,
              tail = [(fetch_request token dev_id, f_resp)]
              /\ fetched_record (fetch_request token dev_id, f_resp) = None
              /\ res = Raise e)
        \/ (exists dev_id f_resp credentials e,
              tail = [(fetch_request token dev_id, f_resp)]
              /\ fetched_record (fetch_request token dev_id, f_resp) = Some credentials
              /\ cred_payload secret dev_id credentials = Raise e
              /\ res = Raise e)
        \/ (exists dev_id f_resp credentials payload u_resp,
              tail = [(fetch_request token dev_id, f_resp);
                      (upsert_request token payload, u_resp)]
              /\ fetched_record (fetch_request token dev_id, f_resp) = Some credentials
              /\ cred_payload secret dev_id credentials = Ok payload
              /\ ((exists v device,
                     decoded DeviceCredentials u_resp = Ok v /\ res = Ok device)
                  \/ (exists e,
                        decoded DeviceCredentials u_resp = Raise e /\ res = Raise e)))).
Proof.
  unfold run, ensure_device.
  set (w := {| env := r; log := []; stdout := [] |}).
  intros Hrun.
  apply bind_inv in Hrun as [(found & w0 & Hfind & Hrun) | (e & Hfind & ->)].
  2:{ unfold find_device in Hfind.
      apply bind_inv in Hfind as [(v & w00 & Hreq & Hlift) | (e' & Hreq & _)].
      - apply http_inv in Hreq as (resp & _ & _ & Hlog & _).
        apply lift_inv in Hlift as (_ & ->).
        exists resp, [], []. split; [exact Hlog |]. split; [left; reflexivity |].
        left. eauto.
      - apply http_inv in Hreq as (resp & _ & _ & Hlog & _).
        exists resp, [], []. split; [exact Hlog |]. split; [left; reflexivity |].
        left. eauto. }
  unfold find_device in Hfind.
  apply bind_inv in Hfind as [(fetched & w00 & Hreq & Hlift) | (e' & _ & E)];
    [| discriminate].
  apply http_inv in Hreq as (s_resp & _ & Hfetched & Hlog0 & _).
  apply lift_inv in Hlift as (Hfound & ->). cbn [log w app] in Hlog0.
  symmetry in Hfetched.
  exists s_resp.
  (* the device: found, or created *)
  apply bind_inv in Hrun as [(device & w1 & Hdev & Hrun) | (e & Hdev & ->)].
  2:{ destruct (Py.truthy found) eqn:Htruthy.
      - apply ret_inv in Hdev as (E & _). discriminate.
      - apply bind_inv in Hdev as [(c & w1 & Hcreate & Hdev) | (e' & Hcreate & _)].
        + apply bind_inv in Hdev as [(u & w2 & _ & Hdev) | (e' & Hprint & E)].
          * apply ret_inv in Hdev as (E & _). discriminate.
          * apply print_inv in Hprint as (E' & _). discriminate.
        + apply http_inv in Hcreate as (c_resp & _ & _ & Hlog & _).
          exists [(create_request token name, c_resp)], [].
          rewrite Hlog, Hlog0. split; [reflexivity |].
          split; [right; exists c_resp, fetched, found; auto |].
          left. eauto. }
  assert (Hcreated : exists created,
             log w1 = (search_request token name, s_resp) :: created
             /\ (created = []
                 \/ exists c_resp fetched v,
                      created = [(create_request token name, c_resp)]
                      /\ decoded (DevicesSearch name) s_resp = Ok fetched
                      /\ named_item name fetched = Ok v
                      /\ Py.truthy v = false)).
  { destruct (Py.truthy found) eqn:Htruthy.
    - apply ret_inv in Hdev as (_ & ->). exists []. split; [exact Hlog0 | left; reflexivity].
    - apply bind_inv in Hdev as [(c & w2 & Hcreate & Hdev) | (e' & _ & E)];
        [| discriminate].
      apply http_inv in Hcreate as (c_resp & _ & _ & Hlog & _).
      apply bind_inv in Hdev as [(u & w3 & Hprint & Hdev) | (e' & _ & E)];
        [| discriminate].
      apply print_inv in Hprint as (_ & Hlog3 & _).
      apply ret_inv in Hdev as (_ & ->).
      exists [(create_request token name, c_resp)].
      rewrite Hlog3, Hlog, Hlog0. split; [reflexivity |].
      right. exists c_resp, fetched, found. auto. }
  clear Hdev. destruct Hcreated as (created & Hlog1 & Hcreated).
  exists created.
  (* the two subscripts *)
  apply bind_inv in Hrun as [(device_ref & w2 & Href & Hrun) | (e & Href & ->)].
  2:{ apply lift_inv in Href as (_ & ->). exists [].
      rewrite app_nil_r. split; [exact Hlog1 | split; [exact Hcreated |]].
      left. eauto. }
  apply lift_inv in Href as (_ & ->).
  apply bind_inv in Hrun as [(dev_id & w2 & Hid & Hrun) | (e & Hid & ->)].
  2:{ apply lift_inv in Hid as (_ & ->). exists [].
      rewrite app_nil_r. split; [exact Hlog1 | split; [exact Hcreated |]].
      left. eauto. }
  apply lift_inv in Hid as (_ & ->).
  (* the credential fetch *)
  apply bind_inv in Hrun as [(credentials & w2 & Hfetch & Hrun) | (e & Hfetch & ->)].
  2:{ apply http_inv in Hfetch as (f_resp & _ & Hres & Hlog & _).
      exists [(fetch_request token dev_id, f_resp)].
      rewrite Hlog, Hlog1. split; [reflexivity | split; [exact Hcreated |]].
      right. left. exists dev_id, f_resp, e. split; [reflexivity |].
      split; [| reflexivity].
      destruct f_resp as [[record |] | | | |]; cbn in Hres; try discriminate; reflexivity. }
  apply http_inv in Hfetch as (f_resp & _ & Hres & Hlog2 & _).
  assert (Hrecord : fetched_record (fetch_request token dev_id, f_resp) = Some credentials).
  { destruct f_resp as [[record |] | | | |]; cbn in Hres; try discriminate;
      inversion Hres; reflexivity. }
  (* the payload *)
  apply bind_inv in Hrun as [(payload & w3 & Hpayload & Hrun) | (e & Hpayload & ->)].
  2:{ apply lift_inv in Hpayload as (Hp & ->).
      exists [(fetch_request token dev_id, f_resp)].
      rewrite Hlog2, Hlog1. split; [reflexivity | split; [exact Hcreated |]].
      right. right. left. exists dev_id, f_resp, credentials, e. auto. }
  apply lift_inv in Hpayload as (Hp & ->). symmetry in Hp.
  (* the upsert *)
  apply bind_inv in Hrun as [(v & w3 & Hupsert & Hrun) | (e & Hupsert & ->)].
  - apply http_inv in Hupsert as (u_resp & _ & Hres' & Hlog3 & _).
    apply ret_inv in Hrun as (-> & ->).
    exists [(fetch_request token dev_id, f_resp); (upsert_request token payload, u_resp)].
    rewrite Hlog3, Hlog2, Hlog1. rewrite <- !app_assoc.
    split; [reflexivity | split; [exact Hcreated |]].
    right. right. right. exists dev_id, f_resp, credentials, payload, u_resp.
    split; [reflexivity | split; [assumption | split; [assumption |]]].
    left. eauto.
  - apply http_inv in Hupsert as (u_resp & _ & Hres' & Hlog3 & _).
    exists [(fetch_request token dev_id, f_resp); (upsert_request token payload, u_resp)].
    rewrite Hlog3, Hlog2, Hlog1. rewrite <- !app_assoc.
    split; [reflexivity | split; [exact Hcreated |]].
    right. right. right. exists dev_id, f_resp, credentials, payload, u_resp.
    split; [reflexivity | split; [assumption | split; [assumption |]]].
    right. eauto.
Qed.

(** The creates and upserts in the log of a run, read off its shape. *)
Lemma entity_log_shape (r : R) token name secret res w' :
  run (ensure_device token name secret) r = (res, w') ->
  exists s_resp created tail,
    log w' = (search_request token name, s_resp) :: created ++ tail
    /\ creates (log w') = created
    /\ (length created <= 1)%nat
    /\ (created <> [] ->
        exists fetched v,
          decoded (DevicesSearch name) s_resp = Ok fetched
          /\ named_item name fetched = Ok v
          /\ Py.truthy v = false)
    /\ ((upserts (log w') = [] /\ exists e, res = Raise e)
        \/ (exists dev_id f_resp credentials payload u_resp,
              tail = [(fetch_request token dev_id, f_resp);
                      (upsert_request token payload, u_resp)]
              /\ upserts (log w') = [(upsert_request token payload, u_resp)]
              /\ fetched_record (fetch_request token dev_id, f_resp) = Some credentials
              /\ cred_payload secret dev_id credentials = Ok payload
              /\ ((exists v device,
                     decoded DeviceCredentials u_resp = Ok v /\ res = Ok device)
                  \/ (exists e,
                        decoded DeviceCredentials u_resp = Raise e /\ res = Raise e)))).
Proof.
  intros Hrun.
  destruct (ensure_device_inv r token name secret res w' Hrun)
    as (s_resp & created & tail & Hlog & Hcreated & Htail).
  exists s_resp, created, tail. split; [exact Hlog |].
  assert (Hc : creates (tail) = [] /\ (upserts created = [])
               /\ creates created = created /\ (length created <= 1)%nat).
  { split.
    - destruct Htail as [(-> & _) | [(d & f & e & -> & _) | [(d & f & c & e & -> & _)
                        | (d & f & c & p & u & -> & _)]]]; reflexivity.
    - destruct Hcreated as [-> | (c & f & v & -> & _)]; cbn; auto. }
  destruct Hc as (Hct & Huc & Hcc & Hlen).
  split.
  { rewrite Hlog. unfold creates, exchange in *. cbn [List.filter].
    change (is_create (search_request token name, s_resp)) with false. cbn iota.
    rewrite List.filter_app, Hct, Hcc. apply app_nil_r. }
  split; [exact Hlen |].
  split.
  { intros Hne. destruct Hcreated as [-> | (c & f & v & _ & Hf & Hv & Ht)];
      [contradiction | eauto]. }
  assert (Hu : upserts (log w') = upserts tail).
  { rewrite Hlog. unfold upserts, exchange in *. cbn [List.filter].
    change (is_upsert (search_request token name, s_resp)) with false. cbn iota.
    rewrite List.filter_app, Huc. reflexivity. }
  rewrite Hu.
  destruct Htail as [(-> & He) | [(d & f & e & -> & _ & ->) | [(d & f & c & e & -> & _ & _ & ->)
                    | (d & f & c & p & u & -> & Hrec & Hp & Hres)]]].
  - left. auto.
  - left. split; [reflexivity | eauto].
  - left. split; [reflexivity | eauto].
  - right. exists d, f, c, p, u. auto.
Qed.

(** C6. The credential upsert of a run answers the credential fetch
    that precedes it: it always carries the given secret; when the
    fetched record carries an id, the payload carries that id and the
    record's owning-entity reference; when there is no record, or the
    record carries no id, the payload has no id field and refers to
    the entity itself. *)
Theorem upsert_carries_fetched_credential_id (r : R)
    (token name secret : string) (x : exchange) :
  In x (upserts (log (snd (run (ensure_device token name secret) r)))) ->
  exists f dev_id credentials fields,
    In f (log (snd (run (ensure_device token name secret) r)))
    /\ req_path (fst f) = DeviceCredentialsOf dev_id
    /\ fetched_record f = Some credentials
    /\ req_data (fst x) = Some (JObj fields)
    /\ Py.lookup_key "credentialsId" fields = Some (JStr secret)
    /\ match credential_id credentials with
       | Some cid =>
           Py.lookup_key "id" fields = Some cid
           /\ Py.lookup_key "deviceId" fields
              = Some (owner_of credentials (own_reference dev_id))
       | None =>
           Py.lookup_key "id" fields = None
           /\ Py.lookup_key "deviceId" fields = Some (own_reference dev_id)
       end.
Proof.
  destruct (run (ensure_device token name secret) r) as [res w'] eqn:Hrun.
  cbn [snd]. intros Hin.
  destruct (entity_log_shape r token name secret res w' Hrun)
    as (s_resp & created & tail & Hlog & _ & _ & _ & Hups).
  destruct Hups as [(Hnone & _) | (dev_id & f_resp & credentials & payload & u_resp
                                   & -> & Hone & Hrec & Hp & _)].
  { rewrite Hnone in Hin. destruct Hin. }
  rewrite Hone in Hin. destruct Hin as [<- | []].
  destruct (cred_payload_shape _ _ _ _ Hp) as (fields & -> & _ & Hsecret & Hid).
  exists (fetch_request token dev_id, f_resp), dev_id, credentials, fields.
  split; [rewrite Hlog; right; apply in_or_app; right; left; reflexivity |].
  auto.
Qed.

End Entities.

(** ** The theorems on concrete runs *)
Section Runs.

Import Double.

Lemma switch_first_in_plain_graph :
  first_at dispatch_node [switch_node; save_node] 0.
Proof.
  exists [], switch_node, [save_node].
  split; [reflexivity | split; [constructor | split; [| reflexivity]]].
  eexists _, _. split; [reflexivity | split; reflexivity].
Qed.

Lemma find_selects_first_exact_match_witness :
  fst (run (find_rule_chain "token" "Root Rule Chain") two_chains) = Ok root_chain.
Proof.
  assert (Hsel : selects "Root Rule Chain" [other_chain; root_chain] root_chain).
  { apply (selects_first _ [other_chain] root_chain []).
    - constructor; [| constructor].
      eexists. split; [reflexivity |]. cbn. discriminate.
    - eexists. split; reflexivity. }
  exact (proj2 (find_selects_first_exact_match two_chains "token" "Root Rule Chain"
                  [("data", JArr [other_chain; root_chain])]
                  [other_chain; root_chain] root_chain eq_refl Hsel) eq_refl).
Defined.

Lemma sink_second_in_relabelled_graph :
  first_at sink_node [switch_node; sink] 1.
Proof.
  exists [switch_node], sink, [].
  split; [reflexivity | split; [| split; [| reflexivity]]].
  - constructor; [not_sink | constructor].
  - eexists. split; reflexivity.
Qed.

Lemma switch_first_in_relabelled_graph :
  first_at dispatch_node [switch_node; sink] 0.
Proof.
  exists [], switch_node, [sink].
  split; [reflexivity | split; [constructor | split; [| reflexivity]]].
  eexists _, _. split; [reflexivity | split; reflexivity].
Qed.

Lemma switch_first_in_settled_graph :
  first_at dispatch_node [switch_node; save_node; sink] 0.
Proof.
  exists [], switch_node, [save_node; sink].
  split; [reflexivity | split; [constructor | split; [| reflexivity]]].
  eexists _, _. split; [reflexivity | split; reflexivity].
Qed.

Lemma no_telemetry_edge_in_relabelled_graph :
  Forall (fun e => ~ connects_as 0 1 POST_TELEMETRY e) [edge 0 1 "Post attributes"].
Proof.
  constructor; [| constructor].
  intros (fields & E & _ & Hlabel). inversion E; subst.
  cbn in Hlabel. discriminate Hlabel.
Qed.

Lemma edge_appended_unless_positions_linked_witness :
  exists chain_id doc resp rest,
    metadata_writes (log (snd (reconcile_graph (holding plain_graph))))
    = (own_write "token" chain_id doc, resp) :: rest
    /\ connections_of doc
       = Ok (JArr ([edge 0 1 "Post telemetry"] ++ [telemetry_edge 0 2])).
Proof.
  apply (edge_appended_unless_positions_linked "kafka:9092" "tb-telemetry"
           (holding plain_graph) "token" plain_graph
           [switch_node; save_node] [edge 0 1 "Post telemetry"] 0 2).
  - vm_compute. reflexivity.
  - reflexivity.
  - reflexivity.
  - all_nodes.
  - all_objects.
  - exact switch_first_in_plain_graph.
  - right. split; [| reflexivity].
    constructor; [not_sink | constructor; [not_sink | constructor]].
  - constructor; [not_connected | constructor].
Defined.

(** C1. The duplicate check of lines 184-187 compares [fromIndex] and
    [toIndex] and not the label of the edge line 188 appends.  Here the
    fetched graph has the dispatch node at 0, the sink node at 1 and no
    edge from 0 to 1 labelled ['Post telemetry']; the edge from 0 to 1
    labelled ['Post attributes'] passes for it, nothing is appended,
    and the document written is the document fetched. *)
Lemma other_label_blocks_the_edge :
  fetched_metadata (log (snd (reconcile_graph (holding relabelled_graph))))
  = Some relabelled_graph
  /\ first_at dispatch_node [switch_node; sink] 0
  /\ first_at sink_node [switch_node; sink] 1
  /\ Forall (fun e => ~ connects_as 0 1 POST_TELEMETRY e) [edge 0 1 "Post attributes"]
  /\ metadata_writes (log (snd (reconcile_graph (holding relabelled_graph))))
     = [(own_write "token" (JStr "chain-1") relabelled_graph,
         Success (Some relabelled_graph))]
  /\ connections_of relabelled_graph = Ok (JArr [edge 0 1 "Post attributes"]).
Proof.
  split; [vm_compute; reflexivity |].
  split; [exact switch_first_in_relabelled_graph |].
  split; [exact sink_second_in_relabelled_graph |].
  split; [exact no_telemetry_edge_in_relabelled_graph |].
  split; [vm_compute; reflexivity | reflexivity].
Qed.

Lemma existing_references_keep_their_meaning_witness :
  exists metadata doc nodes conns nodes' conns',
    fetched_metadata (log (snd (reconcile_graph (holding plain_graph)))) = Some metadata
    /\ nodes_of metadata = Ok (JArr nodes)
    /\ connections_of metadata = Ok (JArr conns)
    /\ req_data (fst (first_write (log (snd (reconcile_graph (holding plain_graph))))))
       = Some doc
    /\ nodes_of doc = Ok (JArr nodes')
    /\ connections_of doc = Ok (JArr conns')
    /\ (forall (i : nat) (e : json), conns !! i = Some e -> conns' !! i = Some e)
    /\ (forall (j : nat) (n : json), nodes !! j = Some n -> nodes' !! j = Some n).
Proof.
  apply (existing_references_keep_their_meaning "kafka:9092" "tb-telemetry"
           (holding plain_graph) "token").
  vm_compute. left. reflexivity.
Defined.

Lemma write_only_appends_witness :
  exists fields nodes conns extra_nodes extra_edges,
    fetched_metadata (log (snd (reconcile_graph (holding plain_graph))))
    = Some (JObj fields)
    /\ nodes_of (JObj fields) = Ok (JArr nodes)
    /\ connections_of (JObj fields) = Ok (JArr conns)
    /\ req_data (fst (first_write (log (snd (reconcile_graph (holding plain_graph))))))
       = Some (JObj (Py.set_key
                       (Py.set_key fields "nodes" (JArr (nodes ++ extra_nodes)))
                       "connections" (JArr (conns ++ extra_edges))))
    /\ (length extra_nodes <= 1)%nat
    /\ (length extra_edges <= 1)%nat.
Proof.
  apply (write_only_appends "kafka:9092" "tb-telemetry" (holding plain_graph) "token").
  vm_compute. left. reflexivity.
Defined.

Lemma missing_dispatch_node_is_fatal_witness :
  fst (reconcile_graph (holding switchless_graph))
  = Raise (RequestError (Text "Message Type Switch node not found in root rule chain"))
  /\ Forall (fun x => req_method (fst x) = GET)
       (log (snd (reconcile_graph (holding switchless_graph))))
  /\ metadata_writes (log (snd (reconcile_graph (holding switchless_graph)))) = [].
Proof.
  apply (missing_dispatch_node_is_fatal "kafka:9092" "tb-telemetry"
           (holding switchless_graph) "token" switchless_graph [save_node]).
  - vm_compute. reflexivity.
  - reflexivity.
  - all_nodes.
  - constructor; [not_dispatch | constructor].
Defined.

Lemma write_is_never_skipped_witness :
  exists chain_id doc resp rest,
    metadata_writes (log (snd (reconcile_graph (holding settled_graph))))
    = (own_write "token" chain_id doc, resp) :: rest
    /\ (forall s,
          first_at sink_node [switch_node; save_node; sink] s ->
          Exists (connects 0 s)
            [edge 0 1 "Post telemetry"; edge 0 2 "Post telemetry"] ->
          doc = settled_graph).
Proof.
  apply (write_is_never_skipped "kafka:9092" "tb-telemetry"
           (holding settled_graph) "token" settled_graph
           [switch_node; save_node; sink]
           [edge 0 1 "Post telemetry"; edge 0 2 "Post telemetry"] 0).
  - vm_compute. reflexivity.
  - reflexivity.
  - reflexivity.
  - all_nodes.
  - all_objects.
  - exact switch_first_in_settled_graph.
Defined.

(** C10 as stated fails: this graph document has no dispatch node, and
    the run that fetched it sent no write request. *)
Lemma no_write_without_dispatch_node :
  fetched_metadata (log (snd (reconcile_graph (holding switchless_graph))))
  = Some switchless_graph
  /\ metadata_writes (log (snd (reconcile_graph (holding switchless_graph)))) = [].
Proof. split; vm_compute; reflexivity. Qed.

(** The platform a first run of [reconcile_graph] leaves. *)
Local Abbreviation after_graph p := (env (snd (reconcile_graph p))).
Local Abbreviation after_entity p := (env (snd (reconcile_entity p))).

Lemma second_run_adds_nothing_witness :
  exists chain_id resp rest,
    metadata_writes (log (snd (reconcile_graph (after_graph (holding plain_graph)))))
    = (own_write "token" chain_id
         (chain_metadata (after_graph (holding plain_graph))), resp) :: rest.
Proof.
  destruct (second_run_adds_nothing "kafka:9092" "tb-telemetry"
              (holding plain_graph) (after_graph (holding plain_graph)) "token"
              plain_graph [switch_node; save_node] [edge 0 1 "Post telemetry"] 0
              (first_write (log (snd (reconcile_graph (holding plain_graph)))))
              (chain_metadata (after_graph (holding plain_graph))))
    as (nodes1 & conns1 & s & _ & _ & _ & _ & _ & _ & _ & _ & _ & Hsame & _).
  - vm_compute. reflexivity.
  - reflexivity.
  - reflexivity.
  - all_nodes.
  - all_objects.
  - exact switch_first_in_plain_graph.
  - vm_compute. left. reflexivity.
  - vm_compute. reflexivity.
  - vm_compute. reflexivity.
  - exact Hsame.
Defined.

(** C4. Two runs against the same platform do not make up for the
    duplicate check of lines 184-187, which compares positions and not
    the label: both runs succeed, and the graph the platform holds
    afterwards is the one it held before, with the dispatch node at 0,
    the sink node at 1 and no edge from 0 to 1 labelled
    ['Post telemetry'] rather than exactly one. *)
Lemma relabelled_edge_survives_two_runs :
  fst (reconcile_graph (holding relabelled_graph)) = Ok root_chain
  /\ fst (reconcile_graph (after_graph (holding relabelled_graph))) = Ok root_chain
  /\ chain_metadata (after_graph (after_graph (holding relabelled_graph)))
     = relabelled_graph
  /\ nodes_of relabelled_graph = Ok (JArr [switch_node; sink])
  /\ connections_of relabelled_graph = Ok (JArr [edge 0 1 "Post attributes"])
  /\ first_at dispatch_node [switch_node; sink] 0
  /\ first_at sink_node [switch_node; sink] 1
  /\ Forall (fun e => ~ connects_as 0 1 POST_TELEMETRY e) [edge 0 1 "Post attributes"].
Proof.
  split; [vm_compute; reflexivity |].
  split; [vm_compute; reflexivity |].
  split; [vm_compute; reflexivity |].
  split; [reflexivity |].
  split; [reflexivity |].
  split; [exact switch_first_in_relabelled_graph |].
  split; [exact sink_second_in_relabelled_graph |].
  exact no_telemetry_edge_in_relabelled_graph.
Qed.

Lemma upsert_carries_fetched_credential_id_witness :
  exists f dev_id credentials fields,
    In f (log (snd (reconcile_entity (after_entity (holding plain_graph)))))
    /\ req_path (fst f) = DeviceCredentialsOf dev_id
    /\ fetched_record f = Some credentials
    /\ req_data (fst (first_upsert
                        (log (snd (reconcile_entity
                                     (after_entity (holding plain_graph)))))))
       = Some (JObj fields)
    /\ Py.lookup_key "credentialsId" fields = Some (JStr "drone-1-token")
    /\ match credential_id credentials with
       | Some cid =>
           Py.lookup_key "id" fields = Some cid
           /\ Py.lookup_key "deviceId" fields
              = Some (owner_of credentials (own_reference dev_id))
       | None =>
           Py.lookup_key "id" fields = None
           /\ Py.lookup_key "deviceId" fields = Some (own_reference dev_id)
       end.
Proof.
  apply (upsert_carries_fetched_credential_id
           (after_entity (holding plain_graph)) "token" "drone-1" "drone-1-token").
  vm_compute. left. reflexivity.
Defined.

End Runs.

(** ** Request disciplines *)
Section Discipline.

Context {R : Type} `{Environment R}.

Lemma sends_only_ret Q {A} (a : A) : sends_only (R := R) Q (ret a).
Proof.
  intros w res w' E. apply ret_inv in E as (_ & ->).
  exists []. rewrite app_nil_r. split; [reflexivity | constructor].
Qed.

Lemma sends_only_raise Q {A} e : sends_only (R := R) (A := A) Q (raise e).
Proof.
  intros w res w' E. apply raise_inv in E as (_ & ->).
  exists []. rewrite app_nil_r. split; [reflexivity | constructor].
Qed.

Lemma sends_only_lift Q {A} (r : result A) : sends_only (R := R) Q (lift r).
Proof.
  intros w res w' E. apply lift_inv in E as (_ & ->).
  exists []. rewrite app_nil_r. split; [reflexivity | constructor].
Qed.

Lemma sends_only_print Q line : sends_only (R := R) Q (print line).
Proof.
  intros w res w' E. apply print_inv in E as (_ & -> & _).
  exists []. rewrite app_nil_r. split; [reflexivity | constructor].
Qed.

Lemma sends_only_fresh_uuid Q : sends_only Q fresh_uuid.
Proof.
  intros w res w' E. apply fresh_uuid_inv in E as (_ & ->).
  exists []. rewrite app_nil_r. split; [reflexivity | constructor].
Qed.

Lemma sends_only_now_ms Q : sends_only Q now_ms.
Proof.
  intros w res w' E. apply now_ms_inv in E as (_ & ->).
  exists []. rewrite app_nil_r. split; [reflexivity | constructor].
Qed.

Lemma sends_only_http (Q : exchange -> Prop) path meth payload token :
  (forall resp, Q (request_of path meth payload token, resp)) ->
  sends_only Q (_http_request path meth payload token).
Proof.
  intros HQ w res w' E. apply http_inv in E as (resp & _ & _ & Hlog & _).
  eexists. split; [exact Hlog |]. constructor; [apply HQ | constructor].
Qed.

Lemma sends_only_bind Q {A B} (m : M R A) (k : A -> M R B) :
  sends_only Q m -> (forall a, sends_only Q (k a)) -> sends_only Q (bind m k).
Proof.
  intros Hm Hk w res w' E.
  apply bind_inv in E as [(a & w1 & E1 & E2) | (e & E1 & _)].
  - destruct (Hm _ _ _ E1) as (new1 & Hlog1 & HQ1).
    destruct (Hk a _ _ _ E2) as (new2 & Hlog2 & HQ2).
    exists (new1 ++ new2). rewrite Hlog2, Hlog1, app_assoc.
    split; [reflexivity | apply Forall_app; auto].
  - exact (Hm _ _ _ E1).
Qed.

Lemma sends_only_try Q {A} (m handler : M R A) :
  sends_only Q m -> sends_only Q handler ->
  sends_only Q (try_except_RequestError m handler).
Proof.
  intros Hm Hh w res w'. unfold try_except_RequestError.
  destruct (m w) as [[a | e] w1] eqn:E1.
  - intros E. inversion E; subst. exact (Hm _ _ _ E1).
  - destruct (Hm _ _ _ E1) as (new1 & Hlog1 & HQ1).
    destruct e; try (intros E; inversion E; subst; eauto; fail).
    intros E2. destruct (Hh _ _ _ E2) as (new2 & Hlog2 & HQ2).
    exists (new1 ++ new2). rewrite Hlog2, Hlog1, app_assoc.
    split; [reflexivity | apply Forall_app; auto].
Qed.

Lemma stops_ret {A} (a : A) : stops_at_failure (R := R) (ret a).
Proof.
  intros w res w' E. apply ret_inv in E as (_ & ->).
  exists []. rewrite app_nil_r. split; [reflexivity | left; constructor].
Qed.

Lemma stops_raise {A} e : stops_at_failure (R := R) (A := A) (raise e).
Proof.
  intros w res w' E. apply raise_inv in E as (_ & ->).
  exists []. rewrite app_nil_r. split; [reflexivity | left; constructor].
Qed.

Lemma stops_lift {A} (r : result A) : stops_at_failure (R := R) (lift r).
Proof.
  intros w res w' E. apply lift_inv in E as (_ & ->).
  exists []. rewrite app_nil_r. split; [reflexivity | left; constructor].
Qed.

Lemma stops_print line : stops_at_failure (R := R) (print line).
Proof.
  intros w res w' E. apply print_inv in E as (_ & -> & _).
  exists []. rewrite app_nil_r. split; [reflexivity | left; constructor].
Qed.

Lemma stops_http path meth payload token :
  stops_at_failure (_http_request path meth payload token).
Proof.
  intros w res w' E. apply http_inv in E as (resp & _ & Hres & Hlog & _).
  eexists. split; [exact Hlog |].
  destruct (decoded path resp) as [v | e] eqn:Hd.
  - left. constructor; [| constructor]. exists v. exact Hd.
  - right. exists [], (request_of path meth payload token, resp), e.
    split; [reflexivity | split; [constructor | split; [exact Hd | exact Hres]]].
Qed.

Lemma stops_bind {A B} (m : M R A) (k : A -> M R B) :
  stops_at_failure m -> (forall a, stops_at_failure (k a)) ->
  stops_at_failure (bind m k).
Proof.
  intros Hm Hk w res w' E.
  apply bind_inv in E as [(a & w1 & E1 & E2) | (e & E1 & ->)].
  - destruct (Hm _ _ _ E1) as (new1 & Hlog1 & [Hok1 | (b & x & e & _ & _ & _ & Hres)]);
      [| discriminate].
    destruct (Hk a _ _ _ E2) as (new2 & Hlog2 & [Hok2 | (b & x & e & -> & Hb & Hx & ->)]).
    + exists (new1 ++ new2). rewrite Hlog2, Hlog1, app_assoc.
      split; [reflexivity | left; apply Forall_app; auto].
    + exists (new1 ++ b ++ [x]). rewrite Hlog2, Hlog1.
      split; [rewrite <- !app_assoc; reflexivity |]. right. exists (new1 ++ b), x, e.
      split; [rewrite <- !app_assoc; reflexivity |].
      split; [apply Forall_app; auto | auto].
  - destruct (Hm _ _ _ E1) as (new1 & Hlog1 & [Hok1 | (b & x & e' & -> & Hb & Hx & E)]).
    + exists new1. auto.
    + inversion E; subst e'. exists (b ++ [x]). split; [assumption |].
      right. exists b, x, e. auto.
Qed.

End Discipline.

(** ** What the reconcilers never do *)
Section Never.

Context {R : Type} `{Environment R}.
Variables KAFKA_BOOTSTRAP KAFKA_TOPIC : string.

Local Abbreviation ensure_sink :=
  (ensure_kafka_sink_in_root_chain KAFKA_BOOTSTRAP KAFKA_TOPIC).

Ltac stops_at_each :=
  repeat first
    [ apply stops_bind; [| intros ?]
    | apply stops_ret | apply stops_raise | apply stops_lift
    | apply stops_print | apply stops_http
    | match goal with
      | |- stops_at_failure (if ?b then _ else _) => destruct b
      end ].

Ltac sends_each :=
  repeat first
    [ apply sends_only_bind; [| intros ?]
    | apply sends_only_try
    | apply sends_only_ret | apply sends_only_raise | apply sends_only_lift
    | apply sends_only_print | apply sends_only_fresh_uuid | apply sends_only_now_ms
    | apply sends_only_http; intros ?; reflexivity
    | match goal with
      | |- sends_only _ (if ?b then _ else _) => destruct b
      | |- sends_only _ (match ?x with Some _ => _ | None => _ end) => destruct x
      end ].

Lemma ensure_device_stops token name secret :
  stops_at_failure (R := R) (ensure_device token name secret).
Proof. unfold ensure_device, find_device. stops_at_each. Qed.

(** [ensure_device] has no retry: in the log of any run every request
    but possibly the last was answered; when the last one failed,
    nothing was sent after it and the run raises what it raised. *)
Theorem ensure_device_stops_at_first_failure (r : R) (token name secret : string) :
  Forall answered (log (snd (run (ensure_device token name secret) r)))
  \/ exists before x e,
       log (snd (run (ensure_device token name secret) r)) = before ++ [x]
       /\ Forall answered before
       /\ failed_with x e
       /\ fst (run (ensure_device token name secret) r) = Raise e.
Proof.
  destruct (run (ensure_device token name secret) r) as [res w'] eqn:Hrun.
  destruct (ensure_device_stops token name secret _ _ _ Hrun) as (new & Hlog & Hnew).
  cbn [log app] in Hlog. cbn [fst snd]. rewrite Hlog. exact Hnew.
Qed.

Lemma ensure_device_authorized token name secret :
  sends_only (R := R) (authorized token) (ensure_device token name secret).
Proof. unfold ensure_device, find_device. sends_each. Qed.

Lemma ensure_sink_authorized token :
  sends_only (R := R) (authorized token) (ensure_sink token).
Proof.
  unfold ensure_kafka_sink_in_root_chain, find_rule_chain, install_kafka_sink,
    with_kafka_node, with_telemetry_edge, write_metadata.
  sends_each.
Qed.

(** Every request of either reconciler carries the session token: the
    header [X-Authorization: Bearer <token>], and no such header only
    when the token is empty. *)
Theorem every_request_carries_the_token (r : R) (token name secret : string) :
  let header := if String.eqb token "" then None else Some ("Bearer " +:+ token) in
  Forall (fun x => req_authorization (fst x) = header)
    (log (snd (run (ensure_device token name secret) r)))
  /\ Forall (fun x => req_authorization (fst x) = header)
       (log (snd (run (ensure_sink token) r))).
Proof.
  cbn zeta. split.
  - destruct (run (ensure_device token name secret) r) as [res w'] eqn:Hrun.
    destruct (ensure_device_authorized token name secret _ _ _ Hrun) as (new & Hlog & Hnew).
    cbn [log app] in Hlog. cbn [snd]. rewrite Hlog. exact Hnew.
  - destruct (run (ensure_sink token) r) as [res w'] eqn:Hrun.
    destruct (ensure_sink_authorized token _ _ _ Hrun) as (new & Hlog & Hnew).
    cbn [log app] in Hlog. cbn [snd]. rewrite Hlog. exact Hnew.
Qed.

End Never.

(** ** Lookups and login: edge behaviour *)
Section LookupEdges.

Context {R : Type} `{Environment R}.

Lemma first_named_sound name items v :
  first_named name items = Ok v ->
  v = JNull \/ (In v items /\ named name v).
Proof.
  induction items as [| item items IH]; cbn.
  - intros E. inversion E. left. reflexivity.
  - destruct item as [| | | | | fields]; cbn; try discriminate.
    destruct (Py.lookup_key "name" fields) as [val |] eqn:Hname.
    + destruct (Py.eq_str val name) eqn:Heq.
      * intros E. inversion E; subst v. right. split; [left; reflexivity |].
        apply eq_str_true in Heq. subst val. exists fields. auto.
      * intros E. destruct (IH E) as [-> | (Hin & Hnamed)]; auto.
    + cbn. intros E. destruct (IH E) as [-> | (Hin & Hnamed)]; auto.
Qed.

Lemma named_item_sound name fetched v :
  named_item name fetched = Ok v ->
  v = JNull
  \/ (named name v
      /\ exists data entries,
           Py.get fetched "data" (JArr []) = Ok data
           /\ Py.iter data = Ok entries
           /\ In v entries).
Proof.
  unfold named_item, Py.or_else.
  destruct (Py.truthy fetched) eqn:Htruthy.
  - destruct (Py.get fetched "data" (JArr [])) as [data |] eqn:Hdata; [| discriminate].
    cbn [rbind].
    destruct (Py.iter data) as [entries |] eqn:Hiter; [| discriminate].
    cbn [rbind]. intros E.
    destruct (first_named_sound _ _ _ E) as [-> | (Hin & Hnamed)]; [auto |].
    right. split; [assumption |]. exists data, entries. auto.
  - cbn. intros E. inversion E. auto.
Qed.

(** Whatever [find_device] or [find_rule_chain] returns without raising
    is [None] or an entry of the answered page whose name is exactly the
    lookup name; never a near match. *)
Theorem find_returns_none_or_exact_match (r : R) (token name : string) (v : json) :
  (fst (run (find_device token name) r) = Ok v ->
   v = JNull
   \/ (named name v
       /\ exists x page data entries,
            log (snd (run (find_device token name) r)) = [x]
            /\ decoded (DevicesSearch name) (snd x) = Ok page
            /\ Py.get page "data" (JArr []) = Ok data
            /\ Py.iter data = Ok entries
            /\ In v entries))
  /\ (fst (run (find_rule_chain token name) r) = Ok v ->
      v = JNull
      \/ (named name v
          /\ exists x page data entries,
               log (snd (run (find_rule_chain token name) r)) = [x]
               /\ decoded (RuleChainsSearch name) (snd x) = Ok page
               /\ Py.get page "data" (JArr []) = Ok data
               /\ Py.iter data = Ok entries
               /\ In v entries)).
Proof.
  split.
  - destruct (run (find_device token name) r) as [res w'] eqn:Hrun. cbn [fst snd].
    intros ->. unfold run, find_device in Hrun.
    apply bind_inv in Hrun as [(page & w1 & Hreq & Hlift) | (e & _ & E)];
      [| discriminate].
    apply http_inv in Hreq as (resp & _ & Hres & Hlog & _).
    apply lift_inv in Hlift as (Hitem & ->). symmetry in Hitem.
    destruct (named_item_sound _ _ _ Hitem)
      as [-> | (Hnamed & data & entries & Hd & Hi & Hin)]; [auto |].
    right. split; [assumption |].
    exists (request_of (DevicesSearch name) GET None (Some token), resp), page, data, entries.
    cbn [log app] in Hlog. auto 6.
  - destruct (run (find_rule_chain token name) r) as [res w'] eqn:Hrun. cbn [fst snd].
    intros ->. unfold run, find_rule_chain in Hrun.
    apply bind_inv in Hrun as [(page & w1 & Hreq & Hlift) | (e & _ & E)];
      [| discriminate].
    apply http_inv in Hreq as (resp & _ & Hres & Hlog & _).
    apply lift_inv in Hlift as (Hitem & ->). symmetry in Hitem.
    destruct (named_item_sound _ _ _ Hitem)
      as [-> | (Hnamed & data & entries & Hd & Hi & Hin)]; [auto |].
    right. split; [assumption |].
    exists (request_of (RuleChainsSearch name) GET None (Some token), resp), page, data, entries.
    cbn [log app] in Hlog. auto 6.
Qed.

Lemma named_item_nothing name resp path :
  nothing_listed resp ->
  exists fetched, decoded path resp = Ok fetched /\ named_item name fetched = Ok JNull.
Proof.
  intros [-> | [(page & -> & Hfalsy) | (fields & -> & Hdata)]].
  - exists JNull. split; reflexivity.
  - exists page. split; [reflexivity |].
    unfold named_item, Py.or_else. rewrite Hfalsy. reflexivity.
  - exists (JObj fields). split; [reflexivity |].
    unfold named_item, Py.or_else.
    destruct fields as [| kv fields]; [reflexivity |].
    cbn [Py.truthy Py.get].
    destruct Hdata as [-> | ->]; reflexivity.
Qed.

(** An empty body, a [null] or empty page, a page without a ["data"]
    key and a page with an empty ["data"] list all make the lookups
    return [None], without raising. *)
Theorem find_nothing_listed (r : R) (token name : string) :
  (nothing_listed (fst (urlopen (request_of (DevicesSearch name) GET None (Some token)) r)) ->
   fst (run (find_device token name) r) = Ok JNull)
  /\ (nothing_listed
        (fst (urlopen (request_of (RuleChainsSearch name) GET None (Some token)) r)) ->
      fst (run (find_rule_chain token name) r) = Ok JNull).
Proof.
  split; intros Hnothing.
  - destruct (named_item_nothing name _ (DevicesSearch name) Hnothing)
      as (fetched & Hd & Hitem).
    unfold run, find_device, bind, _http_request. cbn [env].
    destruct (urlopen _ r) as [resp r']. cbn [fst] in Hd. rewrite Hd.
    unfold lift. rewrite Hitem. reflexivity.
  - destruct (named_item_nothing name _ (RuleChainsSearch name) Hnothing)
      as (fetched & Hd & Hitem).
    unfold run, find_rule_chain, bind, _http_request. cbn [env].
    destruct (urlopen _ r) as [resp r']. cbn [fst] in Hd. rewrite Hd.
    unfold lift. rewrite Hitem. reflexivity.
Qed.

(** [login] returns the ["token"] field of an object answer exactly when
    the field is present, whatever its value ([null] and [""] included),
    and returns nothing else: an answer that is empty, or an object
    without the field, raises the [RequestError] of line 75. *)
Theorem login_token_is_the_token_field :
  (forall answer t,
      login_token answer = Ok t ->
      exists fields, answer = JObj fields /\ Py.lookup_key "token" fields = Some t)
  /\ (forall fields t,
        Py.lookup_key "token" fields = Some t -> login_token (JObj fields) = Ok t)
  /\ (forall answer,
        Py.truthy answer = false ->
        login_token answer
        = Raise (RequestError (Text "Failed to retrieve ThingsBoard token")))
  /\ (forall fields,
        Py.lookup_key "token" fields = None ->
        login_token (JObj fields)
        = Raise (RequestError (Text "Failed to retrieve ThingsBoard token"))).
Proof.
  split; [| split; [| split]].
  - intros answer t. unfold login_token.
    destruct (Py.truthy answer) eqn:Htruthy; [| discriminate]. cbn [negb].
    destruct answer as [| b | n | s | items | fields]; cbn [Py.str_in rbind];
      try discriminate.
    + destruct (Py.substring_of "token" s); discriminate.
    + destruct (existsb _ items); discriminate.
    + destruct (Py.lookup_key "token" fields) as [t' |] eqn:Ht; [| discriminate].
      cbn [Py.getitem]. rewrite Ht. intros E. inversion E; subst. eauto.
  - intros fields t Ht. unfold login_token.
    destruct fields as [| kv fields]; [discriminate |].
    cbn [Py.truthy negb Py.str_in rbind]. rewrite Ht. cbn [Py.getitem]. rewrite Ht.
    reflexivity.
  - intros answer Hfalsy. unfold login_token. rewrite Hfalsy. reflexivity.
  - intros fields Ht. unfold login_token.
    destruct fields as [| kv fields]; [reflexivity |].
    cbn [Py.truthy negb Py.str_in rbind]. rewrite Ht. reflexivity.
Qed.

End LookupEdges.

(** ** The entity reconciler after its search *)
Section EntityEdges.

Context {R : Type} `{Environment R}.

Local Abbreviation search_request token name :=
  (request_of (DevicesSearch name) GET None (Some token)).
Local Abbreviation create_request token name :=
  (request_of Device POST
     (Some (JObj [("name", JStr name); ("type", JStr "drone")])) (Some token)).
Local Abbreviation fetch_request token dev_id :=
  (request_of (DeviceCredentialsOf dev_id) GET None (Some token)).

Lemma bind_after {A B} (m : M R A) (k : A -> M R B) w a w1 :
  m w = (Ok a, w1) -> bind m k w = k a w1.
Proof. unfold bind. intros ->. reflexivity. Qed.

Lemma bind_raised {A B} (m : M R A) (k : A -> M R B) w e w1 :
  m w = (Raise e, w1) -> bind m k w = (Raise e, w1).
Proof. unfold bind. intros ->. reflexivity. Qed.

Lemma find_device_listed (r : R) token name fields entries v :
  fst (urlopen (search_request token name) r) = Success (Some (JObj fields)) ->
  Py.lookup_key "data" fields = Some (JArr entries) ->
  selects name entries v ->
  exists w1,
    log w1 = [(search_request token name, Success (Some (JObj fields)))]
    /\ find_device token name {| env := r; log := []; stdout := [] |} = (Ok v, w1).
Proof.
  intros Hresp Hdata Hsel.
  unfold find_device, bind, _http_request. cbn [env log stdout app].
  destruct (urlopen (search_request token name) r) as [resp r'].
  cbn [fst] in Hresp. subst resp. cbn [decoded]. unfold lift.
  rewrite (named_item_selects name fields entries v Hdata Hsel).
  eexists. split; [| reflexivity]. reflexivity.
Qed.

Lemma named_truthy name v : named name v -> Py.truthy v = true.
Proof. intros (fields & -> & Hname). destruct fields; [discriminate | reflexivity]. Qed.

Lemma no_create_filter (l : list exchange) :
  Forall (fun x => is_create x = false) l -> creates l = [].
Proof.
  unfold creates. induction 1 as [| x l Hx _ IH]; [reflexivity |].
  cbn. rewrite Hx. exact IH.
Qed.

Ltac sends_each_entity :=
  repeat first
    [ apply sends_only_bind; [| intros ?]
    | apply sends_only_ret | apply sends_only_raise | apply sends_only_lift
    | apply sends_only_print
    | apply sends_only_http; intros ?; reflexivity ].

(** [ensure_device] creates the entity exactly when the search answer
    lists no entry with exactly its name: with an exact match no create
    request is sent; without one, the request after the search is the
    create of [{"name": name, "type": "drone"}], and it is the only one. *)
Theorem entity_created_exactly_when_absent (r : R) (token name secret : string)
    (fields : list (string * json)) (entries : list json) (v : json) :
  fst (urlopen (search_request token name) r) = Success (Some (JObj fields)) ->
  Py.lookup_key "data" fields = Some (JArr entries) ->
  selects name entries v ->
  (named name v ->
   creates (log (snd (run (ensure_device token name secret) r))) = [])
  /\ (v = JNull ->
      exists c_resp rest,
        log (snd (run (ensure_device token name secret) r))
        = (search_request token name, Success (Some (JObj fields)))
            :: (create_request token name, c_resp) :: rest
        /\ creates (log (snd (run (ensure_device token name secret) r)))
           = [(create_request token name, c_resp)]).
Proof.
  intros Hresp Hdata Hsel.
  destruct (find_device_listed r token name fields entries v Hresp Hdata Hsel)
    as (w1 & Hlog1 & Hfind).
  destruct (run (ensure_device token name secret) r) as [res w'] eqn:Hrun.
  cbn [snd]. unfold run, ensure_device in Hrun.
  rewrite (bind_after _ _ _ _ _ Hfind) in Hrun.
  split.
  - intros Hnamed. rewrite (named_truthy _ _ Hnamed) in Hrun.
    match type of Hrun with
    | ?m w1 = _ =>
        assert (Hsends : sends_only (fun x => is_create x = false) m)
          by sends_each_entity
    end.
    destruct (Hsends _ _ _ Hrun) as (new & Hlog & Hnew).
    rewrite Hlog, Hlog1. apply no_create_filter.
    constructor; [reflexivity | exact Hnew].
  - intros ->. cbn [Py.truthy] in Hrun.
    apply bind_inv in Hrun as [(device & w2 & Hdev & Hrun) | (e & Hdev & _)].
    + apply bind_inv in Hdev as [(c & w3 & Hcreate & Hdev) | (e & _ & E)];
        [| discriminate].
      apply http_inv in Hcreate as (c_resp & _ & _ & Hlog3 & _).
      apply bind_inv in Hdev as [(u & w4 & Hprint & Hdev) | (e & _ & E)];
        [| discriminate].
      apply print_inv in Hprint as (_ & Hlog4 & _).
      apply ret_inv in Hdev as (_ & ->).
      match type of Hrun with
      | ?m w4 = _ =>
          assert (Hsends : sends_only (fun x => is_create x = false) m)
            by sends_each_entity
      end.
      destruct (Hsends _ _ _ Hrun) as (new & Hlog & Hnew).
      exists c_resp, new. rewrite Hlog, Hlog4, Hlog3, Hlog1.
      split; [reflexivity |].
      unfold creates. cbn [app List.filter].
      change (is_create (search_request token name, Success (Some (JObj fields))))
        with false.
      change (is_create (create_request token name, c_resp)) with true.
      cbn iota. f_equal. apply no_create_filter. exact Hnew.
    + apply bind_inv in Hdev as [(c & w3 & Hcreate & Hdev) | (e' & Hcreate & _)].
      * apply bind_inv in Hdev as [(u & w4 & _ & Hdev) | (e' & Hprint & _)].
        -- apply ret_inv in Hdev as (E & _). discriminate.
        -- apply print_inv in Hprint as (E & _). discriminate.
      * apply http_inv in Hcreate as (c_resp & _ & _ & Hlog3 & _).
        exists c_resp, []. rewrite Hlog3, Hlog1. split; reflexivity.
Qed.

(** The two subscripts [device["id"]["id"]]. *)
Local Abbreviation id_of device :=
  (ref <- Py.getitem device "id" ;; Py.getitem ref "id")%result.

Lemma found_device_continues (r : R) token name secret fields entries v :
  fst (urlopen (search_request token name) r) = Success (Some (JObj fields)) ->
  Py.lookup_key "data" fields = Some (JArr entries) ->
  selects name entries v ->
  named name v ->
  exists w1,
    log w1 = [(search_request token name, Success (Some (JObj fields)))]
    /\ match id_of v with
       | Raise e => run (ensure_device token name secret) r = (Raise e, w1)
       | Ok dev_id =>
           exists f_resp w2,
             log w2 = log w1 ++ [(fetch_request token dev_id, f_resp)]
             /\ (forall e, decoded (DeviceCredentialsOf dev_id) f_resp = Raise e ->
                           run (ensure_device token name secret) r = (Raise e, w2))
             /\ (forall device,
                    fst (run (ensure_device token name secret) r) = Ok device ->
                    device = v)
             /\ exists new,
                  log (snd (run (ensure_device token name secret) r))
                  = log w2 ++ new
       end.
Proof.
  intros Hresp Hdata Hsel Hnamed.
  destruct (find_device_listed r token name fields entries v Hresp Hdata Hsel)
    as (w1 & Hlog1 & Hfind).
  exists w1. split; [exact Hlog1 |].
  destruct (run (ensure_device token name secret) r) as [res w'] eqn:Hrun.
  cbn [fst snd].
  unfold run, ensure_device in Hrun.
  rewrite (bind_after _ _ _ _ _ Hfind) in Hrun.
  rewrite (named_truthy _ _ Hnamed) in Hrun.
  unfold bind at 1 in Hrun. cbn [ret] in Hrun.
  unfold bind at 1 in Hrun. unfold lift at 1 in Hrun.
  destruct (Py.getitem v "id") as [ref |] eqn:Href; cbn [rbind];
    [| symmetry; exact Hrun].
  unfold bind at 1 in Hrun. unfold lift at 1 in Hrun.
  destruct (Py.getitem ref "id") as [dev_id |] eqn:Hid; [| symmetry; exact Hrun].
  unfold bind at 1 in Hrun. unfold _http_request at 1 in Hrun.
  destruct (urlopen (fetch_request token dev_id) (env w1)) as [f_resp r2].
  exists f_resp,
    {| env := r2; log := log w1 ++ [(fetch_request token dev_id, f_resp)];
       stdout := stdout w1 |}.
  split; [reflexivity |].
  destruct (decoded (DeviceCredentialsOf dev_id) f_resp) as [credentials | e].
  2:{ inversion Hrun; subst. split; [intros e' E; inversion E; reflexivity |].
      split; [intros device E; discriminate |].
      exists []. cbn. rewrite app_nil_r. reflexivity. }
  split; [intros e' E; discriminate |].
  unfold bind at 1 in Hrun. unfold lift at 1 in Hrun.
  destruct (cred_payload secret dev_id credentials) as [payload | e].
  2:{ inversion Hrun; subst. split; [intros device E; discriminate |].
      exists []. cbn. rewrite app_nil_r. reflexivity. }
  unfold bind at 1 in Hrun. unfold _http_request at 1 in Hrun.
  cbn [env log stdout] in Hrun.
  destruct (urlopen _ r2) as [u_resp r3].
  destruct (decoded DeviceCredentials u_resp) as [u | e].
  - cbn [ret] in Hrun. inversion Hrun; subst.
    split; [intros device E; inversion E; reflexivity |].
    eexists. reflexivity.
  - inversion Hrun; subst. split; [intros device E; discriminate |].
    eexists. reflexivity.
Qed.

(** A listed entity whose id cannot be read ([device["id"]["id"]] raises
    [KeyError] or [TypeError]) stops the run right after the search: the
    error propagates and no credential request is sent. *)
Theorem entity_without_id_stops_the_run (r : R) (token name secret : string)
    (fields : list (string * json)) (entries : list json) (v : json) (e : exn) :
  fst (urlopen (search_request token name) r) = Success (Some (JObj fields)) ->
  Py.lookup_key "data" fields = Some (JArr entries) ->
  selects name entries v ->
  named name v ->
  id_of v = Raise e ->
  fst (run (ensure_device token name secret) r) = Raise e
  /\ log (snd (run (ensure_device token name secret) r))
     = [(search_request token name, Success (Some (JObj fields)))].
Proof.
  intros Hresp Hdata Hsel Hnamed Hid.
  destruct (found_device_continues r token name secret fields entries v
              Hresp Hdata Hsel Hnamed) as (w1 & Hlog1 & Hcont).
  rewrite Hid in Hcont. rewrite Hcont. cbn [fst snd]. auto.
Qed.

(** For a listed entity, the call of [urlopen] after the search is the
    credential fetch built from that entity's own id, whatever the id
    is, and a successful run returns the listed entity itself.  When
    that call fails, the run ends there with the failure: with a
    [RequestError] for an HTTP or transport error, and with the
    library's own exception when it refuses the path before anything is
    on the wire ([InvalidURL] for an id that holds a blank). *)
Theorem credentials_fetched_for_the_listed_entity (r : R)
    (token name secret : string) (fields : list (string * json))
    (entries : list json) (v dev_id : json) :
  fst (urlopen (search_request token name) r) = Success (Some (JObj fields)) ->
  Py.lookup_key "data" fields = Some (JArr entries) ->
  selects name entries v ->
  named name v ->
  id_of v = Ok dev_id ->
  (exists f_resp rest,
      log (snd (run (ensure_device token name secret) r))
      = (search_request token name, Success (Some (JObj fields)))
          :: (fetch_request token dev_id, f_resp) :: rest
      /\ (forall e,
            decoded (DeviceCredentialsOf dev_id) f_resp = Raise e ->
            rest = [] /\ fst (run (ensure_device token name secret) r) = Raise e))
  /\ (forall device,
         fst (run (ensure_device token name secret) r) = Ok device -> device = v).
Proof.
  intros Hresp Hdata Hsel Hnamed Hid.
  destruct (found_device_continues r token name secret fields entries v
              Hresp Hdata Hsel Hnamed) as (w1 & Hlog1 & Hcont).
  rewrite Hid in Hcont.
  destruct Hcont as (f_resp & w2 & Hlog2 & Hfail & Hret & new & Hlog).
  split; [| exact Hret].
  exists f_resp, new. split; [rewrite Hlog, Hlog2, Hlog1; reflexivity |].
  intros e He. specialize (Hfail e He). rewrite Hfail in Hlog |- *.
  cbn [fst snd] in *. split; [| reflexivity].
  rewrite <- (app_nil_r (log w2)) in Hlog at 1.
  apply app_inv_head in Hlog. symmetry. exact Hlog.
Qed.

End EntityEdges.

(** ** The graph reconciler around its checks *)
Section GraphEdges.

Context {R : Type} `{Environment R}.
Variables KAFKA_BOOTSTRAP KAFKA_TOPIC : string.

Local Abbreviation install_sink :=
  (install_kafka_sink KAFKA_BOOTSTRAP KAFKA_TOPIC).
Local Abbreviation ensure_sink :=
  (ensure_kafka_sink_in_root_chain KAFKA_BOOTSTRAP KAFKA_TOPIC).
Local Abbreviation chain_search token :=
  (request_of (RuleChainsSearch "Root Rule Chain") GET None (Some token)).
Local Abbreviation metadata_fetch token chain_id :=
  (request_of (RuleChainMetadataOf chain_id) GET None (Some token)).
Local Abbreviation id_of chain :=
  (ref <- Py.getitem chain "id" ;; Py.getitem ref "id")%result.

Lemma find_rule_chain_log (r : R) token name res w1 :
  run (find_rule_chain token name) r = (res, w1) ->
  exists resp,
    log w1 = [(request_of (RuleChainsSearch name) GET None (Some token), resp)].
Proof.
  unfold run, find_rule_chain. intros Hrun.
  apply bind_inv in Hrun as [(page & w0 & Hreq & Hlift) | (e & Hreq & _)].
  - apply http_inv in Hreq as (resp & _ & _ & Hlog & _).
    apply lift_inv in Hlift as (_ & ->). exists resp. exact Hlog.
  - apply http_inv in Hreq as (resp & _ & _ & Hlog & _). exists resp. exact Hlog.
Qed.

(** When the lookup of ["Root Rule Chain"] finds nothing, the run raises
    the [RequestError] of line 133 after that single search: no metadata
    is fetched and nothing is written. *)
Theorem missing_root_chain_is_fatal (r : R) (token : string) (v : json) :
  fst (run (find_rule_chain token "Root Rule Chain") r) = Ok v ->
  Py.truthy v = false ->
  fst (run (ensure_sink token) r)
    = Raise (RequestError (Text "Root Rule Chain not found"))
  /\ exists resp, log (snd (run (ensure_sink token) r)) = [(chain_search token, resp)].
Proof.
  destruct (run (find_rule_chain token "Root Rule Chain") r) as [res w1] eqn:Hfind.
  cbn [fst]. intros -> Hfalsy.
  destruct (find_rule_chain_log r token _ _ _ Hfind) as (resp & Hlog1).
  unfold run in Hfind. unfold run, ensure_kafka_sink_in_root_chain.
  rewrite (bind_after _ _ _ _ _ Hfind). rewrite Hfalsy.
  cbn [raise fst snd]. eauto.
Qed.

Ltac sends_each_write :=
  repeat first
    [ apply sends_only_bind; [| intros ?]
    | apply sends_only_try
    | apply sends_only_ret | apply sends_only_raise | apply sends_only_lift
    | apply sends_only_print | apply sends_only_fresh_uuid | apply sends_only_now_ms
    | apply sends_only_http; intros ?; cbn; auto
    | match goal with
      | |- sends_only _ (if ?b then _ else _) => destruct b
      | |- sends_only _ (match ?x with Some _ => _ | None => _ end) => destruct x
      end ].

Lemma install_sends_writes_of token root_chain chain_id metadata :
  sends_only (R := R)
    (fun x => req_method (fst x) = POST
              /\ (req_path (fst x) = RuleChainMetadataOf chain_id
                  \/ req_path (fst x) = RuleChainMetadata))
    (install_sink token root_chain chain_id metadata).
Proof.
  unfold install_kafka_sink, with_kafka_node, with_telemetry_edge, write_metadata.
  sends_each_write.
Qed.

Lemma install_returns_the_chain token root_chain chain_id metadata (w : World R) c w' :
  install_sink token root_chain chain_id metadata w = (Ok c, w') -> c = root_chain.
Proof.
  intros Hrun. apply install_inv in Hrun
    as [(_ & e & E) | (fields & nodes & conns & d & ki & linked & w1 & uuid & created
                       & _ & _ & _ & _ & _ & _ & _ & Hfinish)]; [discriminate |].
  apply finish_inv in Hfinish as (new & failure & _ & _ & Hres).
  destruct failure; inversion Hres. reflexivity.
Qed.

(** The run works on the chain its lookup found: the call of [urlopen]
    after the search is the metadata fetch built from that chain's own
    id, whatever the id is; every later request is a [POST] to that
    chain's metadata path or to the legacy path; and a successful run
    returns the chain found.  When the fetch fails, the run ends there
    with the failure: a [RequestError] for an HTTP or transport error,
    the library's own exception when it refuses the path before
    anything is on the wire ([InvalidURL] for an id that holds a
    blank). *)
Theorem metadata_of_the_found_chain (r : R) (token : string) (v chain_id : json) :
  fst (run (find_rule_chain token "Root Rule Chain") r) = Ok v ->
  Py.truthy v = true ->
  id_of v = Ok chain_id ->
  (exists resp f_resp rest,
      log (snd (run (ensure_sink token) r))
      = (chain_search token, resp) :: (metadata_fetch token chain_id, f_resp) :: rest
      /\ Forall (fun x => req_method (fst x) = POST
                          /\ (req_path (fst x) = RuleChainMetadataOf chain_id
                              \/ req_path (fst x) = RuleChainMetadata)) rest
      /\ (forall e,
            decoded (RuleChainMetadataOf chain_id) f_resp = Raise e ->
            rest = [] /\ fst (run (ensure_sink token) r) = Raise e))
  /\ (forall c, fst (run (ensure_sink token) r) = Ok c -> c = v).
Proof.
  destruct (run (find_rule_chain token "Root Rule Chain") r) as [res w1] eqn:Hfind.
  cbn [fst]. intros -> Htruthy Hid.
  destruct (find_rule_chain_log r token _ _ _ Hfind) as (resp & Hlog1).
  unfold run in Hfind.
  destruct (run (ensure_sink token) r) as [res w'] eqn:Hrun. cbn [fst snd].
  unfold run, ensure_kafka_sink_in_root_chain in Hrun.
  rewrite (bind_after _ _ _ _ _ Hfind) in Hrun. rewrite Htruthy in Hrun.
  destruct (Py.getitem v "id") as [ref |] eqn:Href; [| discriminate].
  cbn [rbind] in Hid.
  unfold bind at 1 in Hrun. unfold lift at 1 in Hrun.
  unfold bind at 1 in Hrun. unfold lift at 1 in Hrun. rewrite Hid in Hrun.
  apply bind_inv in Hrun as [(fetched & w2 & Hfetch & Hrun) | (e & Hfetch & ->)].
  - apply http_inv in Hfetch as (f_resp & _ & Hdec & Hlog2 & _).
    destruct (install_sends_writes_of _ _ _ _ _ _ _ Hrun) as (new & Hlog & Hnew).
    split.
    + exists resp, f_resp, new. rewrite Hlog, Hlog2, Hlog1.
      split; [reflexivity | split; [assumption |]].
      intros e He. rewrite He in Hdec. discriminate.
    + intros c ->. eapply install_returns_the_chain. eassumption.
  - apply http_inv in Hfetch as (f_resp & _ & Hdec & Hlog2 & _).
    split; [| intros c E; discriminate].
    exists resp, f_resp, []. rewrite Hlog2, Hlog1.
    split; [reflexivity | split; [constructor |]].
    intros e' He. rewrite He in Hdec. split; [reflexivity | exact Hdec].
Qed.

Lemma first_index_skips test P before rest idx :
  Forall (decides test P) before ->
  Forall (fun n => ~ P n) before ->
  first_index test (before ++ rest) idx
  = first_index test rest (idx + Z.of_nat (length before)).
Proof.
  intros Hd. revert idx.
  induction Hd as [| n before (b & Htest & Hb) _ IH]; intros idx Hnot.
  - cbn. rewrite Z.add_0_r. reflexivity.
  - inversion Hnot as [| ? ? Hn Hnot']; subst. cbn [app first_index].
    rewrite Htest. cbn [rbind].
    destruct b; [destruct Hn; apply Hb; reflexivity |].
    rewrite IH by assumption. f_equal. cbn [length]. lia.
Qed.

(** A node that is no object (a [null], a string, a number, ...) met
    before any sink node makes the run raise [AttributeError] while it
    looks for the sink; nothing is written. *)
Theorem malformed_node_aborts_before_write (r : R) (token : string)
    (metadata : json) (before after : list json) (bad : json) :
  fetched_metadata (log (snd (run (ensure_sink token) r))) = Some metadata ->
  nodes_of metadata = Ok (JArr (before ++ bad :: after)) ->
  Forall is_node before ->
  Forall (fun n => ~ sink_node n) before ->
  (forall fields, bad <> JObj fields) ->
  fst (run (ensure_sink token) r) = Raise AttributeError
  /\ metadata_writes (log (snd (run (ensure_sink token) r))) = [].
Proof.
  intros Hfetched Hn Hbefore Hnone Hbad.
  destruct (fetched_is_installed KAFKA_BOOTSTRAP KAFKA_TOPIC r token metadata Hfetched)
    as (root_chain & chain_id & w1 & Hget & <-).
  assert (Hobj : exists fields, metadata = JObj fields).
  { destruct metadata; try discriminate. eauto. }
  destruct Hobj as (fields & ->).
  assert (Hk : first_index is_kafka_node (before ++ bad :: after) 0
               = Raise AttributeError).
  { rewrite (first_index_skips is_kafka_node sink_node).
    - destruct bad; try reflexivity. destruct (Hbad fields0). reflexivity.
    - eapply Forall_impl; [exact Hbefore |].
      intros n Hnode. apply is_kafka_node_decides, is_node_object, Hnode.
    - exact Hnone. }
  assert (Heval : install_sink token root_chain chain_id (JObj fields) w1
                  = (Raise AttributeError, w1)).
  { unfold install_kafka_sink.
    unfold bind at 1. unfold lift at 1. rewrite Hn.
    unfold bind at 1. unfold lift at 1. cbn [connections_of Py.get rbind].
    unfold bind at 1. unfold lift at 1. unfold next_index. cbn [Py.iter rbind].
    rewrite Hk. reflexivity. }
  rewrite Heval. cbn [fst snd].
  split; [reflexivity | apply writes_need_post; assumption].
Qed.

(** When the fetched document holds no sink node, the node appended is
    the one of lines 154-179 for the chain being written: the last node
    of the document sent, of the sink type, carrying [KAFKA_TOPIC] and
    [KAFKA_BOOTSTRAP] in its configuration and the id of the chain whose
    metadata path receives the write; and the document sent holds an
    edge from the dispatch position to the position of that node. *)
Theorem appended_sink_is_configured (r : R) (token : string) (metadata : json)
    (nodes conns : list json) (d : Z) :
  fetched_metadata (log (snd (run (ensure_sink token) r))) = Some metadata ->
  nodes_of metadata = Ok (JArr nodes) ->
  connections_of metadata = Ok (JArr conns) ->
  Forall is_node nodes ->
  Forall is_object conns ->
  first_at dispatch_node nodes d ->
  Forall (fun n => ~ sink_node n) nodes ->
  exists chain_id doc resp rest node conns',
    metadata_writes (log (snd (run (ensure_sink token) r)))
    = (own_write token chain_id doc, resp) :: rest
    /\ nodes_of doc = Ok (JArr (nodes ++ [node]))
    /\ sink_node node
    /\ (cfg <- Py.getitem node "configuration" ;; Py.getitem cfg "topic")%result
       = Ok (JStr KAFKA_TOPIC)
    /\ (cfg <- Py.getitem node "configuration" ;; Py.getitem cfg "bootstrapServers")%result
       = Ok (JStr KAFKA_BOOTSTRAP)
    /\ (ref <- Py.getitem node "ruleChainId" ;; Py.getitem ref "id")%result
       = Ok chain_id
    /\ connections_of doc = Ok (JArr conns')
    /\ Exists (connects d (Z.of_nat (length nodes))) conns'.
Proof.
  intros Hfetched Hn Hc Hnodes Hconns Hd Hnone.
  destruct (reads_typed metadata nodes conns d Hn Hc Hnodes Hconns Hd)
    as (rd & Hreads & En & Ec & Ed & Hpos & Hk & Hlinked).
  destruct (ensure_proceeds KAFKA_BOOTSTRAP KAFKA_TOPIC r token metadata rd Hfetched Hreads)
    as (root_chain & chain_id & uuid & created & failure & Hout & _).
  destruct (write_outcome_head _ _ _ _ _ Hout) as (resp & rest & Hwrites).
  destruct (rewritten_settled KAFKA_BOOTSTRAP KAFKA_TOPIC uuid created chain_id
              metadata rd nodes conns d Hreads En Ec Ed Hnodes Hconns Hd Hpos Hk Hlinked)
    as (Hn1 & Hc1 & _ & _ & _ & _ & Hex).
  assert (Ek : read_kafka rd = None) by (apply Hk; exact Hnone).
  assert (Es : read_sink rd = Z.of_nat (length nodes)).
  { unfold read_sink. rewrite Ek, En. reflexivity. }
  rewrite Ek in Hn1. rewrite Es in Hc1, Hex. cbn [appended_nodes] in Hn1.
  exists chain_id, (rewritten KAFKA_BOOTSTRAP KAFKA_TOPIC uuid created chain_id rd),
    resp, rest, (kafka_node KAFKA_BOOTSTRAP KAFKA_TOPIC uuid created chain_id),
    (conns ++ appended_edges d (Z.of_nat (length nodes)) (read_linked rd)).
  split; [exact Hwrites |]. split; [exact Hn1 |].
  split; [apply kafka_node_is_sink |].
  split; [reflexivity |]. split; [reflexivity |]. split; [reflexivity |].
  split; [exact Hc1 | exact Hex].
Qed.

End GraphEdges.

(** ** Progress markers *)
Section Markers.

Context {R : Type} `{Environment R}.
Variables KAFKA_BOOTSTRAP KAFKA_TOPIC : string.

Local Abbreviation install_sink :=
  (install_kafka_sink KAFKA_BOOTSTRAP KAFKA_TOPIC).
Local Abbreviation ensure_sink :=
  (ensure_kafka_sink_in_root_chain KAFKA_BOOTSTRAP KAFKA_TOPIC).
Local Abbreviation rewritten_as := (rewritten KAFKA_BOOTSTRAP KAFKA_TOPIC).

Local Open Scope monad_scope.

Local Abbreviation finish token root_chain chain_id doc :=
  (write_metadata token chain_id doc ;;;
   print "[+] Root Rule Chain updated with Kafka forwarding" ;;;
   ret root_chain).

Lemma http_quiet path meth payload token (w : World R) res w' :
  _http_request path meth payload token w = (res, w') -> stdout w' = stdout w.
Proof.
  unfold _http_request. destruct (urlopen _ (env w)) as [resp r'].
  intros E. inversion E. reflexivity.
Qed.

Lemma ensure_reaches_install_quietly (r : R) token res w' metadata :
  run (ensure_sink token) r = (res, w') ->
  fetched_metadata (log w') = Some metadata ->
  exists root_chain chain_id w1,
    stdout w1 = []
    /\ install_sink token root_chain chain_id metadata w1 = (res, w').
Proof.
  intros Hrun Hfetched.
  pose proof Hrun as Hinv. apply ensure_inv in Hinv
    as [(Hnone & _) | (root_chain & chain_id & resp & body & w1 & Hlog1 & Hinst)].
  { rewrite Hnone in Hfetched. discriminate. }
  cbn zeta in Hlog1.
  destruct (install_log _ _ _ _ _ _ _ _ _ Hinst) as (new0 & Hlog0 & _).
  rewrite Hlog0, Hlog1, fetched_after_prefix in Hfetched.
  injection Hfetched as Hmd.
  (* the same steps again, for what they print *)
  unfold run, ensure_kafka_sink_in_root_chain in Hrun.
  apply bind_inv in Hrun as [(rc & w0 & Hfind & Hrun) | (e & Hfind & ->)].
  2:{ unfold find_rule_chain in Hfind.
      assert (Hlen : length (log w') = 1%nat).
      { apply bind_inv in Hfind as [(v & w00 & Hreq & Hlift) | (e' & Hreq & _)].
        - apply http_inv in Hreq as (? & _ & _ & Hlog & _).
          apply lift_inv in Hlift as (_ & ->). rewrite Hlog. reflexivity.
        - apply http_inv in Hreq as (? & _ & _ & Hlog & _). rewrite Hlog. reflexivity. }
      rewrite Hlog0, Hlog1 in Hlen. discriminate. }
  unfold find_rule_chain in Hfind.
  apply bind_inv in Hfind as [(v & w00 & Hreq & Hlift) | (e' & _ & E)]; [| discriminate].
  pose proof (http_quiet _ _ _ _ _ _ _ Hreq) as Hq0.
  apply http_inv in Hreq as (resp0 & _ & _ & Hlog00 & _).
  apply lift_inv in Hlift as (_ & ->).
  destruct (Py.truthy rc).
  2:{ apply raise_inv in Hrun as (_ & ->).
      rewrite Hlog00 in Hlog0. rewrite Hlog1 in Hlog0. discriminate. }
  apply bind_inv in Hrun as [(ref & w1' & Href & Hrun) | (e & Href & ->)].
  2:{ apply lift_inv in Href as (_ & ->).
      rewrite Hlog00 in Hlog0. rewrite Hlog1 in Hlog0. discriminate. }
  apply lift_inv in Href as (_ & ->).
  apply bind_inv in Hrun as [(cid & w1' & Hid & Hrun) | (e & Hid & ->)].
  2:{ apply lift_inv in Hid as (_ & ->).
      rewrite Hlog00 in Hlog0. rewrite Hlog1 in Hlog0. discriminate. }
  apply lift_inv in Hid as (_ & ->).
  apply bind_inv in Hrun as [(fetched & w2 & Hfetch & Hrun) | (e & Hfetch & ->)].
  2:{ apply http_inv in Hfetch as (resp' & _ & Hres & Hlog & _).
      rewrite Hlog, Hlog00 in Hlog0. rewrite Hlog1 in Hlog0. cbn in Hlog0.
      inversion Hlog0; subst. destruct body; discriminate Hres. }
  pose proof (http_quiet _ _ _ _ _ _ _ Hfetch) as Hq2.
  apply http_inv in Hfetch as (resp' & _ & Hres & Hlog2 & _).
  destruct (install_log _ _ _ _ _ _ _ _ _ Hrun) as (new & Hlog & _).
  assert (Hsame : Py.or_else fetched (JObj []) = metadata).
  { rewrite <- Hmd.
    rewrite Hlog, Hlog2, Hlog00 in Hlog0. rewrite Hlog1 in Hlog0. cbn in Hlog0.
    inversion Hlog0; subst. cbn in Hres. destruct body; inversion Hres; reflexivity. }
  exists rc, cid, w2. rewrite <- Hsame.
  split; [rewrite Hq2, Hq0; reflexivity | exact Hrun].
Qed.

Lemma install_prints token root_chain chain_id fields nodes conns d ki linked
    (w : World R) :
  nodes_of (JObj fields) = Ok (JArr nodes) ->
  connections_of (JObj fields) = Ok (JArr conns) ->
  first_index is_kafka_node nodes 0 = Ok ki ->
  first_index is_msg_switch nodes 0 = Ok (Some d) ->
  any_of (links d (sink_index nodes ki)) conns = Ok linked ->
  exists w1 doc,
    stdout w1
    = stdout w ++ progress_markers (match ki with None => true | Some _ => false end)
                    (negb linked) false
    /\ install_sink token root_chain chain_id (JObj fields) w
       = finish token root_chain chain_id doc w1.
Proof.
  intros Hnodes Hconns Hkafka Hswitch Hany.
  unfold install_kafka_sink.
  unfold bind at 1. unfold lift at 1. rewrite Hnodes.
  unfold bind at 1. unfold lift at 1. rewrite Hconns.
  unfold bind at 1. unfold lift at 1. unfold next_index.
  cbn [Py.iter rbind]. rewrite Hkafka.
  unfold bind at 1. unfold lift at 1. rewrite Hswitch.
  destruct ki as [k |]; cbn [sink_index] in Hany.
  - unfold bind at 1. cbn [with_kafka_node ret fst snd].
    unfold bind at 1. unfold with_telemetry_edge.
    unfold bind at 1. unfold lift at 1. unfold any.
    cbn [Py.iter rbind]. rewrite Hany.
    destruct linked.
    + cbn [ret]. eexists w, _. split; [| reflexivity].
      cbn. rewrite app_nil_r. reflexivity.
    + unfold bind at 1. unfold lift at 1. cbn [Py.append].
      unfold bind at 1. unfold print at 1. cbn [ret].
      eexists _, _. split; [| reflexivity]. reflexivity.
  - unfold bind at 1. unfold with_kafka_node.
    unfold bind at 1. unfold fresh_uuid at 1.
    destruct (uuid4 (env w)) as [uuid r1].
    unfold bind at 1. unfold now_ms at 1. cbn [env].
    destruct (time_ms r1) as [created r2].
    unfold bind at 1. unfold lift at 1. cbn [Py.append].
    unfold bind at 1. unfold lift at 1. cbn [Py.len].
    unfold bind at 1. unfold print at 1. cbn [ret fst snd].
    replace (Z.of_nat (length (nodes ++ [kafka_node KAFKA_BOOTSTRAP KAFKA_TOPIC uuid created chain_id])) - 1)
      with (Z.of_nat (length nodes))
      by (rewrite length_app; simpl; lia).
    unfold bind at 1. unfold with_telemetry_edge.
    unfold bind at 1. unfold lift at 1. unfold any.
    cbn [Py.iter rbind]. rewrite Hany.
    destruct linked.
    + cbn [ret]. eexists _, _. split; [| reflexivity]. reflexivity.
    + unfold bind at 1. unfold lift at 1. cbn [Py.append].
      unfold bind at 1. unfold print at 1. cbn [ret].
      eexists _, _. split; [| reflexivity].
      cbn [stdout]. rewrite <- app_assoc. reflexivity.
Qed.

Lemma finish_prints token (root_chain chain_id doc : json) (w : World R)
    (res : result json) w' :
  finish token root_chain chain_id doc w = (res, w') ->
  stdout w'
  = stdout w ++ match res with
                | Ok _ => ["[+] Root Rule Chain updated with Kafka forwarding"]
                | Raise _ => []
                end.
Proof.
  intros Hrun.
  apply bind_inv in Hrun as [(v & w1 & Hwrite & Hrun) | (e & Hwrite & ->)].
  - assert (Hq : stdout w1 = stdout w).
    { unfold write_metadata, try_except_RequestError in Hwrite.
      destruct (_http_request (RuleChainMetadataOf chain_id) POST (Some doc) (Some token) w)
        as [[v1 | e1] w2] eqn:H1.
      - inversion Hwrite; subst. eapply http_quiet. eassumption.
      - apply http_quiet in H1. destruct e1; try discriminate.
        apply http_quiet in Hwrite. congruence. }
    apply bind_inv in Hrun as [(u & w2 & Hprint & Hrun) | (e & Hprint & _)].
    + apply ret_inv in Hrun as (-> & ->).
      unfold print in Hprint. inversion Hprint; subst. cbn [stdout]. rewrite Hq.
      reflexivity.
    + apply print_inv in Hprint as (E & _). discriminate.
  - rewrite app_nil_r.
    unfold write_metadata, try_except_RequestError in Hwrite.
    destruct (_http_request (RuleChainMetadataOf chain_id) POST (Some doc) (Some token) w)
      as [[v1 | e1] w2] eqn:H1.
    + inversion Hwrite.
    + apply http_quiet in H1. destruct e1;
        try (inversion Hwrite; subst; assumption).
      apply http_quiet in Hwrite. congruence.
Qed.

(** The run prints a marker exactly for each action it takes: on a
    document of the data model with a dispatch node, all it has printed
    when it ends is the node marker exactly when the document held no
    sink node, then the edge marker exactly when no edge linked the
    dispatch position to the sink position, then the closing marker
    exactly when the run succeeded.  Only the closing marker depends on
    what became of the write: a run whose write failed has printed the
    other two all the same. *)
Theorem markers_match_actions (r : R) (token : string) (metadata : json)
    (nodes conns : list json) (d s : Z) :
  fetched_metadata (log (snd (run (ensure_sink token) r))) = Some metadata ->
  nodes_of metadata = Ok (JArr nodes) ->
  connections_of metadata = Ok (JArr conns) ->
  Forall is_node nodes ->
  Forall is_object conns ->
  first_at dispatch_node nodes d ->
  sink_position nodes s ->
  exists node_added edge_added written,
    stdout (snd (run (ensure_sink token) r))
    = progress_markers node_added edge_added written
    /\ (node_added = true <-> Forall (fun n => ~ sink_node n) nodes)
    /\ (edge_added = true <-> Forall (fun e => ~ connects d s e) conns)
    /\ (written = true <-> exists c, fst (run (ensure_sink token) r) = Ok c).
Proof.
  intros Hfetched Hn Hc Hnodes Hconns Hd Hs.
  destruct (reads_typed metadata nodes conns d Hn Hc Hnodes Hconns Hd)
    as (rd & Hreads & En & Ec & Ed & Hpos & Hnone & Hlinked).
  assert (Es : read_sink rd = s) by (eapply sink_position_unique; eassumption).
  destruct (run (ensure_sink token) r) as [res w'] eqn:Hrun. cbn [fst snd] in *.
  destruct (ensure_reaches_install_quietly r token res w' metadata Hrun Hfetched)
    as (root_chain & chain_id & w1 & Hquiet & Hinst).
  destruct Hreads as (Hobj & Hn' & Hc' & Hk & Hsw & Hany).
  rewrite Hobj in Hinst, Hn', Hc'.
  destruct (install_prints token root_chain chain_id _ _ _ _ _ _ w1 Hn' Hc' Hk Hsw Hany)
    as (w2 & doc & Hout & Heq).
  rewrite Heq in Hinst. apply finish_prints in Hinst.
  exists (match read_kafka rd with None => true | Some _ => false end),
    (negb (read_linked rd)), (match res with Ok _ => true | Raise _ => false end).
  split.
  { rewrite Hinst, Hout, Hquiet. unfold progress_markers.
    destruct (read_kafka rd), (read_linked rd), res; reflexivity. }
  split.
  { rewrite <- Hnone. destruct (read_kafka rd); split; congruence. }
  split.
  { rewrite Es in Hlinked. split.
    - intros Hneg. apply Forall_forall. intros e Hin Hcon.
      assert (E : read_linked rd = true) by (apply Hlinked, Exists_exists; eauto).
      rewrite E in Hneg. discriminate.
    - intros Hall. destruct (read_linked rd) eqn:El; [| reflexivity].
      destruct Hlinked as (Hex & _). specialize (Hex eq_refl).
      apply Exists_exists in Hex as (e & Hin & Hcon).
      rewrite Forall_forall in Hall. destruct (Hall e Hin Hcon). }
  destruct res; split; try discriminate; eauto.
  intros (c & E). discriminate.
Qed.

End Markers.

(** ** Further runs *)
Section MoreRuns.

Import Double Cases Guarded.

Local Abbreviation after_entity p := (env (snd (reconcile_entity p))).

Lemma find_returns_none_or_exact_match_witness :
  root_chain = JNull
  \/ (named "Root Rule Chain" root_chain
      /\ exists x page data entries,
           log (snd (run (find_rule_chain "token" "Root Rule Chain") two_chains)) = [x]
           /\ decoded (RuleChainsSearch "Root Rule Chain") (snd x) = Ok page
           /\ Py.get page "data" (JArr []) = Ok data
           /\ Py.iter data = Ok entries
           /\ In root_chain entries).
Proof.
  apply (proj2 (find_returns_none_or_exact_match two_chains "token" "Root Rule Chain"
                  root_chain)).
  vm_compute. reflexivity.
Defined.

Lemma find_nothing_listed_witness :
  fst (run (find_rule_chain "token" "Root Rule Chain") unprovisioned) = Ok JNull.
Proof.
  apply (proj2 (find_nothing_listed unprovisioned "token" "Root Rule Chain")).
  right. right. exists [("data", JArr [])]. split; [reflexivity | right; reflexivity].
Defined.

Lemma login_token_is_the_token_field_witness :
  login_token (JObj [("token", JStr "eyJhbGciOi"); ("refreshToken", JStr "eyJyZWZyZX")])
  = Ok (JStr "eyJhbGciOi").
Proof.
  apply (proj1 (proj2 login_token_is_the_token_field)). reflexivity.
Defined.

Lemma entity_created_exactly_when_absent_witness :
  exists c_resp rest,
    log (snd (reconcile_entity (holding plain_graph)))
    = (request_of (DevicesSearch "drone-1") GET None (Some "token"),
       Success (Some (JObj [("data", JArr [])])))
        :: (request_of Device POST
              (Some (JObj [("name", JStr "drone-1"); ("type", JStr "drone")]))
              (Some "token"), c_resp) :: rest
    /\ creates (log (snd (reconcile_entity (holding plain_graph))))
       = [(request_of Device POST
             (Some (JObj [("name", JStr "drone-1"); ("type", JStr "drone")]))
             (Some "token"), c_resp)].
Proof.
  destruct (entity_created_exactly_when_absent (holding plain_graph)
              "token" "drone-1" "drone-1-token" [("data", JArr [])] [] JNull)
    as (_ & Habsent).
  - vm_compute. reflexivity.
  - reflexivity.
  - apply selects_none. constructor.
  - apply Habsent. reflexivity.
Defined.

Lemma nameless_id_listed :
  selects "drone-1" [nameless_id] nameless_id /\ named "drone-1" nameless_id.
Proof.
  split.
  - apply (selects_first "drone-1" [] nameless_id []); [constructor |].
    eexists. split; reflexivity.
  - eexists. split; reflexivity.
Qed.

Lemma entity_without_id_stops_the_run_witness :
  fst (reconcile_entity listing_idless_device) = Raise (KeyError "id")
  /\ log (snd (reconcile_entity listing_idless_device))
     = [(request_of (DevicesSearch "drone-1") GET None (Some "token"),
         Success (Some (JObj [("data", JArr [nameless_id])])))].
Proof.
  apply (entity_without_id_stops_the_run listing_idless_device
           "token" "drone-1" "drone-1-token"
           [("data", JArr [nameless_id])] [nameless_id] nameless_id (KeyError "id")).
  - vm_compute. reflexivity.
  - reflexivity.
  - exact (proj1 nameless_id_listed).
  - exact (proj2 nameless_id_listed).
  - reflexivity.
Defined.

Lemma drone_listed : selects "drone-1" [drone] drone /\ named "drone-1" drone.
Proof.
  split.
  - apply (selects_first "drone-1" [] drone []); [constructor |].
    eexists. split; reflexivity.
  - eexists. split; reflexivity.
Qed.

Lemma credentials_fetched_for_the_listed_entity_witness :
  (exists f_resp rest,
      log (snd (run (ensure_device "token" "drone-1" "drone-1-token") listing_blank_ids))
      = (request_of (DevicesSearch "drone-1") GET None (Some "token"),
         Success (Some (JObj [("data", JArr [blank_id_device])])))
          :: (request_of (DeviceCredentialsOf (JStr "dev 1")) GET None (Some "token"),
              f_resp) :: rest
      /\ (forall e,
            decoded (DeviceCredentialsOf (JStr "dev 1")) f_resp = Raise e ->
            rest = []
            /\ fst (run (ensure_device "token" "drone-1" "drone-1-token")
                      listing_blank_ids) = Raise e))
  /\ (forall device,
         fst (run (ensure_device "token" "drone-1" "drone-1-token") listing_blank_ids)
         = Ok device ->
         device = blank_id_device).
Proof.
  apply (credentials_fetched_for_the_listed_entity listing_blank_ids
           "token" "drone-1" "drone-1-token"
           [("data", JArr [blank_id_device])] [blank_id_device] blank_id_device
           (JStr "dev 1")).
  - vm_compute. reflexivity.
  - reflexivity.
  - apply (selects_first "drone-1" [] blank_id_device []); [constructor |].
    eexists. split; reflexivity.
  - eexists. split; reflexivity.
  - reflexivity.
Defined.

(** The run behind it: the library refuses the path built from the id
    ["dev 1"], and the run ends with the library's exception after two
    calls. *)
Lemma blank_entity_id_is_refused :
  fst (run (ensure_device "token" "drone-1" "drone-1-token") listing_blank_ids)
  = Raise (LibraryError "InvalidURL")
  /\ log (snd (run (ensure_device "token" "drone-1" "drone-1-token") listing_blank_ids))
     = [(request_of (DevicesSearch "drone-1") GET None (Some "token"),
         Success (Some (JObj [("data", JArr [blank_id_device])])));
        (request_of (DeviceCredentialsOf (JStr "dev 1")) GET None (Some "token"),
         Crashed "InvalidURL")].
Proof. split; vm_compute; reflexivity. Qed.

Lemma missing_root_chain_is_fatal_witness :
  fst (reconcile_graph unprovisioned)
    = Raise (RequestError (Text "Root Rule Chain not found"))
  /\ exists resp,
       log (snd (reconcile_graph unprovisioned))
       = [(request_of (RuleChainsSearch "Root Rule Chain") GET None (Some "token"), resp)].
Proof.
  apply (missing_root_chain_is_fatal "kafka:9092" "tb-telemetry" unprovisioned "token" JNull).
  - vm_compute. reflexivity.
  - reflexivity.
Defined.

Lemma metadata_of_the_found_chain_witness :
  (exists resp f_resp rest,
      log (snd (run (ensure_kafka_sink_in_root_chain "kafka:9092" "tb-telemetry" "token")
                  listing_blank_ids))
      = (request_of (RuleChainsSearch "Root Rule Chain") GET None (Some "token"), resp)
          :: (request_of (RuleChainMetadataOf (JStr "chain 1")) GET None (Some "token"),
              f_resp) :: rest
      /\ Forall (fun x => req_method (fst x) = POST
                          /\ (req_path (fst x) = RuleChainMetadataOf (JStr "chain 1")
                              \/ req_path (fst x) = RuleChainMetadata)) rest
      /\ (forall e,
            decoded (RuleChainMetadataOf (JStr "chain 1")) f_resp = Raise e ->
            rest = []
            /\ fst (run (ensure_kafka_sink_in_root_chain "kafka:9092" "tb-telemetry"
                           "token") listing_blank_ids) = Raise e))
  /\ (forall c,
         fst (run (ensure_kafka_sink_in_root_chain "kafka:9092" "tb-telemetry" "token")
                listing_blank_ids) = Ok c ->
         c = blank_id_chain).
Proof.
  apply (metadata_of_the_found_chain "kafka:9092" "tb-telemetry" listing_blank_ids
           "token" blank_id_chain (JStr "chain 1")).
  - vm_compute. reflexivity.
  - reflexivity.
  - reflexivity.
Defined.

(** The run behind it: the library refuses the path built from the id
    ["chain 1"]; the run ends with the library's exception and no write. *)
Lemma blank_chain_id_is_refused :
  fst (run (ensure_kafka_sink_in_root_chain "kafka:9092" "tb-telemetry" "token")
         listing_blank_ids)
  = Raise (LibraryError "InvalidURL")
  /\ map snd (log (snd (run (ensure_kafka_sink_in_root_chain "kafka:9092" "tb-telemetry"
                              "token") listing_blank_ids)))
     = [Success (Some (page_of [blank_id_chain])); Crashed "InvalidURL"].
Proof. split; vm_compute; reflexivity. Qed.

Lemma malformed_node_aborts_before_write_witness :
  fst (reconcile_graph (holding torn_graph)) = Raise AttributeError
  /\ metadata_writes (log (snd (reconcile_graph (holding torn_graph)))) = [].
Proof.
  apply (malformed_node_aborts_before_write "kafka:9092" "tb-telemetry"
           (holding torn_graph) "token" torn_graph [save_node] [switch_node] JNull).
  - vm_compute. reflexivity.
  - reflexivity.
  - all_nodes.
  - constructor; [not_sink | constructor].
  - intros fields. discriminate.
Defined.

Lemma appended_sink_is_configured_witness :
  exists chain_id doc resp rest node conns',
    metadata_writes (log (snd (reconcile_graph (holding plain_graph))))
    = (own_write "token" chain_id doc, resp) :: rest
    /\ nodes_of doc = Ok (JArr ([switch_node; save_node] ++ [node]))
    /\ sink_node node
    /\ (cfg <- Py.getitem node "configuration" ;; Py.getitem cfg "topic")%result
       = Ok (JStr "tb-telemetry")
    /\ (cfg <- Py.getitem node "configuration" ;; Py.getitem cfg "bootstrapServers")%result
       = Ok (JStr "kafka:9092")
    /\ (ref <- Py.getitem node "ruleChainId" ;; Py.getitem ref "id")%result
       = Ok chain_id
    /\ connections_of doc = Ok (JArr conns')
    /\ Exists (connects 0 (Z.of_nat (length [switch_node; save_node]))) conns'.
Proof.
  apply (appended_sink_is_configured "kafka:9092" "tb-telemetry" (holding plain_graph)
           "token" plain_graph [switch_node; save_node] [edge 0 1 "Post telemetry"] 0).
  - vm_compute. reflexivity.
  - reflexivity.
  - reflexivity.
  - all_nodes.
  - all_objects.
  - exact switch_first_in_plain_graph.
  - constructor; [not_sink | constructor; [not_sink | constructor]].
Defined.

Lemma markers_match_actions_witness :
  exists node_added edge_added written,
    stdout (snd (reconcile_graph (holding plain_graph)))
    = progress_markers node_added edge_added written
    /\ (node_added = true
        <-> Forall (fun n => ~ sink_node n) [switch_node; save_node])
    /\ (edge_added = true
        <-> Forall (fun e => ~ connects 0 2 e) [edge 0 1 "Post telemetry"])
    /\ (written = true
        <-> exists c, fst (reconcile_graph (holding plain_graph)) = Ok c).
Proof.
  apply (markers_match_actions "kafka:9092" "tb-telemetry" (holding plain_graph)
           "token" plain_graph [switch_node; save_node] [edge 0 1 "Post telemetry"] 0 2).
  - vm_compute. reflexivity.
  - reflexivity.
  - reflexivity.
  - all_nodes.
  - all_objects.
  - exact switch_first_in_plain_graph.
  - right. split; [| reflexivity].
    constructor; [not_sink | constructor; [not_sink | constructor]].
Defined.

End MoreRuns.

(** ** The entity that was just created *)
Section CreatedEntity.

Context {R : Type} `{Environment R}.
Variables KAFKA_BOOTSTRAP KAFKA_TOPIC : string.

Local Abbreviation ensure_sink :=
  (ensure_kafka_sink_in_root_chain KAFKA_BOOTSTRAP KAFKA_TOPIC).
Local Abbreviation search_request token name :=
  (request_of (DevicesSearch name) GET None (Some token)).
Local Abbreviation create_request token name :=
  (request_of Device POST
     (Some (JObj [("name", JStr name); ("type", JStr "drone")])) (Some token)).
Local Abbreviation fetch_request token dev_id :=
  (request_of (DeviceCredentialsOf dev_id) GET None (Some token)).
Local Abbreviation id_of device :=
  (ref <- Py.getitem device "id" ;; Py.getitem ref "id")%result.

(** When the search lists no exact match, the run goes on with what the
    create request answered: a failed create propagates and ends the
    run; an answer whose id cannot be read (an empty body gives [None],
    which has no subscript) raises right after the create; otherwise the
    next call of [urlopen] is the credential fetch built from the id
    just created, whatever that id is, and a successful run returns the
    created entity.  When that fetch fails, the run ends there with the
    failure: a [RequestError] for an HTTP or transport error, the
    library's own exception when it refuses the path before anything is
    on the wire ([InvalidURL] for an id that holds a blank). *)
Theorem created_entity_is_used (r : R) (token name secret : string)
    (fields : list (string * json)) (entries : list json) :
  fst (urlopen (search_request token name) r) = Success (Some (JObj fields)) ->
  Py.lookup_key "data" fields = Some (JArr entries) ->
  selects name entries JNull ->
  exists c_resp rest,
    log (snd (run (ensure_device token name secret) r))
    = (search_request token name, Success (Some (JObj fields)))
        :: (create_request token name, c_resp) :: rest
    /\ match decoded Device c_resp with
       | Raise e =>
           rest = [] /\ fst (run (ensure_device token name secret) r) = Raise e
       | Ok created =>
           match id_of created with
           | Raise e =>
               rest = [] /\ fst (run (ensure_device token name secret) r) = Raise e
           | Ok dev_id =>
               (exists f_resp rest',
                   rest = (fetch_request token dev_id, f_resp) :: rest'
                   /\ (forall e,
                         decoded (DeviceCredentialsOf dev_id) f_resp = Raise e ->
                         rest' = []
                         /\ fst (run (ensure_device token name secret) r) = Raise e))
               /\ (forall device,
                      fst (run (ensure_device token name secret) r) = Ok device ->
                      device = created)
           end
       end.
Proof.
  intros Hresp Hdata Hsel.
  destruct (find_device_listed r token name fields entries JNull Hresp Hdata Hsel)
    as (w1 & Hlog1 & Hfind).
  destruct (run (ensure_device token name secret) r) as [res w'] eqn:Hrun.
  cbn [fst snd].
  unfold run, ensure_device in Hrun.
  rewrite (bind_after _ _ _ _ _ Hfind) in Hrun. cbn [Py.truthy] in Hrun.
  unfold bind at 1 in Hrun. unfold bind at 1 in Hrun.
  unfold _http_request at 1 in Hrun.
  destruct (urlopen (create_request token name) (env w1)) as [c_resp r2].
  exists c_resp.
  destruct (decoded Device c_resp) as [created | e].
  2:{ inversion Hrun; subst. exists []. cbn [log]. rewrite Hlog1. auto. }
  unfold bind at 1 in Hrun. unfold print at 1 in Hrun. cbn [ret env log stdout] in Hrun.
  unfold bind at 1 in Hrun. unfold lift at 1 in Hrun.
  destruct (Py.getitem created "id") as [ref |] eqn:Href; cbn [rbind].
  2:{ inversion Hrun; subst. exists []. cbn [log]. rewrite Hlog1. auto. }
  unfold bind at 1 in Hrun. unfold lift at 1 in Hrun.
  destruct (Py.getitem ref "id") as [dev_id |] eqn:Hid.
  2:{ inversion Hrun; subst. exists []. cbn [log]. rewrite Hlog1. auto. }
  unfold bind at 1 in Hrun. unfold _http_request at 1 in Hrun. cbn [env log stdout] in Hrun.
  destruct (urlopen (fetch_request token dev_id) r2) as [f_resp r3].
  destruct (decoded (DeviceCredentialsOf dev_id) f_resp) as [credentials | e] eqn:Hdec.
  2:{ inversion Hrun; subst. exists [(fetch_request token dev_id, f_resp)].
      cbn [log]. rewrite Hlog1. split; [reflexivity |].
      split; [| intros device E; discriminate].
      exists f_resp, []. split; [reflexivity |].
      intros e' He. rewrite He in Hdec. inversion Hdec. auto. }
  unfold bind at 1 in Hrun. unfold lift at 1 in Hrun.
  destruct (cred_payload secret dev_id credentials) as [payload | e].
  2:{ inversion Hrun; subst. exists [(fetch_request token dev_id, f_resp)].
      cbn [log]. rewrite Hlog1. split; [reflexivity |].
      split; [| intros device E; discriminate].
      exists f_resp, []. split; [reflexivity |].
      intros e' He. rewrite He in Hdec. discriminate. }
  unfold bind at 1 in Hrun. unfold _http_request at 1 in Hrun.
  cbn [env log stdout] in Hrun.
  destruct (urlopen _ r3) as [u_resp r4].
  destruct (decoded DeviceCredentials u_resp) as [u | e].
  - cbn [ret] in Hrun. inversion Hrun; subst. eexists.
    cbn [log]. rewrite Hlog1. split; [reflexivity |].
    split; [| intros device E; inversion E; reflexivity].
    eexists _, _. split; [reflexivity |].
    intros e' He. rewrite He in Hdec. discriminate.
  - inversion Hrun; subst. eexists.
    cbn [log]. rewrite Hlog1. split; [reflexivity |].
    split; [| intros device E; discriminate].
    eexists _, _. split; [reflexivity |].
    intros e' He. rewrite He in Hdec. discriminate.
Qed.

Lemma at_most_quiet {A} (m : M R A) :
  (forall w res w', m w = (res, w') -> log w' = log w) -> sends_at_most 0 m.
Proof.
  intros Hm w res w' E. exists []. rewrite app_nil_r.
  split; [eapply Hm; eassumption | cbn; lia].
Qed.

Lemma at_most_http path meth payload token :
  sends_at_most 1 (_http_request path meth payload token).
Proof.
  intros w res w' E. apply http_inv in E as (resp & _ & _ & Hlog & _).
  eexists. split; [exact Hlog | cbn; lia].
Qed.

Lemma at_most_le {A} n n' (m : M R A) :
  (n <= n')%nat -> sends_at_most n m -> sends_at_most n' m.
Proof.
  intros Hle Hm w res w' E. destruct (Hm _ _ _ E) as (new & Hlog & Hlen).
  exists new. split; [assumption | lia].
Qed.

Lemma at_most_bind {A B} n k (m : M R A) (f : A -> M R B) :
  sends_at_most n m -> (forall a, sends_at_most k (f a)) ->
  sends_at_most (n + k) (bind m f).
Proof.
  intros Hm Hf w res w' E.
  apply bind_inv in E as [(a & w1 & E1 & E2) | (e & E1 & _)].
  - destruct (Hm _ _ _ E1) as (new1 & Hlog1 & Hlen1).
    destruct (Hf a _ _ _ E2) as (new2 & Hlog2 & Hlen2).
    exists (new1 ++ new2). rewrite Hlog2, Hlog1, app_assoc, length_app.
    split; [reflexivity | lia].
  - destruct (Hm _ _ _ E1) as (new1 & Hlog1 & Hlen1).
    exists new1. split; [assumption | lia].
Qed.

Lemma at_most_try {A} n k (m handler : M R A) :
  sends_at_most n m -> sends_at_most k handler ->
  sends_at_most (n + k) (try_except_RequestError m handler).
Proof.
  intros Hm Hh w res w'. unfold try_except_RequestError.
  destruct (m w) as [[a | e] w1] eqn:E1.
  - intros E. inversion E; subst. destruct (Hm _ _ _ E1) as (new & Hlog & Hlen).
    exists new. split; [assumption | lia].
  - destruct (Hm _ _ _ E1) as (new1 & Hlog1 & Hlen1).
    destruct e;
      try (intros E; inversion E; subst; exists new1; split; [assumption | lia]).
    intros E2. destruct (Hh _ _ _ E2) as (new2 & Hlog2 & Hlen2).
    exists (new1 ++ new2). rewrite Hlog2, Hlog1, app_assoc, length_app.
    split; [reflexivity | lia].
Qed.

Lemma at_most_lift {A} (r0 : result A) : sends_at_most (R := R) 0 (lift r0).
Proof. apply at_most_quiet. intros w res w' E. apply lift_inv in E as (_ & ->). reflexivity. Qed.

Lemma at_most_ret {A} (a : A) : sends_at_most (R := R) 0 (ret a).
Proof. apply at_most_quiet. intros w res w' E. apply ret_inv in E as (_ & ->). reflexivity. Qed.

Lemma at_most_raise {A} e : sends_at_most (R := R) (A := A) 0 (raise e).
Proof. apply at_most_quiet. intros w res w' E. apply raise_inv in E as (_ & ->). reflexivity. Qed.

Lemma at_most_print line : sends_at_most (R := R) 0 (print line).
Proof. apply at_most_quiet. intros w res w' E. apply print_inv in E as (_ & -> & _). reflexivity. Qed.

Lemma at_most_find_device token name : sends_at_most (R := R) 1 (find_device token name).
Proof.
  unfold find_device. apply (at_most_bind 1 0); [apply at_most_http |].
  intros a. apply at_most_lift.
Qed.

Lemma at_most_find_rule_chain token name :
  sends_at_most (R := R) 1 (find_rule_chain token name).
Proof.
  unfold find_rule_chain. apply (at_most_bind 1 0); [apply at_most_http |].
  intros a. apply at_most_lift.
Qed.

Lemma at_most_ensure_device token name secret :
  sends_at_most (R := R) 4 (ensure_device token name secret).
Proof.
  unfold ensure_device.
  apply (at_most_bind 1 3); [apply at_most_find_device | intros found].
  apply (at_most_bind 1 2).
  { destruct (Py.truthy found).
    - apply (at_most_le 0); [lia | apply at_most_ret].
    - apply (at_most_bind 1 0); [apply at_most_http | intros created].
      apply (at_most_bind 0 0); [apply at_most_print | intros ?; apply at_most_ret]. }
  intros device.
  apply (at_most_bind 0 2); [apply at_most_lift | intros ref].
  apply (at_most_bind 0 2); [apply at_most_lift | intros dev_id].
  apply (at_most_bind 1 1); [apply at_most_http | intros credentials].
  apply (at_most_bind 0 1); [apply at_most_lift | intros payload].
  apply (at_most_bind 1 0); [apply at_most_http | intros ?; apply at_most_ret].
Qed.

Lemma at_most_install token root_chain chain_id metadata :
  sends_at_most (R := R) 2
    (install_kafka_sink KAFKA_BOOTSTRAP KAFKA_TOPIC token root_chain chain_id metadata).
Proof.
  intros w res w' Hrun.
  apply install_inv in Hrun
    as [(Hlog & _) | (fields & nodes & conns & d & ki & linked & w1 & uuid & created
                      & _ & _ & _ & _ & _ & _ & Hlog & Hfinish)].
  - exists []. rewrite app_nil_r. split; [assumption | cbn; lia].
  - apply finish_inv in Hfinish as (new & failure & Hnew & Hout & _).
    exists new. rewrite <- Hlog. split; [assumption |].
    destruct Hout; cbn; lia.
Qed.

Lemma at_most_ensure_sink token : sends_at_most (R := R) 4 (ensure_sink token).
Proof.
  unfold ensure_kafka_sink_in_root_chain.
  apply (at_most_bind 1 3); [apply at_most_find_rule_chain | intros root_chain].
  destruct (Py.truthy root_chain).
  - apply (at_most_bind 0 3); [apply at_most_lift | intros ref].
    apply (at_most_bind 0 3); [apply at_most_lift | intros chain_id].
    apply (at_most_bind 1 2); [apply at_most_http | intros fetched].
    apply at_most_install.
  - apply (at_most_le 0); [lia | apply at_most_raise].
Qed.

(** Neither reconciler loops or retries beyond the legacy path: a run of
    [ensure_device] sends at most four requests (search, create,
    credential fetch, upsert) and a run of
    [ensure_kafka_sink_in_root_chain] at most four (search, metadata
    fetch and at most two writes). *)
Theorem at_most_four_requests (r : R) (token name secret : string) :
  (length (log (snd (run (ensure_device token name secret) r))) <= 4)%nat
  /\ (length (log (snd (run (ensure_sink token) r))) <= 4)%nat.
Proof.
  split.
  - destruct (run (ensure_device token name secret) r) as [res w'] eqn:Hrun.
    destruct (at_most_ensure_device token name secret _ _ _ Hrun) as (new & Hlog & Hlen).
    cbn [log app] in Hlog. cbn [snd]. rewrite Hlog. exact Hlen.
  - destruct (run (ensure_sink token) r) as [res w'] eqn:Hrun.
    destruct (at_most_ensure_sink token _ _ _ Hrun) as (new & Hlog & Hlen).
    cbn [log app] in Hlog. cbn [snd]. rewrite Hlog. exact Hlen.
Qed.

End CreatedEntity.

(** ** A run that creates the entity *)
Section CreatingRun.

Import Double Cases Guarded.

Lemma created_entity_is_used_witness :
  exists c_resp rest,
    log (snd (reconcile_entity (holding plain_graph)))
    = (request_of (DevicesSearch "drone-1") GET None (Some "token"),
       Success (Some (JObj [("data", JArr [])])))
        :: (request_of Device POST
              (Some (JObj [("name", JStr "drone-1"); ("type", JStr "drone")]))
              (Some "token"), c_resp) :: rest
    /\ decoded Device c_resp = Ok drone
    /\ (exists f_resp rest',
          rest = (request_of (DeviceCredentialsOf (JStr "dev-drone-1")) GET None
                    (Some "token"), f_resp) :: rest')
    /\ fst (reconcile_entity (holding plain_graph)) = Ok drone.
Proof.
  destruct (created_entity_is_used (holding plain_graph)
              "token" "drone-1" "drone-1-token" [("data", JArr [])] [])
    as (c_resp & rest & Hlog & Hnext).
  - vm_compute. reflexivity.
  - reflexivity.
  - apply selects_none. constructor.
  - exists c_resp, rest. split; [exact Hlog |].
    assert (Hc : c_resp = Success (Some drone)).
    { vm_compute in Hlog. inversion Hlog. reflexivity. }
    rewrite Hc in Hnext |- *. cbn in Hnext.
    destruct Hnext as ((f_resp & rest' & Hrest & _) & _).
    split; [reflexivity |]. split; [eauto |].
    vm_compute. reflexivity.
Defined.

(** A created entity whose id holds a blank: the platform names the
    entity it creates for ["drone 1"] ["dev-drone 1"], the library
    refuses the path built from that id, and the run ends with the
    library's exception after the create. *)
Lemma created_blank_id_is_refused :
  fst (run (ensure_device "token" "drone 1" "drone-1-token") bare)
  = Raise (LibraryError "InvalidURL")
  /\ map (fun x => (req_path (fst x), snd x))
       (log (snd (run (ensure_device "token" "drone 1" "drone-1-token") bare)))
     = [(DevicesSearch "drone 1", Success (Some (page_of [])));
        (Device,
         Success (Some (JObj [("id", JObj [("entityType", JStr "DEVICE");
                                           ("id", JStr "dev-drone 1")]);
                              ("name", JStr "drone 1"); ("type", JStr "drone")])));
        (DeviceCredentialsOf (JStr "dev-drone 1"), Crashed "InvalidURL")].
Proof. split; vm_compute; reflexivity. Qed.

End CreatingRun.

(** ** The write on a platform without the own path *)
Section FallbackRun.

Import Double Cases.

Lemma write_falls_back_to_legacy_path_witness :
  exists chain_id doc s_resp body resp later,
    log (snd (reconcile_graph legacy_only))
    = (request_of (RuleChainsSearch "Root Rule Chain") GET None (Some "token"), s_resp)
        :: (request_of (RuleChainMetadataOf chain_id) GET None (Some "token"),
            Success body)
        :: (own_write "token" chain_id doc, resp) :: later
    /\ (((exists v, decoded (RuleChainMetadataOf chain_id) resp = Ok v)
         /\ later = []
         /\ exists root_chain, fst (reconcile_graph legacy_only) = Ok root_chain)
        \/ (exists e,
              decoded (RuleChainMetadataOf chain_id) resp = Raise e
              /\ (forall m, e <> RequestError m)
              /\ later = []
              /\ fst (reconcile_graph legacy_only) = Raise e)
        \/ (exists m resp',
              decoded (RuleChainMetadataOf chain_id) resp = Raise (RequestError m)
              /\ later = [(legacy_write "token" doc, resp')]
              /\ ((exists v,
                     decoded RuleChainMetadata resp' = Ok v
                     /\ exists root_chain,
                          fst (reconcile_graph legacy_only) = Ok root_chain)
                  \/ (exists e,
                        decoded RuleChainMetadata resp' = Raise e
                        /\ fst (reconcile_graph legacy_only) = Raise e)))).
Proof.
  apply (write_falls_back_to_legacy_path "kafka:9092" "tb-telemetry"
           legacy_only "token" plain_graph
           [switch_node; save_node] [edge 0 1 "Post telemetry"] 0).
  - vm_compute. reflexivity.
  - reflexivity.
  - reflexivity.
  - all_nodes.
  - all_objects.
  - exact switch_first_in_plain_graph.
Defined.

(** The run behind it: the own path answers 404, the same document
    goes to the legacy path, the platform stores it and the run
    succeeds. *)
Lemma legacy_path_takes_the_write :
  exists doc,
    metadata_writes (log (snd (reconcile_graph legacy_only)))
    = [(own_write "token" (JStr "chain-1") doc, HTTPError 404 "Not Found");
       (legacy_write "token" doc, Success (Some doc))]
    /\ chain_metadata (env (snd (reconcile_graph legacy_only))) = doc
    /\ fst (reconcile_graph legacy_only) = Ok root_chain.
Proof.
  eexists. split; [vm_compute; reflexivity |].
  split; vm_compute; reflexivity.
Qed.

End FallbackRun.

(** ** Two runs of the entity reconciler against one platform *)
Section Idempotence.

Context {R : Type} `{Environment R}.

Lemma has_name_named name e : has_name name e = true <-> named name e.
Proof.
  unfold has_name, named. split.
  - destruct e as [| | | | | fields]; try discriminate.
    destruct (Py.lookup_key "name" fields) as [v |] eqn:Hname; [| discriminate].
    intros Heq. apply eq_str_true in Heq. subst v. eauto.
  - intros (fields & -> & ->). apply eq_str_true. reflexivity.
Qed.

Lemma first_named_step name item rest v :
  first_named name (item :: rest) = Ok v ->
  (has_name name item = true /\ v = item)
  \/ (has_name name item = false /\ first_named name rest = Ok v).
Proof.
  cbn [first_named]. unfold has_name.
  destruct item as [| | | | | fields]; cbn [Py.get rbind]; try discriminate.
  destruct (Py.lookup_key "name" fields) as [val |].
  - destruct (Py.eq_str val name).
    + intros E. inversion E. auto.
    + auto.
  - cbn [Py.eq_str]. auto.
Qed.

(** A lookup that came back empty-handed met no entry of that name. *)
Lemma first_named_falsy name items v :
  first_named name items = Ok v ->
  Py.truthy v = false ->
  Forall (fun e => has_name name e = false) items.
Proof.
  induction items as [| item rest IH]; intros Hfirst Hfalsy; [constructor |].
  apply first_named_step in Hfirst as [(Hname & ->) | (Hname & Hrest)].
  - apply has_name_named, named_truthy in Hname. congruence.
  - constructor; auto.
Qed.

(** On a page that keeps the order of the store and every entry of the
    name, the lookup returns the first kept entity of that name. *)
Lemma first_named_find name keep (kept : list json) v :
  (forall e, named name e -> keep e = true) ->
  first_named name (List.filter keep kept) = Ok v ->
  Py.truthy v = true ->
  List.find (has_name name) kept = Some v.
Proof.
  intros Hkeep. induction kept as [| item rest IH]; cbn [List.filter List.find].
  - cbn. intros E. inversion E; subst v. discriminate.
  - destruct (keep item) eqn:Hitem.
    + intros Hfirst Htruthy.
      apply first_named_step in Hfirst as [(Hname & ->) | (Hname & Hrest)];
        rewrite Hname; auto.
    + assert (Hname : has_name name item = false).
      { destruct (has_name name item) eqn:Hname; [| reflexivity].
        apply has_name_named, Hkeep in Hname. congruence. }
      rewrite Hname. exact IH.
Qed.

Lemma named_item_page name fields entries :
  Py.lookup_key "data" fields = Some (JArr entries) ->
  named_item name (JObj fields) = first_named name entries.
Proof.
  intros Hdata. unfold named_item, Py.or_else.
  destruct fields as [| kv fields]; [discriminate |].
  cbn [Py.truthy Py.get]. rewrite Hdata. reflexivity.
Qed.

Lemma find_none_app {A} (f : A -> bool) (l : list A) (x : A) :
  Forall (fun y => f y = false) l -> f x = true -> List.find f (l ++ [x]) = Some x.
Proof.
  induction 1 as [| y l Hy _ IH]; intros Hx; cbn [app List.find].
  - rewrite Hx. reflexivity.
  - rewrite Hy. auto.
Qed.

Lemma filter_none {A} (f keep : A -> bool) (l : list A) :
  (forall y, f y = true -> keep y = true) ->
  Forall (fun y => f y = false) (List.filter keep l) ->
  Forall (fun y => f y = false) l.
Proof.
  intros Hkeep. induction l as [| y l IH]; cbn [List.filter]; [constructor |].
  destruct (keep y) eqn:Hy.
  - intros Hall. inversion Hall; subst. constructor; auto.
  - intros Hall. constructor; [| auto].
    destruct (f y) eqn:Hf; [| reflexivity]. apply Hkeep in Hf. congruence.
Qed.

(** A run that succeeded, request by request. *)
Lemma ensure_device_ok (r : R) token name secret device w' :
  run (ensure_device token name secret) r = (Ok device, w') ->
  exists page found r_c made dev_id credentials payload v,
    decoded (DevicesSearch name) (answer_to (search_for token name) r) = Ok page
    /\ named_item name page = Ok found
    /\ ((Py.truthy found = true /\ device = found /\ made = []
         /\ r_c = state_after (search_for token name) r)
        \/ (Py.truthy found = false
            /\ decoded Device
                 (answer_to (create_for token name)
                    (state_after (search_for token name) r)) = Ok device
            /\ made = [(create_for token name,
                        answer_to (create_for token name)
                          (state_after (search_for token name) r))]
            /\ r_c = state_after (create_for token name)
                       (state_after (search_for token name) r)))
    /\ entity_id device = Ok dev_id
    /\ decoded (DeviceCredentialsOf dev_id) (answer_to (fetch_for token dev_id) r_c)
       = Ok credentials
    /\ cred_payload secret dev_id credentials = Ok payload
    /\ decoded DeviceCredentials
         (answer_to (upsert_for token payload)
            (state_after (fetch_for token dev_id) r_c)) = Ok v
    /\ env w' = state_after (upsert_for token payload)
                  (state_after (fetch_for token dev_id) r_c)
    /\ log w'
       = (search_for token name, answer_to (search_for token name) r)
           :: made
           ++ [(fetch_for token dev_id, answer_to (fetch_for token dev_id) r_c);
               (upsert_for token payload,
                answer_to (upsert_for token payload)
                  (state_after (fetch_for token dev_id) r_c))].
Proof.
  unfold run, ensure_device, answer_to, state_after,
    search_for, create_for, fetch_for, upsert_for.
  set (w := {| env := r; log := []; stdout := [] |}).
  intros Hrun.
  apply bind_inv in Hrun as [(found & w0 & Hfind & Hrun) | (e & _ & E)];
    [| discriminate].
  unfold find_device in Hfind.
  apply bind_inv in Hfind as [(page & w00 & Hreq & Hlift) | (e & _ & E)];
    [| discriminate].
  apply http_inv in Hreq as (s_resp & Hs & Hpage & Hlog0 & Henv0).
  apply lift_inv in Hlift as (Hfound & ->).
  cbn [env log w app] in Hs, Hlog0, Henv0. subst s_resp.
  apply bind_inv in Hrun as [(dev & w1 & Hdev & Hrun) | (e & _ & E)];
    [| discriminate].
  apply bind_inv in Hrun as [(ref & w2 & Href & Hrun) | (e & _ & E)];
    [| discriminate].
  apply lift_inv in Href as (Href & ->).
  apply bind_inv in Hrun as [(dev_id & w2 & Hid & Hrun) | (e & _ & E)];
    [| discriminate].
  apply lift_inv in Hid as (Hid & ->).
  apply bind_inv in Hrun as [(credentials & w2 & Hfetch & Hrun) | (e & _ & E)];
    [| discriminate].
  apply http_inv in Hfetch as (f_resp & Hf & Hcred & Hlog2 & Henv2). subst f_resp.
  apply bind_inv in Hrun as [(payload & w3 & Hpayload & Hrun) | (e & _ & E)];
    [| discriminate].
  apply lift_inv in Hpayload as (Hpayload & ->).
  apply bind_inv in Hrun as [(v & w3 & Hupsert & Hrun) | (e & _ & E)];
    [| discriminate].
  apply http_inv in Hupsert as (u_resp & Hu & Hv & Hlog3 & Henv3). subst u_resp.
  apply ret_inv in Hrun as (Hdevice & ->).
  inversion Hdevice; subst dev. clear Hdevice.
  rewrite Henv2 in Hv, Henv3, Hlog3.
  exists page, found, (env w1).
  assert (Hmade : exists made,
             log w1
             = (request_of (DevicesSearch name) GET None (Some token),
                fst (urlopen (request_of (DevicesSearch name) GET None (Some token)) r))
                 :: made
             /\ ((Py.truthy found = true /\ device = found /\ made = []
                  /\ env w1
                     = snd (urlopen (request_of (DevicesSearch name) GET None
                                       (Some token)) r))
                 \/ (Py.truthy found = false
                     /\ decoded Device
                          (fst (urlopen
                                  (request_of Device POST
                                     (Some (JObj [("name", JStr name);
                                                  ("type", JStr "drone")]))
                                     (Some token))
                                  (snd (urlopen (request_of (DevicesSearch name) GET
                                                   None (Some token)) r))))
                        = Ok device
                     /\ made
                        = [(request_of Device POST
                              (Some (JObj [("name", JStr name);
                                           ("type", JStr "drone")]))
                              (Some token),
                            fst (urlopen
                                   (request_of Device POST
                                      (Some (JObj [("name", JStr name);
                                                   ("type", JStr "drone")]))
                                      (Some token))
                                   (snd (urlopen (request_of (DevicesSearch name) GET
                                                    None (Some token)) r))))]
                     /\ env w1
                        = snd (urlopen
                                 (request_of Device POST
                                    (Some (JObj [("name", JStr name);
                                                 ("type", JStr "drone")]))
                                    (Some token))
                                 (snd (urlopen (request_of (DevicesSearch name) GET
                                                  None (Some token)) r)))))).
  { destruct (Py.truthy found) eqn:Htruthy.
    - apply ret_inv in Hdev as (E & ->). inversion E; subst device.
      exists []. split; [exact Hlog0 |]. left. auto.
    - apply bind_inv in Hdev as [(c & wc & Hcreate & Hdev) | (e & _ & E)];
        [| discriminate].
      apply http_inv in Hcreate as (c_resp & Hc & Hcreated & Hlog1 & Henv1).
      subst c_resp.
      apply bind_inv in Hdev as [(u & wp & Hprint & Hdev) | (e & _ & E)];
        [| discriminate].
      apply print_inv in Hprint as (_ & Hlog4 & Henv4).
      apply ret_inv in Hdev as (E & ->). inversion E; subst c.
      rewrite Henv0 in Hcreated, Henv1, Hlog1.
      eexists. split; [rewrite Hlog4, Hlog1, Hlog0; reflexivity |].
      right. split; [reflexivity |].
      split; [symmetry; exact Hcreated |].
      split; [reflexivity |]. rewrite Henv4. exact Henv1. }
  destruct Hmade as (made & Hlog1 & Hmade).
  exists made, dev_id, credentials, payload, v.
  split; [symmetry; exact Hpage |].
  split; [symmetry; exact Hfound |].
  split; [destruct Hmade as [(? & ? & ? & ?) | (? & ? & ? & ?)]; auto |].
  split; [unfold entity_id; rewrite <- Href; cbn [rbind]; symmetry; exact Hid |].
  split; [symmetry; exact Hcred |].
  split; [symmetry; exact Hpayload |].
  split; [symmetry; exact Hv |].
  split; [exact Henv3 |].
  rewrite Hlog3, Hlog2, Hlog1. rewrite <- app_assoc. reflexivity.
Qed.

Variable P : Platform R.
Hypothesis contract : faithful P.

Lemma creates_of_run token name made dev_id payload (s_resp f_resp u_resp : response) :
  made = []
  \/ (exists c_resp, made = [(create_for token name, c_resp)]) ->
  creates ((search_for token name, s_resp)
             :: made ++ [(fetch_for token dev_id, f_resp);
                         (upsert_for token payload, u_resp)]) = made
  /\ upserts ((search_for token name, s_resp)
                :: made ++ [(fetch_for token dev_id, f_resp);
                            (upsert_for token payload, u_resp)])
     = [(upsert_for token payload, u_resp)].
Proof. intros [-> | (c_resp & ->)]; split; reflexivity. Qed.

(** What a run that succeeded leaves on a faithful platform. *)
Lemma ensure_device_effect (r : R) token name secret device w' :
  consistent P r ->
  run (ensure_device token name secret) r = (Ok device, w') ->
  exists dev_id record cid u,
    consistent P (env w')
    /\ entity_id device = Ok dev_id
    /\ List.find (has_name name) (entities P (env w')) = Some device
    /\ ((creates (log w') = []
         /\ entities P (env w') = entities P r
         /\ List.find (has_name name) (entities P r) = Some device)
        \/ (length (creates (log w')) = 1%nat
            /\ entities P (env w') = entities P r ++ [device]
            /\ Forall (fun e => has_name name e = false) (entities P r)))
    /\ credential_for P (env w') dev_id = Some record
    /\ credential_id record = Some cid
    /\ token_of record = Some (JStr secret)
    /\ (forall d', d' <> dev_id ->
                   credential_for P (env w') d' = credential_for P r d')
    /\ (records_held P r <= records_held P (env w') <= S (records_held P r))%nat
    /\ upserts (log w') = [u]
    /\ payload_key "credentialsId" u = Some (JStr secret)
    /\ (creates (log w') = [] ->
        forall old,
          credential_for P r dev_id = Some old ->
          credential_id old = Some cid
          /\ payload_key "id" u = Some cid
          /\ records_held P (env w') = records_held P r).
Proof.
  intros Hr Hrun.
  destruct (ensure_device_ok r token name secret device w' Hrun)
    as (page & found & r_c & made & dev_id & credentials & payload & v
        & Hpage & Hfound & Hdevice & Hid & Hcred & Hpayload & Hv & Henv & Hlog).
  set (r_s := state_after (search_for token name) r) in *.
  destruct (search_reads P contract r token name Hr) as (Hs & Hse & Hsc & Hsn).
  fold r_s in Hs, Hse, Hsc, Hsn.
  destruct (search_lists P contract r token name page Hr Hpage)
    as (fields & keep & -> & Hdata & Hkeep).
  rewrite (named_item_page _ _ _ Hdata) in Hfound.
  (* the entity, found or created *)
  assert (Hc : consistent P r_c
               /\ List.find (has_name name) (entities P r_c) = Some device
               /\ ((made = []
                    /\ entities P r_c = entities P r
                    /\ List.find (has_name name) (entities P r) = Some device
                    /\ (forall d, credential_for P r_c d = credential_for P r d)
                    /\ records_held P r_c = records_held P r)
                   \/ ((exists c_resp, made = [(create_for token name, c_resp)])
                       /\ entities P r_c = entities P r ++ [device]
                       /\ Forall (fun e => has_name name e = false) (entities P r)))
               /\ (forall d', d' <> dev_id ->
                              credential_for P r_c d' = credential_for P r d')
               /\ (records_held P r_c = records_held P r
                   \/ (records_held P r_c = S (records_held P r)
                       /\ credential_for P r_c dev_id <> None))).
  { destruct Hdevice as [(Htruthy & -> & -> & ->) | (Hfalsy & Hcreated & -> & ->)].
    - pose proof (first_named_find name keep _ _ Hkeep Hfound Htruthy) as Hfind.
      split; [exact Hs |]. rewrite Hse.
      split; [exact Hfind |].
      split; [left; auto |].
      split; [intros d' _; apply Hsc | left; exact Hsn].
    - destruct (create_keeps P contract r_s token name device Hs Hcreated)
        as (Hcc & Hce & Hnamed & Hframe & Hcount).
      pose proof (first_named_falsy _ _ _ Hfound Hfalsy) as Hnone.
      apply (filter_none (has_name name) keep) in Hnone;
        [| intros y Hy; apply Hkeep, has_name_named, Hy].
      split; [exact Hcc |]. rewrite Hce, Hse.
      split; [apply find_none_app; [exact Hnone | apply has_name_named, Hnamed] |].
      split; [right; eauto |].
      split.
      + intros d' Hd'. rewrite Hframe; [apply Hsc |].
        rewrite Hid. intros E. inversion E. congruence.
      + rewrite Hsn in Hcount.
        destruct Hcount as [Hsame | (Hmore & Hnew)]; [left; exact Hsame |].
        right. split; [exact Hmore | apply Hnew, Hid]. }
  destruct Hc as (Hcc & Hfind & Hcase & Hframe & Hcount).
  (* the credential fetch *)
  set (r_f := state_after (fetch_for token dev_id) r_c) in *.
  destruct (fetch_reads P contract r_c token dev_id Hcc) as (Hf & Hfe & Hfc & Hfn).
  fold r_f in Hf, Hfe, Hfc, Hfn.
  pose proof (fetch_returns P contract r_c token dev_id credentials Hcc Hcred) as Hanswer.
  destruct (cred_payload_shape _ _ _ _ Hpayload)
    as (pfields & -> & _ & Hsecret & Hshape).
  assert (Hmade : made = [] \/ exists c_resp, made = [(create_for token name, c_resp)]).
  { destruct Hcase as [(-> & _) | (Hm & _)]; auto. }
  destruct (creates_of_run token name made dev_id (JObj pfields)
              (answer_to (search_for token name) r)
              (answer_to (fetch_for token dev_id) r_c)
              (answer_to (upsert_for token (JObj pfields)) r_f) Hmade)
    as (Hcreates & Hupserts).
  rewrite <- Hlog in Hcreates, Hupserts.
  assert (Hplace : (creates (log w') = []
                    /\ entities P r_c = entities P r
                    /\ List.find (has_name name) (entities P r) = Some device)
                   \/ (length (creates (log w')) = 1%nat
                       /\ entities P r_c = entities P r ++ [device]
                       /\ Forall (fun e => has_name name e = false) (entities P r))).
  { rewrite Hcreates.
    destruct Hcase as [(-> & He & Hfound' & _) | ((c_resp & ->) & He & Hnone)];
      [left | right]; auto. }
  destruct (credential_for P r_c dev_id) as [old |] eqn:Hold.
  - (* the entity has a record: it is replaced *)
    subst credentials.
    destruct (record_shape P contract r_c dev_id old Hcc Hold) as ((cid & Hcid) & Howner).
    rewrite Hcid in Hshape. destruct Hshape as (Hpid & Hpowner).
    assert (Hrefers : refers_to dev_id (JObj pfields)).
    { exists pfields, (owner_of old (own_reference dev_id)). auto. }
    rewrite <- Hfc in Hold.
    destruct (update_replaces P contract r_f token (JObj pfields) dev_id old cid v
                Hf Hold Hcid Hpid Hrefers Hv)
      as (Hu & Hue & Hun & Huframe & record' & Hrecord' & Hcid' & Htoken).
    rewrite <- Henv in Hu, Hue, Hun, Huframe, Hrecord'.
    exists dev_id, record', cid, (upsert_for token (JObj pfields),
                               answer_to (upsert_for token (JObj pfields)) r_f).
    split; [exact Hu |]. split; [exact Hid |].
    rewrite Hue, Hfe.
    split; [exact Hfind |]. split; [exact Hplace |].
    split; [exact Hrecord' |]. split; [exact Hcid' |].
    split; [rewrite Htoken; exact Hsecret |].
    split; [intros d' Hd'; rewrite Huframe by exact Hd'; rewrite Hfc; auto |].
    split; [rewrite Hun, Hfn; destruct Hcount as [-> | (-> & _)]; lia |].
    split; [exact Hupserts |]. split; [exact Hsecret |].
    intros Hnone old' Hold'.
    rewrite Hcreates in Hnone. rewrite Hnone in Hcase.
    destruct Hcase as [(_ & _ & _ & Hsame & Hn) | ((c_resp & E) & _)];
      [| discriminate E].
    rewrite Hfc, Hsame, Hold' in Hold. inversion Hold; subst old'.
    split; [exact Hcid |]. split; [exact Hpid |].
    rewrite Hun, Hfn. exact Hn.
  - (* the entity has no record: one is made *)
    subst credentials. cbn [credential_id] in Hshape.
    destruct Hshape as (Hpid & Hpowner).
    assert (Hrefers : refers_to dev_id (JObj pfields)).
    { exists pfields, (own_reference dev_id). auto. }
    rewrite <- Hfc in Hold.
    destruct (insert_adds P contract r_f token (JObj pfields) dev_id v
                Hf Hold Hpid Hrefers Hv)
      as (Hu & Hue & Hun & Huframe & record' & Hrecord' & Htoken).
    rewrite <- Henv in Hu, Hue, Hun, Huframe, Hrecord'.
    destruct (record_shape P contract (env w') dev_id record' Hu Hrecord')
      as ((cid & Hcid') & _).
    exists dev_id, record', cid, (upsert_for token (JObj pfields),
                               answer_to (upsert_for token (JObj pfields)) r_f).
    split; [exact Hu |]. split; [exact Hid |].
    rewrite Hue, Hfe.
    split; [exact Hfind |]. split; [exact Hplace |].
    split; [exact Hrecord' |]. split; [exact Hcid' |].
    split; [rewrite Htoken; exact Hsecret |].
    split; [intros d' Hd'; rewrite Huframe by exact Hd'; rewrite Hfc; auto |].
    split.
    { rewrite Hun, Hfn. rewrite Hfc in Hold.
      destruct Hcount as [-> | (_ & Hsome)]; [lia | contradiction]. }
    split; [exact Hupserts |]. split; [exact Hsecret |].
    intros Hnone old' Hold'.
    rewrite Hcreates in Hnone. rewrite Hnone in Hcase.
    destruct Hcase as [(_ & _ & _ & Hsame & Hn) | ((c_resp & E) & _)];
      [| discriminate E].
    rewrite Hfc, Hsame, Hold' in Hold. discriminate.
Qed.

Ltac creates_nothing :=
  repeat first
    [ apply sends_only_bind; [| intros ?]
    | apply sends_only_ret | apply sends_only_raise | apply sends_only_lift
    | apply sends_only_print
    | apply sends_only_http; intros ?; reflexivity ].

(** A kept entity of that name is never created again, however the run
    ends. *)
Lemma no_create_when_kept (r : R) token name secret e :
  consistent P r ->
  List.find (has_name name) (entities P r) = Some e ->
  creates (log (snd (run (ensure_device token name secret) r))) = [].
Proof.
  intros Hr Hkept.
  destruct (run (ensure_device token name secret) r) as [res w'] eqn:Hrun.
  cbn [snd]. unfold run, ensure_device in Hrun.
  assert (Hquiet : sends_only (fun x => is_create x = false) (find_device token name)).
  { unfold find_device. creates_nothing. }
  destruct (find_device token name {| env := r; log := []; stdout := [] |})
    as [[found | e'] w1] eqn:Hfind.
  2:{ rewrite (bind_raised _ _ _ _ _ Hfind) in Hrun. inversion Hrun; subst.
      destruct (Hquiet _ _ _ Hfind) as (new & Hlog & Hnew).
      rewrite Hlog. apply no_create_filter. exact Hnew. }
  rewrite (bind_after _ _ _ _ _ Hfind) in Hrun.
  assert (Htruthy : Py.truthy found = true).
  { unfold find_device in Hfind.
    apply bind_inv in Hfind as [(page & w0 & Hreq & Hlift) | (e' & _ & E)];
      [| discriminate].
    apply http_inv in Hreq as (resp & Hresp & Hpage & _ & _).
    apply lift_inv in Hlift as (Hfound & _).
    cbn [env] in Hresp. subst resp. symmetry in Hpage, Hfound.
    destruct (search_lists P contract r token name page Hr Hpage)
      as (fields & keep & -> & Hdata & Hkeep).
    rewrite (named_item_page _ _ _ Hdata) in Hfound.
    destruct (Py.truthy found) eqn:Ht; [reflexivity |].
    pose proof (first_named_falsy _ _ _ Hfound Ht) as Hnone.
    apply (filter_none (has_name name) keep) in Hnone;
      [| intros y Hy; apply Hkeep, has_name_named, Hy].
    apply find_some in Hkept as (Hin & Hname).
    rewrite List.Forall_forall in Hnone. rewrite (Hnone _ Hin) in Hname. discriminate. }
  rewrite Htruthy in Hrun.
  match type of Hrun with
  | ?m w1 = _ =>
      assert (Hsends : sends_only (fun x => is_create x = false) m)
        by creates_nothing
  end.
  destruct (Hquiet _ _ _ Hfind) as (new1 & Hlog1 & Hnew1).
  destruct (Hsends _ _ _ Hrun) as (new & Hlog & Hnew).
  rewrite Hlog, Hlog1. apply no_create_filter.
  apply Forall_app. split; [exact Hnew1 | exact Hnew].
Qed.


End Idempotence.

(** ** The in-memory platform honours the contract *)
Section KeptStore.

Import Double Kept.

Lemma substring_of_itself s : Py.substring_of s s = true.
Proof.
  apply substring_of_occurs. exists "", "". change (s = s +:+ "").
  induction s as [| c s IH]; [reflexivity |].
  change (String c s = String c (s +:+ "")). f_equal. exact IH.
Qed.

Lemma named_contains name e : named name e -> name_contains name e = true.
Proof.
  intros (fields & -> & Hname). unfold name_contains. cbn [Py.get].
  rewrite Hname. apply substring_of_itself.
Qed.

Lemma record_tests record :
  well_formed_record record ->
  exists s,
    (forall s', owner_is s' record = String.eqb s s')
    /\ (forall s', has_id ("cred-" +:+ s') record = String.eqb s s')
    /\ credential_id record = Some (JStr ("cred-" +:+ s))
    /\ (forall d, Py.getitem (owner_of record (own_reference d)) "id" = Ok (JStr s)).
Proof.
  intros (fields & ref_fields & s & -> & Hid & Howner & Hs).
  exists s. unfold owner_is, has_id, credential_id, owner_of.
  cbn [Py.get Py.getitem]. rewrite Hid, Howner. cbn [Py.get Py.getitem].
  rewrite Hs. cbn [Py.eq_str].
  split; [reflexivity |]. split; [reflexivity |]. split; reflexivity.
Qed.

Lemma find_app_none {A} (f : A -> bool) (l : list A) (x : A) :
  List.find f l = None -> List.find f (l ++ [x]) = List.find f [x].
Proof.
  induction l as [| y l IH]; [reflexivity |]. cbn [app List.find].
  destruct (f y); [discriminate | exact IH].
Qed.

Lemma find_app_other {A} (f : A -> bool) (l : list A) (x : A) :
  f x = false -> List.find f (l ++ [x]) = List.find f l.
Proof.
  intros Hx. induction l as [| y l IH]; cbn [app List.find].
  - rewrite Hx. reflexivity.
  - destruct (f y); [reflexivity | exact IH].
Qed.

(** Replacing the records of one owner. *)
Lemma find_replaced s payload (records : list json) record :
  Forall well_formed_record records ->
  owner_is s payload = true ->
  List.find (owner_is s) records = Some record ->
  List.find (owner_is s)
    (map (fun r => if has_id ("cred-" +:+ s) r then payload else r) records)
  = Some payload.
Proof.
  intros Hrecords Hpayload.
  induction Hrecords as [| r records Hr _ IH]; [discriminate |].
  destruct (record_tests r Hr) as (s0 & Hown & Hhas & _).
  cbn [List.find map]. rewrite Hhas, Hown.
  destruct (String.eqb s0 s) eqn:Hs.
  - intros _. rewrite Hpayload. reflexivity.
  - rewrite Hown, Hs. exact IH.
Qed.

Lemma find_beside s s' payload (records : list json) :
  Forall well_formed_record records ->
  s' <> s ->
  owner_is s' payload = false ->
  List.find (owner_is s')
    (map (fun r => if has_id ("cred-" +:+ s) r then payload else r) records)
  = List.find (owner_is s') records.
Proof.
  intros Hrecords Hne Hpayload.
  induction Hrecords as [| r records Hr _ IH]; [reflexivity |].
  destruct (record_tests r Hr) as (s0 & Hown & Hhas & _).
  cbn [List.find map]. rewrite Hhas, Hown.
  destruct (String.eqb s0 s) eqn:Hs.
  - apply String.eqb_eq in Hs. subst s0.
    rewrite Hpayload.
    destruct (String.eqb s s') eqn:Hs'; [| exact IH].
    apply String.eqb_eq in Hs'. congruence.
  - rewrite Hown. destruct (String.eqb s0 s'); [reflexivity | exact IH].
Qed.

Lemma referring_payload s payload :
  refers_to (JStr s) payload ->
  exists fields ref_fields,
    payload = JObj fields
    /\ Py.lookup_key "deviceId" fields = Some (JObj ref_fields)
    /\ Py.lookup_key "id" ref_fields = Some (JStr s)
    /\ forall s', owner_is s' payload = String.eqb s s'.
Proof.
  intros (fields & ref & -> & Howner & Hid).
  destruct ref as [| | | | | ref_fields]; try discriminate.
  cbn [Py.getitem] in Hid.
  destruct (Py.lookup_key "id" ref_fields) as [v |] eqn:Hv; [| discriminate].
  inversion Hid; subst v.
  exists fields, ref_fields. split; [reflexivity |].
  split; [exact Howner |]. split; [exact Hv |].
  intros s'. unfold owner_is. cbn [Py.get]. rewrite Howner. cbn [Py.get].
  rewrite Hv. reflexivity.
Qed.

Lemma store_is_faithful : faithful store.
Proof.
  constructor.
  - (* search_reads *)
    intros p token name Hp. split; [exact Hp |].
    split; [reflexivity | split; reflexivity].
  - (* search_lists *)
    intros p token name page Hp Hpage.
    cbn in Hpage. inversion Hpage; subst page.
    eexists _, (name_contains name). split; [reflexivity |].
    split; [reflexivity | apply named_contains].
  - (* create_keeps *)
    intros p token name created Hp Hcreated.
    cbn in Hcreated. inversion Hcreated; subst created.
    split; [exact Hp |]. split; [reflexivity |].
    split; [eexists; split; reflexivity |].
    split; [reflexivity | left; reflexivity].
  - (* fetch_reads *)
    intros p token d Hp.
    unfold state_after, fetch_for, request_of. cbn.
    destruct d; (split; [exact Hp | split; [reflexivity | split; reflexivity]]).
  - (* fetch_returns *)
    intros p token d answer Hp.
    unfold answer_to, fetch_for, request_of. cbn.
    destruct d as [| | | s | |]; cbn; try discriminate.
    destruct (List.find (owner_is s) (credentials p)); cbn;
      intros E; inversion E; reflexivity.
  - (* record_shape *)
    intros p d record Hp Hrecord.
    destruct d as [| | | s | |]; try discriminate.
    cbn in Hrecord. apply find_some in Hrecord as (Hin & Hown).
    cbn in Hp. rewrite List.Forall_forall in Hp.
    destruct (record_tests record (Hp _ Hin)) as (s0 & Hown0 & _ & Hcid & Howner).
    rewrite Hown0 in Hown. apply String.eqb_eq in Hown. subst s0.
    split; [eauto | apply Howner].
  - (* update_replaces *)
    intros p token payload d record cid v Hp Hrecord Hcid Hpid Hrefers.
    destruct d as [| | | s | |]; try discriminate.
    cbn in Hrecord, Hp.
    pose proof Hrecord as Hfound.
    apply find_some in Hfound as (Hin & Hown).
    pose proof Hp as Hall. rewrite List.Forall_forall in Hall.
    destruct (record_tests record (Hall _ Hin)) as (s0 & Hown0 & Hhas0 & Hcid0 & _).
    rewrite Hown0 in Hown. apply String.eqb_eq in Hown. subst s0.
    rewrite Hcid in Hcid0. inversion Hcid0; subst cid.
    destruct (referring_payload s payload Hrefers)
      as (fields & ref_fields & -> & Hdev & Hs & Hpown).
    cbn [payload_id] in Hpid.
    assert (Hexists : existsb (has_id ("cred-" +:+ s)) (credentials p) = true).
    { apply existsb_exists. exists record. split; [exact Hin |].
      rewrite Hhas0. apply String.eqb_refl. }
    unfold answer_to, state_after, upsert_for, request_of. cbn.
    unfold upsert_credentials. cbn [Py.get]. rewrite Hpid, Hexists. cbn.
    intros _.
    split.
    { apply Forall_map. eapply List.Forall_impl; [| exact Hp].
      intros r Hr. cbn. destruct (has_id _ r); [| exact Hr].
      exists fields, ref_fields, s. auto. }
    split; [reflexivity |].
    split; [apply length_map |].
    split.
    { intros d' Hd'. destruct d' as [| | | s' | |]; try reflexivity.
      cbn. apply find_beside; [exact Hp | congruence |].
      rewrite Hpown. apply String.eqb_neq. congruence. }
    exists (JObj fields). split.
    { cbn. eapply find_replaced; [exact Hp | | exact Hrecord].
      rewrite Hpown. apply String.eqb_refl. }
    split; [| reflexivity].
    unfold credential_id. rewrite Hpid. reflexivity.
  - (* insert_adds *)
    intros p token payload d v Hp Hnone Hpid Hrefers.
    destruct (Hrefers) as (fields0 & ref0 & E0 & Hdev0 & Hid0).
    subst payload. cbn [payload_id] in Hpid.
    destruct ref0 as [| | | | | ref_fields]; try discriminate.
    cbn [Py.getitem] in Hid0.
    destruct (Py.lookup_key "id" ref_fields) as [d0 |] eqn:Hd0; [| discriminate].
    inversion Hid0; subst d0.
    unfold answer_to, state_after, upsert_for, request_of. cbn.
    unfold upsert_credentials. cbn [Py.get]. rewrite Hpid, Hdev0. cbn [Py.get].
    rewrite Hd0.
    destruct d as [| | | s | |]; cbn; try discriminate.
    intros _. cbn in Hnone, Hp.
    assert (Hnew : forall s',
               owner_is s' (JObj (Py.set_key fields0 "id" (JStr ("cred-" +:+ s))))
               = String.eqb s s').
    { intros s'. unfold owner_is. cbn [Py.get].
      rewrite lookup_set_key_ne by discriminate. rewrite Hdev0. cbn [Py.get].
      rewrite Hd0. reflexivity. }
    split.
    { apply Forall_app. split; [exact Hp |]. constructor; [| constructor].
      exists (Py.set_key fields0 "id" (JStr ("cred-" +:+ s))), ref_fields, s.
      split; [reflexivity |]. split; [apply lookup_set_key_eq |].
      split; [rewrite lookup_set_key_ne by discriminate; exact Hdev0 | exact Hd0]. }
    split; [reflexivity |].
    split; [rewrite length_app; cbn; lia |].
    split.
    { intros d' Hd'. destruct d' as [| | | s' | |]; try reflexivity.
      cbn. apply find_app_other. rewrite Hnew. apply String.eqb_neq. congruence. }
    eexists. split.
    { cbn. rewrite (find_app_none _ _ _ Hnone). cbn [List.find].
      rewrite Hnew, String.eqb_refl. reflexivity. }
    cbn. rewrite lookup_set_key_ne by discriminate. reflexivity.
Qed.

End KeptStore.

(** ** Two runs of the entity reconciler on concrete platforms *)
Section TwoRuns.

Import Double Cases Kept Paged.

Local Abbreviation first_run :=
  (run (ensure_device "token" "drone-1" "drone-1-token") (holding plain_graph)).
Local Abbreviation second_run :=
  (run (ensure_device "token" "drone-1" "drone-1-token") (env (snd first_run))).


(** The two runs behind it: the second succeeds too, and the platform
    ends with the one entity and the one record of the first run, which
    carries the secret. *)
Lemma two_runs_one_entity :
  fst second_run = Ok drone
  /\ devices (env (snd second_run)) = [drone]
  /\ map token_of (credentials (env (snd second_run))) = [Some (JStr "drone-1-token")]
  /\ map credential_id (credentials (env (snd second_run)))
     = [Some (JStr "cred-dev-drone-1")].
Proof. repeat split; vm_compute; reflexivity. Qed.

Local Abbreviation crowded_run :=
  (run (ensure_device "token" "drone-1" "drone-1-token") crowded).
Local Abbreviation crowded_rerun :=
  (run (ensure_device "token" "drone-1" "drone-1-token") (env (snd crowded_run))).


End TwoRuns.
